(** * noProfit_dataBase: the automation pipeline of [automation.py]

    A shallow embedding of the pipeline that enriches a cached list of
    non-profit organizations through an external scraping subprocess and
    assembles the answers into a table written as CSV.

    Python values are embedded as follows.
    - [int] is [Z]; loop indices produced by [range] are [nat].
    - [str] is [string], one [ascii] per code point (code points below 256).
    - A [dict] is an association list in insertion order; its keys are
      unique, which the operations below preserve.
    - What the program obtains from outside (the scraping subprocess, the
      search service, the HTTP API, [json.loads], the pickled cache, the
      clock) is a field of the environment [Env]; every call is numbered, so
      an external service may answer the same request differently each time.
    - Effects (printing, sleeping, spawning a process, writing a file) are
      recorded in a trace carried by a state-and-exception monad. *)

From Stdlib Require Import ZArith List String Ascii Bool Lia DecimalString.
Import ListNotations.

Set Warnings "-register-all".



Open Scope list_scope.
Open Scope string_scope.

(* ================================================================== *)
(** * Python strings *)

Module PyStr.

Definition dquote : ascii := "034"%char.
Definition squote : ascii := "039"%char.
Definition backslash : ascii := "092"%char.
Definition slash : ascii := "047"%char.

Definition chr (c : ascii) : string := String c EmptyString.

(** [needle in hay] *)
Fixpoint str_in (needle hay : string) : bool :=
  prefix needle hay ||
  match hay with
  | EmptyString => false
  | String _ t => str_in needle t
  end.

(** [c in s] for a single character. *)
Fixpoint has_char (c : ascii) (s : string) : bool :=
  match s with
  | EmptyString => false
  | String a t => Ascii.eqb a c || has_char c t
  end.

(** [str(z)] for an [int]. *)
Definition str_of_Z (z : Z) : string := NilZero.string_of_int (Z.to_int z).
Definition str_of_nat (n : nat) : string := str_of_Z (Z.of_nat n).

(** [s[1:-1]] *)
Definition slice_1_m1 (s : string) : string :=
  substring 1 (String.length s - 2) s.

(** [s.replace(a, b)] for single characters [a] and [b]. *)
Fixpoint replace_char (a b : ascii) (s : string) : string :=
  match s with
  | EmptyString => EmptyString
  | String c t => String (if Ascii.eqb c a then b else c) (replace_char a b t)
  end.

(** The part of [s] before its last ["/"], when there is one. *)
Fixpoint before_last_slash (s : string) : option string :=
  match s with
  | EmptyString => None
  | String c t =>
      match before_last_slash t with
      | Some h => Some (String c h)
      | None => if Ascii.eqb c slash then Some EmptyString else None
      end
  end.

(** [s.rsplit('/', 1)[0]]: without a ["/"] the split has the one element
    [s]. *)
Definition rsplit_slash_head (s : string) : string :=
  match before_last_slash s with
  | Some h => h
  | None => s
  end.

(** [str.isprintable] on one character, for code points below 256: the
    control characters, the no-break space and the soft hyphen are not
    printable. *)
Definition isprintable (c : ascii) : bool :=
  let n := nat_of_ascii c in
  (((32 <=? n) && (n <? 127)) || ((161 <=? n) && negb (n =? 173)))%nat.

Definition hex_digit (n : nat) : ascii :=
  if (n <? 10)%nat then ascii_of_nat (48 + n) else ascii_of_nat (87 + n).

(** One character of [repr(s)], [q] being the quote that delimits it. *)
Definition repr_char (q c : ascii) : string :=
  if Ascii.eqb c q || Ascii.eqb c backslash then String backslash (chr c)
  else if Ascii.eqb c "009"%char then String backslash "t"
  else if Ascii.eqb c "010"%char then String backslash "n"
  else if Ascii.eqb c "013"%char then String backslash "r"
  else if isprintable c then chr c
  else
    let n := nat_of_ascii c in
    String backslash
      (String "x" (String (hex_digit (n / 16)) (chr (hex_digit (n mod 16))))).

Fixpoint repr_chars (q : ascii) (s : string) : string :=
  match s with
  | EmptyString => EmptyString
  | String c t => repr_char q c ++ repr_chars q t
  end.

(** [repr(s)] for a [str]: single quotes, unless the text has a single
    quote and no double quote. *)
Definition repr_str (s : string) : string :=
  let q := if has_char squote s && negb (has_char dquote s)
           then dquote else squote in
  String q (repr_chars q s ++ chr q).

(** [sep.join(ls)] *)
Definition join (sep : string) (ls : list string) : string :=
  String.concat sep ls.

End PyStr.

(* ================================================================== *)
(** * Python values as [json.loads] builds them *)

Module PyVal.
Import PyStr.

Inductive json : Type :=
| JNull
| JBool (b : bool)
| JInt (z : Z)
| JFloat (text : string)   (* a float, carried by its [repr] *)
| JStr (s : string)
| JList (l : list json)
| JObj (fields : list (string * json)).

Fixpoint repr (v : json) : string :=
  match v with
  | JNull => "None"
  | JBool true => "True"
  | JBool false => "False"
  | JInt z => str_of_Z z
  | JFloat t => t
  | JStr s => repr_str s
  | JList l => "[" ++ join ", " (map repr l) ++ "]"
  | JObj fs =>
      "{" ++ join ", "
               (map (fun kv => let '(k, x) := kv in
                               repr_str k ++ ": " ++ repr x) fs) ++ "}"
  end.

(** [str(v)], also what an f-string interpolates. *)
Definition str (v : json) : string :=
  match v with
  | JStr s => s
  | _ => repr v
  end.

Fixpoint json_eqb (a b : json) : bool :=
  match a, b with
  | JNull, JNull => true
  | JBool x, JBool y => Bool.eqb x y
  | JInt x, JInt y => Z.eqb x y
  | JFloat x, JFloat y => String.eqb x y
  | JStr x, JStr y => String.eqb x y
  | JList x, JList y =>
      (fix go (x y : list json) : bool :=
         match x, y with
         | [], [] => true
         | u :: x', v :: y' => json_eqb u v && go x' y'
         | _, _ => false
         end) x y
  | JObj x, JObj y =>
      (fix go (x y : list (string * json)) : bool :=
         match x, y with
         | [], [] => true
         | (k, u) :: x', (k', v) :: y' =>
             String.eqb k k' && json_eqb u v && go x' y'
         | _, _ => false
         end) x y
  | _, _ => false
  end.

(** Lists and dicts are not hashable. *)
Definition hashable (v : json) : bool :=
  match v with
  | JList _ | JObj _ => false
  | _ => true
  end.

(** ** The keys of a dict

    A dict tells its keys apart by [==], with which [hash] agrees: [True],
    [1] and [1.0] are one key, and so are [0.0] and [-0.0]. An [int] and a
    [float] are compared exactly, so the integer a float equals is read
    off its [repr]. *)
Definition digit_value (c : ascii) : option Z :=
  let n := nat_of_ascii c in
  if ((48 <=? n) && (n <=? 57))%nat then Some (Z.of_nat (n - 48)) else None.

Fixpoint digits_value (acc : Z) (s : string) : option Z :=
  match s with
  | EmptyString => Some acc
  | String c t =>
      match digit_value c with
      | Some d => digits_value (10 * acc + d) t
      | None => None
      end
  end.

(** A decimal numeral without a sign, and one with an optional sign. *)
Definition numeral (s : string) : option Z :=
  match s with
  | EmptyString => None
  | _ => digits_value 0 s
  end.

Definition signed (s : string) : option Z :=
  match s with
  | String "-" t => option_map Z.opp (numeral t)
  | String "+" t => numeral t
  | _ => numeral s
  end.

(** The text before the first [c], and the text after it when [c]
    occurs. *)
Fixpoint split_at (c : ascii) (s : string) : string * option string :=
  match s with
  | EmptyString => (EmptyString, None)
  | String a t =>
      if Ascii.eqb a c then (EmptyString, Some t)
      else let '(h, r) := split_at c t in (String a h, r)
  end.

(** The float nearest to a natural number, ties to even: from 2^53 on, a
    float has 53 significant bits. *)
Definition nearest_float (n : Z) : Z :=
  let bits := (Z.log2 n + 1)%Z in
  if (bits <=? 53)%Z then n
  else
    let k := (bits - 53)%Z in
    let q := Z.shiftr n k in
    let r := Z.land n (Z.ones k) in
    let half := Z.shiftl 1 (k - 1) in
    let q' := if (half <? r)%Z || ((r =? half)%Z && Z.odd q)
              then (q + 1)%Z else q in
    Z.shiftl q' k.

(** The integer that the float of repr [text] equals, when it equals one:
    [1.0], [-0.0], [1e+16] and [1.5e+16] do, [1.5], [1e-05], [inf] and
    [nan] do not. *)
Definition float_integer (text : string) : option Z :=
  let '(negative, body) :=
    match text with
    | String "-" t => (true, t)
    | _ => (false, text)
    end in
  let '(mantissa, exponent) := split_at "e" body in
  let '(whole, fraction) := split_at "." mantissa in
  let fraction := match fraction with Some f => f | None => EmptyString end in
  match numeral (whole ++ fraction),
        match exponent with Some e => signed e | None => Some 0%Z end with
  | Some m, Some e =>
      let e' := (e - Z.of_nat (String.length fraction))%Z in
      let magnitude :=
        if (0 <=? e')%Z then Some (m * 10 ^ e')%Z
        else if (m mod 10 ^ (- e') =? 0)%Z then Some (m / 10 ^ (- e'))%Z
        else None in
      option_map (fun n => if negative : bool then (- nearest_float n)%Z
                           else nearest_float n)
                 magnitude
  | _, _ => None
  end.

(** The number a key is, when it is an integer. *)
Definition key_number (v : json) : option Z :=
  match v with
  | JBool b => Some (if b then 1 else 0)%Z
  | JInt z => Some z
  | JFloat t => float_integer t
  | _ => None
  end.

(** [a == b] for two hashable values. *)
Definition key_eqb (a b : json) : bool :=
  match key_number a, key_number b with
  | Some x, Some y => Z.eqb x y
  | _, _ => json_eqb a b
  end.

End PyVal.

(* ================================================================== *)
(** * Insertion-ordered dictionaries *)

Module Dict.

Section Ops.
Context {K V : Type}.
Variable eqb : K -> K -> bool.

Definition dict : Type := list (K * V).

(** [d.get(k)] *)
Fixpoint get (k : K) (d : dict) : option V :=
  match d with
  | [] => None
  | (k', v) :: t => if eqb k' k then Some v else get k t
  end.

(** [d[k] = v]: an existing key keeps its position. *)
Fixpoint set (k : K) (v : V) (d : dict) : dict :=
  match d with
  | [] => [(k, v)]
  | (k', v') :: t =>
      if eqb k' k then (k', v) :: t else (k', v') :: set k v t
  end.

Definition keys (d : dict) : list K := map fst d.
Definition mem (k : K) (d : dict) : bool :=
  match get k d with Some _ => true | None => false end.
End Ops.

End Dict.

Definition sdict (V : Type) : Type := list (string * V).
Definition sget {V : Type} : string -> sdict V -> option V :=
  Dict.get String.eqb.
Definition sset {V : Type} : string -> V -> sdict V -> sdict V :=
  Dict.set String.eqb.

(* ================================================================== *)
(** * The part of pandas the pipeline uses *)

Module Pandas.
Import PyVal.

(** A cell is missing, or holds a number, or holds another Python value
    as it was given. A number is held in the type pandas infers for its
    column: [Num v] is the number [v] as an integer or as the float
    nearest to it (12 or 12.0, and a large integer may lose digits as a
    float). Which of the two depends on the other cells of the column, on
    whether the column was in the frame from the start, and on the version
    of pandas; the model leaves it open. *)
Inductive cell : Type :=
| NaN
| Num (v : json)
| Val (v : json).

(** The cell of a scalar. *)
Definition scalar (v : json) : cell :=
  match v with
  | JInt _ | JFloat _ => Num v
  | _ => Val v
  end.

(** Rows are aligned with [columns]. *)
Record DataFrame : Type := mkFrame {
  columns : list string;
  rows : list (list cell)
}.

(** [pd.DataFrame(columns=cols)] *)
Definition empty_frame (cols : list string) : DataFrame :=
  mkFrame cols [].

(** The cell that a value of the record fills in a frame whose index is
    [[0]]: a scalar is broadcast; a list has to have the length of the
    index, and its one element is the cell; a dict is aligned on the index,
    where its string keys never match the label [0]. [None] stands for the
    [ValueError] pandas raises on a list of another length. *)
Definition cell_of (v : json) : option cell :=
  match v with
  | JList [x] => Some (scalar x)
  | JList _ => None
  | JObj _ => Some NaN
  | _ => Some (scalar v)
  end.

Fixpoint cells_of (vs : list json) : option (list cell) :=
  match vs with
  | [] => Some []
  | v :: t =>
      match cell_of v, cells_of t with
      | Some c, Some cs => Some (c :: cs)
      | _, _ => None
      end
  end.

(** [pd.DataFrame(record, index=[0])] *)
Definition one_row_frame (record : sdict json) : option DataFrame :=
  match cells_of (map snd record) with
  | Some cs => Some (mkFrame (map fst record) [cs])
  | None => None
  end.

Definition has_column (c : string) (cols : list string) : bool :=
  existsb (String.eqb c) cols.

(** A row of a frame with columns [old], laid out on columns [new]. *)
Definition reindex (old new : list string) (row : list cell) : list cell :=
  map (fun c => match sget c (combine old row) with
                | Some x => x
                | None => NaN
                end) new.

(** [pd.concat([a, b], ignore_index=True)]: the columns of [a], then those
    of [b] that [a] lacks; the rows of [a], then those of [b]. The numbers
    of a column may change type here, which a [Num] cell leaves open. *)
Definition concat (a b : DataFrame) : DataFrame :=
  let cols :=
    (columns a ++
     filter (fun c => negb (has_column c (columns a))) (columns b))%list in
  mkFrame cols
    (map (reindex (columns a) cols) (rows a) ++
     map (reindex (columns b) cols) (rows b))%list.

(** What [to_csv(index=False)] writes: the header record and one record
    per row. The text layer of the csv writer (separators, quoting, the
    digits of a number) is below this model. *)
Record csv_file : Type := mkCsv {
  csv_header : list string;
  csv_records : list (list cell)
}.

Definition to_csv (db : DataFrame) : csv_file :=
  mkCsv (columns db) (rows db).

End Pandas.

(* ================================================================== *)
(** * Effects *)

Module Eff.
Import PyVal Pandas.

Inductive exn : Type :=
| DuckDuckGoSearchException (msg : string)
| IndexError
| KeyError (key : json)
| TypeError
| AttributeError
| ValueError
| JSONDecodeError
| FileNotFoundError (file : string)
| OtherError (class msg : string).

(** [str(e)] *)
Definition exn_str (e : exn) : string :=
  match e with
  | DuckDuckGoSearchException msg => msg
  | KeyError k => repr k
  | FileNotFoundError f => f
  | OtherError _ msg => msg
  | _ => EmptyString
  end.

Inductive outcome (A : Type) : Type :=
| Ok (a : A)
| Raise (e : exn).
Arguments Ok {A} a.
Arguments Raise {A} e.

(** [subprocess.run(..., capture_output=True, text=True)] *)
Record CompletedProcess : Type := mkProc {
  stdout : string;
  stderr : string
}.

Record datetime : Type := mkDate {
  year : nat; month : nat; day : nat; hour : nat; minute : nat
}.

Inductive event : Type :=
| EPrint (text : string)
| ESleep (seconds : Z)
| ERun (argv : list string)
| ESearch (keywords : string)
| EHttpGet (url : string) (params : sdict json)
| EWriteCsv (file : string) (content : csv_file).

(** The trace is chronological; the counters number the calls made to
    each external service. *)
Record world : Type := mkWorld {
  trace : list event;
  n_run : nat;
  n_search : nat;
  n_http : nat;
  n_clock : nat
}.

Definition world0 : world := mkWorld [] 0 0 0 0.

(** What lies outside the program. [keys.py] is not part of the sources:
    its two constants are fields too. *)
Record Env : Type := mkEnv {
  subprocess_run : nat -> list string -> CompletedProcess;
  ddgs_text : nat -> string -> outcome (list (sdict string));
  requests_get_json : nat -> string -> sdict json -> outcome json;
  json_loads : string -> option json;
  pickle_file : string -> option (sdict string);
  datetime_now : nat -> datetime;
  timedelta_str : datetime -> datetime -> string;
  frame_str : DataFrame -> string;
  search_api_key : string;
  search_engine_id : string;
  (* the exception that writing the file of that name raises, when the
     file system refuses it: a directory that does not exist, a file that
     may not be written *)
  write_error : string -> option exn
}.

Definition M (A : Type) : Type := world -> outcome A * world.

Definition ret {A : Type} (a : A) : M A := fun w => (Ok a, w).

Definition raise {A : Type} (e : exn) : M A := fun w => (Raise e, w).

Definition bind {A B : Type} (m : M A) (k : A -> M B) : M B :=
  fun w =>
    match m w with
    | (Ok a, w') => k a w'
    | (Raise e, w') => (Raise e, w')
    end.

(** [try: body except ...: handler]; the handler declines ([None]) the
    exceptions its [except] clause does not name. *)
Definition try_except {A : Type} (body : M A)
           (handler : exn -> option (M A)) : M A :=
  fun w =>
    match body w with
    | (Ok a, w') => (Ok a, w')
    | (Raise e, w') =>
        match handler e with
        | Some h => h w'
        | None => (Raise e, w')
        end
    end.

Definition emit (e : event) : M unit :=
  fun w => (Ok tt, mkWorld (trace w ++ [e])%list
                           (n_run w) (n_search w) (n_http w) (n_clock w)).

Definition print (text : string) : M unit := emit (EPrint text).
Definition sleep (seconds : Z) : M unit := emit (ESleep seconds).

(** Lifting of lookups that raise when they find nothing. *)
Definition or_raise {A : Type} (o : option A) (e : exn) : M A :=
  match o with
  | Some a => ret a
  | None => raise e
  end.

Definition when (b : bool) (m : M unit) : M unit :=
  if b then m else ret tt.

End Eff.

Declare Scope py_scope.
Delimit Scope py_scope with py.
Notation "x <- c1 ;; c2" := (Eff.bind c1 (fun x => c2))
  (at level 61, c1 at next level, right associativity) : py_scope.
Notation "' pat <- c1 ;; c2" :=
  (Eff.bind c1 (fun x => match x with pat => c2 end))
  (at level 61, pat pattern, c1 at next level, right associativity) : py_scope.
Notation "c1 ;; c2" := (Eff.bind c1 (fun _ => c2))
  (at level 61, right associativity) : py_scope.
Open Scope py_scope.

(** Loops. The body of [for_each] threads the local variables the loop
    assigns; the body of [for_return] answers [Some r] when it executes
    [return r]. *)
Fixpoint for_each {X S : Type} (xs : list X) (body : X -> S -> Eff.M S)
         (s : S) : Eff.M S :=
  match xs with
  | [] => Eff.ret s
  | x :: t => s' <- body x s ;; for_each t body s'
  end.

Fixpoint for_return {X A : Type} (xs : list X)
         (body : X -> Eff.M (option A)) : Eff.M (option A) :=
  match xs with
  | [] => Eff.ret None
  | x :: t =>
      r <- body x ;;
      match r with
      | Some a => Eff.ret (Some a)
      | None => for_return t body
      end
  end.

(** [range(z)] *)
Definition range (z : Z) : list nat := seq 0 (Z.to_nat z).

(** [l[:z]] *)
Definition slice_to {A : Type} (z : Z) (l : list A) : list A :=
  if (0 <=? z)%Z then firstn (Z.to_nat z) l
  else firstn (List.length l - Z.to_nat (- z)) l.

(* ================================================================== *)
(** * automation.py *)

Module Automation.
Import PyStr PyVal Pandas Eff.

Definition nl : string := chr "010"%char.

Section Program.
Variable E : Env.

(** ** Calls that leave the program *)

(** [subprocess.run(argv, capture_output=True, text=True)] *)
Definition run (argv : list string) : M CompletedProcess :=
  fun w =>
    (Ok (subprocess_run E (n_run w) argv),
     mkWorld (trace w ++ [ERun argv])%list
             (S (n_run w)) (n_search w) (n_http w) (n_clock w)).

(** [DDGS().text(keywords, region='ca-en', safesearch='off',
    timelimit='n', max_results=1)] *)
Definition DDGS_text (keywords : string) : M (list (sdict string)) :=
  fun w =>
    (ddgs_text E (n_search w) keywords,
     mkWorld (trace w ++ [ESearch keywords])%list
             (n_run w) (S (n_search w)) (n_http w) (n_clock w)).

(** [requests.get(url, params=params).json()] *)
Definition requests_get (url : string) (params : sdict json) : M json :=
  fun w =>
    (requests_get_json E (n_http w) url params,
     mkWorld (trace w ++ [EHttpGet url params])%list
             (n_run w) (n_search w) (S (n_http w)) (n_clock w)).

(** [datetime.now()] *)
Definition now : M datetime :=
  fun w =>
    (Ok (datetime_now E (n_clock w)),
     mkWorld (trace w) (n_run w) (n_search w) (n_http w) (S (n_clock w))).

(** [json.loads(text)] *)
Definition loads (text : string) : M json :=
  or_raise (json_loads E text) JSONDecodeError.

(** The command line [['python3', 'scraper.py', '-prompt', prompt,
    '-source', source_link]] of the three calls of the scraper. *)
Definition scraper_argv (prompt source_link : string) : list string :=
  ["python3"; "scraper.py"; "-prompt"; prompt; "-source"; source_link].

(** ** load_dict *)
Definition load_dict (dictionary_name : string) : M (sdict string) :=
  let file := dictionary_name ++ ".pkl" in
  or_raise (pickle_file E file) (FileNotFoundError file).

(** ** google_search

    The first three arguments are given by position. A keyword that names
    one of the three parameters gives it a second value, and the call
    raises [TypeError] before the body runs. *)
Definition names_a_parameter (kwargs : sdict json) : bool :=
  existsb (fun kv =>
             existsb (String.eqb (fst kv))
                     ["query"; "api_key"; "search_engine_id"])
          kwargs.

Definition google_search (query : json) (api_key search_engine_id : string)
           (kwargs : sdict json) : M json :=
  if names_a_parameter kwargs then raise TypeError
  else
    let url := "https://www.googleapis.com/customsearch/v1" in
    let params :=
      fold_left (fun d kv => sset (fst kv) (snd kv) d) kwargs
                [("q", query); ("key", JStr api_key);
                 ("cx", JStr search_engine_id)] in
    requests_get url params.

(** ** duckduckgo_search *)
Definition max_retries : nat := 10.
Definition initial_delay : Z := 5.

(** [results[0]['href']] *)
Definition first_href (results : list (sdict string)) : M string :=
  match results with
  | [] => raise IndexError
  | r :: _ => or_raise (sget "href" r) (KeyError (JStr "href"))
  end.

(** One turn of the retry loop. *)
Definition ddg_attempt (query : string) (attempt : nat)
  : M (option string) :=
  try_except
    (results <- DDGS_text (query ++ " BC") ;;
     href <- first_href results ;;
     ret (Some href))
    (fun e =>
       match e with
       | DuckDuckGoSearchException _ =>
           Some
             (if str_in "Ratelimit" (exn_str e)
                 && (attempt <? max_retries - 1)%nat
              then
                let delay := (initial_delay * 2 ^ Z.of_nat attempt)%Z in
                print ("Rate limit hit. Waiting " ++ str_of_Z delay
                       ++ " seconds before retrying...") ;;
                sleep delay ;;
                ret None
              else raise e)
       | _ => None
       end).

Definition duckduckgo_search (query : string) : M string :=
  r <- for_return (seq 0 max_retries) (ddg_attempt query) ;;
  match r with
  | Some url => ret url
  | None =>
      raise (DuckDuckGoSearchException
               "Max retries reached. Unable to complete search.")
  end.

(** ** scrap_link *)
Definition scrap_link (association : json) : M json :=
  match association with
  | JStr name =>
      let source_link :=
        "https://duckduckgo.com/?t=h_&q="
        ++ replace_char " "%char "+"%char name ++ "&ia=web" in
      let prompt := "find the link of " ++ name in
      result <- run (scraper_argv prompt source_link) ;;
      l2 <- loads (stdout result) ;;
      match l2 with
      | JObj fields => or_raise (sget "link" fields) (KeyError (JStr "link"))
      | _ => raise TypeError
      end
  | _ => raise AttributeError      (* no [replace] on a non-string *)
  end.

(** ** find_websites *)

(** The function answers either the error text of the subprocess or the
    pair of the names and their links. *)
Inductive found : Type :=
| ErrorText (text : string)
| NamesLinks (NPs_names : json) (NPs_links : list (json * json)).

(** [len(v)] *)
Definition len (v : json) : M nat :=
  match v with
  | JList l => ret (List.length l)
  | JStr s => ret (String.length s)
  | JObj fs => ret (List.length fs)
  | _ => raise TypeError
  end.

(** [v[n]] for an index [n] below [len(v)] *)
Definition item (v : json) (n : nat) : M json :=
  match v with
  | JList l => or_raise (nth_error l n) IndexError
  | JStr s =>
      match String.get n s with
      | Some c => ret (JStr (chr c))
      | None => raise IndexError
      end
  | JObj _ => raise (KeyError (JInt (Z.of_nat n)))
  | _ => raise TypeError
  end.

(** [NPs_links[np] = link]. An equal key keeps its place and its first
    form; keys are equal as Python has it. *)
Definition store_link (np link : json) (NPs_links : list (json * json))
  : M (list (json * json)) :=
  if hashable np then ret (Dict.set key_eqb np link NPs_links)
  else raise TypeError.

(** The right-hand side of the assignment that the chain of
    [if search_engine == ...] selects; [None] when no branch applies. *)
Definition search_backend (search_engine : string) (np : json)
  : M (option json) :=
  if String.eqb search_engine "google" then
    link <- google_search np (search_api_key E) (search_engine_id E)
                          [("lim", JInt 1)] ;;
    ret (Some link)
  else if String.eqb search_engine "ddg" then
    link <- duckduckgo_search (str np) ;;
    ret (Some (JStr link))
  else if String.eqb search_engine "gemini" then
    link <- scrap_link np ;;
    ret (Some link)
  else ret None.

Definition find_websites_step (search_engine : string) (NPs_names : json)
           (total n : nat) (NPs_links : list (json * json))
  : M (list (json * json)) :=
  np <- item NPs_names n ;;
  print (str_of_nat (n + 1) ++ "/" ++ str_of_nat total ++ " | " ++ str np) ;;
  answer <- search_backend search_engine np ;;
  match answer with
  | Some link => store_link np link NPs_links
  | None => ret NPs_links
  end.

Definition find_websites (source_link search_engine : string)
           (verbose : bool) : M found :=
  let prompt :=
    "find the names of all the associations listed in the website "
    ++ source_link in
  result <- run (scraper_argv prompt source_link) ;;
  when verbose (print "Finding the names of the associations done.") ;;
  if negb (String.eqb (stdout result) EmptyString) then
    resdict <- loads (stdout result) ;;
    NPs_names <- match resdict with
                 | JObj [] => raise IndexError
                 | JObj ((_, v) :: _) => ret v
                 | _ => raise AttributeError
                 end ;;
    total <- len NPs_names ;;
    NPs_links <- for_each (seq 0 total)
                   (find_websites_step search_engine NPs_names total) [] ;;
    when verbose (print "Finding the links of the associations done.") ;;
    ret (NamesLinks NPs_names NPs_links)
  else ret (ErrorText (stderr result)).

(** ** get_np_info *)
Definition info_prompt : string :=
  "find these infos about the no-profit organization:"
  ++ "              name, location, type, description, size, contacts, linkedin."
  ++ "              For linkedin, give the link;"
  ++ "              for type, select the field where the no-prift operates, e.g. health, environment, etc. Keep it to one, max two words.".

Definition get_np_info_step (limit : Z) (links NPs_names : list string)
           (verbose : bool) (n : nat) (NPs_dict : sdict (sdict json))
  : M (sdict (sdict json)) :=
  source_link <- or_raise (nth_error links n) IndexError ;;
  name <- or_raise (nth_error NPs_names n) IndexError ;;
  result <- run (scraper_argv info_prompt source_link) ;;
  NPs_dict' <-
    (if negb (String.eqb (stdout result) EmptyString) then
       parsed <- loads (stdout result) ;;
       match parsed with
       | JObj fields =>
           ret (sset name
                  (sset "link" (JStr (rsplit_slash_head source_link))
                     (sset "name" (JStr name) fields))
                  NPs_dict)
       | _ => raise TypeError    (* no item assignment by a string key *)
       end
     else
       print (str_of_nat (n + 1) ++ "/" ++ str_of_Z limit ++ " | " ++ name
              ++ nl ++ stderr result) ;;
       ret NPs_dict) ;;
  when verbose
       (print (str_of_nat (n + 1) ++ "/" ++ str_of_Z limit
               ++ " | done with " ++ name)) ;;
  ret NPs_dict'.

Definition get_np_info (limit : Z) (links NPs_names : list string)
           (verbose : bool) : M (sdict (sdict json)) :=
  for_each (range limit) (get_np_info_step limit links NPs_names verbose) [].

(** ** create_database *)
Definition table_columns : list string :=
  ["name"; "location"; "description"; "size"; "contacts"; "social_media";
   "link"].

(** The loop assigns to the entries of the caller's [NPs_dict] and to the
    local [db]: its state is the pair of them. *)
Definition create_database_step (key : string)
           (st : sdict (sdict json) * DataFrame)
  : M (sdict (sdict json) * DataFrame) :=
  let '(NPs_dict, db) := st in
  record <- or_raise (sget key NPs_dict) (KeyError (JStr key)) ;;
  contacts <- or_raise (sget "contacts" record) (KeyError (JStr "contacts")) ;;
  let record' := sset "contacts" (JStr (slice_1_m1 (str contacts))) record in
  let NPs_dict' := sset key record' NPs_dict in
  df <- or_raise (one_row_frame record') ValueError ;;
  ret (NPs_dict', concat db df).

(** Besides the table, the result carries the dictionary as the call
    leaves it to its caller. *)
Definition create_database (NPs_dict : sdict (sdict json)) (verbose : bool)
  : M (sdict (sdict json) * DataFrame) :=
  let db := empty_frame table_columns in
  st <- for_each (Dict.keys NPs_dict) create_database_step (NPs_dict, db) ;;
  when verbose (print "Database created.") ;;
  ret st.

(** ** save_db *)
Definition digit (d : nat) : ascii := ascii_of_nat (48 + d).
Definition pad2 (n : nat) : string :=
  String (digit (n / 10 mod 10)) (chr (digit (n mod 10))).
Definition pad4 (n : nat) : string :=
  String (digit (n / 1000 mod 10)) (chr (digit (n / 100 mod 10)))
  ++ pad2 n.

(** [d.strftime("%Y%m%d-%H%M")], the year on four digits. *)
Definition strftime (d : datetime) : string :=
  pad4 (year d) ++ pad2 (month d) ++ pad2 (day d) ++ "-"
  ++ pad2 (hour d) ++ pad2 (minute d).

(** [s[2:]] *)
Definition from_2 (s : string) : string :=
  substring 2 (String.length s - 2) s.

Definition save_db (db : DataFrame) (path : string) (verbose : bool)
  : M unit :=
  d <- now ;;
  let dt := from_2 (strftime d) in
  let file := path ++ "associations_" ++ dt ++ ".csv" in
  match write_error E file with
  | Some e => raise e
  | None => emit (EWriteCsv file (to_csv db))
  end ;;
  when verbose
       (print ("Database saved to " ++ chr dquote ++ path ++ chr dquote
               ++ " as" ++ nl ++ chr dquote ++ "associations_" ++ dt
               ++ ".csv" ++ chr dquote)).

(** ** main *)

(** [[f'{dbd[np]}/about' for np in NPs_names]] *)
Fixpoint about_links (dbd : sdict string) (NPs_names : list string)
  : M (list string) :=
  match NPs_names with
  | [] => ret []
  | np :: t =>
      link <- or_raise (sget np dbd) (KeyError (JStr np)) ;;
      rest <- about_links dbd t ;;
      ret ((link ++ "/about") :: rest)
  end.

Definition main (n_associations limit : Z) (path : string)
           (verbose : bool) : M DataFrame :=
  start <- now ;;
  dbd <- load_dict (path ++ "/links") ;;
  let NPs_names := slice_to n_associations (Dict.keys dbd) in
  links <- about_links dbd NPs_names ;;
  NPs_dict <- get_np_info limit links NPs_names verbose ;;
  st <- create_database NPs_dict false ;;
  let db := snd st in
  finish <- now ;;
  when verbose
       (print (nl ++ "Time taken: " ++ timedelta_str E start finish)) ;;
  ret db.

(** ** The script *)

(** What [parse_arguments] hands over. *)
Record Namespace : Type := mkArgs {
  n_associations : Z;
  limit : Z;
  source_link : string;
  path : string;
  verbose : bool
}.

Definition script (args : Namespace) : M unit :=
  db <- main (n_associations args) (limit args) (source_link args)
             (verbose args) ;;
  save_db db (path args) (verbose args) ;;
  when (verbose args) (print (frame_str E db)).

End Program.

End Automation.

(* ================================================================== *)
(** * Vocabulary of the statements *)

Section Observations.
Import PyStr PyVal Pandas Eff Automation.

(** The delays slept, in order. *)
Fixpoint sleeps (t : list event) : list Z :=
  match t with
  | [] => []
  | ESleep z :: t' => z :: sleeps t'
  | _ :: t' => sleeps t'
  end.

(** The command lines of the subprocesses spawned, in order. *)
Fixpoint runs (t : list event) : list (list string) :=
  match t with
  | [] => []
  | ERun argv :: t' => argv :: runs t'
  | _ :: t' => runs t'
  end.

(** The CSV files written, in order. *)
Fixpoint written (t : list event) : list (string * csv_file) :=
  match t with
  | [] => []
  | EWriteCsv file content :: t' => (file, content) :: written t'
  | _ :: t' => written t'
  end.

(** The search call numbered [call] is answered by a rate-limit error. *)
Definition rate_limited (E : Env) (query : string) (call : nat) : Prop :=
  exists msg,
    ddgs_text E call (query ++ " BC") = Raise (DuckDuckGoSearchException msg)
    /\ str_in "Ratelimit" msg = true.

(** The cell of column [c] in a row laid out on [cols]. *)
Definition cell_at (cols : list string) (row : list cell) (c : string)
  : option cell :=
  sget c (combine cols row).

(** The cell a record contributes to column [c]. *)
Definition field_cell (record : sdict json) (c : string) : cell :=
  match sget c record with
  | Some v => match cell_of v with Some x => x | None => NaN end
  | None => NaN
  end.

(** The row of a record on the columns [cols]. *)
Definition row_of (cols : list string) (record : sdict json) : list cell :=
  map (field_cell record) cols.

(** The header after the records have been appended in turn: each record
    adds the field names the header does not have yet. *)
Definition add_fields (cols : list string) (record : sdict json)
  : list string :=
  (cols ++ filter (fun c => negb (has_column c cols)) (Dict.keys record))%list.

Definition header_of (records : list (sdict json)) : list string :=
  fold_left add_fields records table_columns.

(** What create_database leaves of a record: its contacts flattened. *)
Definition flatten_record (record : sdict json) : sdict json :=
  match sget "contacts" record with
  | Some c => sset "contacts" (JStr (slice_1_m1 (str c))) record
  | None => record
  end.

Definition flatten_entry (entry : string * sdict json)
  : string * sdict json :=
  (fst entry, flatten_record (snd entry)).

(** The records assembled after [i] turns over the dictionary [d]. *)
Definition assembled (d : sdict (sdict json)) (i : nat)
  : list (sdict json) :=
  map snd (map flatten_entry (firstn i d)).

(** ** The extraction of organization [k] in a run of get_np_info that
    starts in the world [w0] *)
Section Extraction.
Variables (E : Env) (w0 : world) (limit : Z)
          (links NPs_names : list string).

Definition link_of (k : nat) : string := nth k links EmptyString.
Definition name_of (k : nat) : string := nth k NPs_names EmptyString.

(** The answer of the subprocess spawned for organization [k]. *)
Definition answer_of (k : nat) : CompletedProcess :=
  subprocess_run E (n_run w0 + k)
                 (scraper_argv info_prompt (link_of k)).

(** The extraction returned a non-empty stdout. *)
Definition extracted (k : nat) : bool :=
  negb (String.eqb (stdout (answer_of k)) EmptyString).

(** The record stored for organization [k]. *)
Definition record_of (k : nat) : sdict json :=
  match json_loads E (stdout (answer_of k)) with
  | Some (JObj fields) =>
      sset "link" (JStr (rsplit_slash_head (link_of k)))
           (sset "name" (JStr (name_of k)) fields)
  | _ => []
  end.

(** The diagnostic printed for organization [k]. *)
Definition diagnostic (k : nat) : string :=
  str_of_nat (k + 1) ++ "/" ++ str_of_Z limit ++ " | " ++ name_of k
  ++ nl ++ stderr (answer_of k).

(** The organizations extracted among the first [n]. *)
Definition extracted_among (n : nat) : list nat :=
  filter extracted (seq 0 n).

(** The dictionary after the first [n] organizations: the records of
    the extracted ones, assigned in turn. *)
Definition collected (n : nat) : sdict (sdict json) :=
  fold_left (fun d k => sset (name_of k) (record_of k) d)
            (extracted_among n) [].

(** The line printed after each organization in verbose mode. *)
Definition done_note (verbose : bool) (k : nat) : list event :=
  if verbose
  then [EPrint (str_of_nat (k + 1) ++ "/" ++ str_of_Z limit
                ++ " | done with " ++ name_of k)]
  else [].
End Extraction.

(** ** The batch that main draws from the cache *)
Section Batch.
Variables (E : Env) (path : string) (n_associations : Z).

(** The cache that main loads, empty when there is no such file. *)
Definition cache_of : sdict string :=
  match pickle_file E ((path ++ "/links") ++ ".pkl") with
  | Some dbd => dbd
  | None => []
  end.

Definition batch_names : list string :=
  slice_to n_associations (Dict.keys cache_of).

(** The link main builds for a name of the cache. *)
Definition about_link (np : string) : string :=
  match sget np cache_of with
  | Some link => link ++ "/about"
  | None => EmptyString
  end.

Definition batch_links : list string := map about_link batch_names.
End Batch.

(** A text that [repr] leaves as it is between its quotes: printable
    characters, no single quote, no backslash. *)
Fixpoint plain (s : string) : bool :=
  match s with
  | EmptyString => true
  | String c t =>
      isprintable c && negb (Ascii.eqb c squote)
      && negb (Ascii.eqb c backslash) && plain t
  end.

(** The flattened text of a list of contacts: the [repr] of its elements,
    separated by a comma and a space. *)
Definition flat_contacts (l : list json) : string :=
  join ", " (map repr l).

(** The stamp [YYMMDD-HHMM] of a date. *)
Definition stamp (d : datetime) : string :=
  pad2 (year d mod 100) ++ pad2 (month d) ++ pad2 (day d) ++ "-"
  ++ pad2 (hour d) ++ pad2 (minute d).

(** ** The discovery step *)

Definition discovery_prompt (source : string) : string :=
  "find the names of all the associations listed in the website " ++ source.

(** The answer of the subprocess that find_websites spawns in [w]. *)
Definition discovery_answer (E : Env) (w : world) (source : string)
  : CompletedProcess :=
  subprocess_run E (n_run w) (scraper_argv (discovery_prompt source) source).

(** The world in which find_websites looks at that answer. *)
Definition discovered (E : Env) (source : string) (verbose : bool)
           (w : world) : world :=
  snd ((run E (scraper_argv (discovery_prompt source) source) ;;
        when verbose (print "Finding the names of the associations done."))
         w).

(** The progress line of the name [np], the turn [n] of [total]. *)
Definition progress_line (n total : nat) (np : json) : string :=
  str_of_nat (n + 1) ++ "/" ++ str_of_nat total ++ " | " ++ str np.

(** The world once the clock has been read. *)
Definition after_clock (w : world) : world :=
  mkWorld (trace w) (n_run w) (n_search w) (n_http w) (S (n_clock w)).

(** The entry that get_np_info stores for an extracted organization. *)
Definition entry_of (E : Env) (w0 : world) (links NPs_names : list string)
           (k : nat) : string * sdict json :=
  (name_of NPs_names k, record_of E w0 links NPs_names k).

End Observations.

(* ================================================================== *)
(** * A small world to run the program in *)

Module Demo.
Import PyStr PyVal Pandas Eff Automation.

Definition quoted (s : string) : string := chr dquote ++ s ++ chr dquote.

(** The JSON text of a value whose strings need no escape. *)
Fixpoint to_text (v : json) : string :=
  match v with
  | JNull => "null"
  | JBool true => "true"
  | JBool false => "false"
  | JInt z => str_of_Z z
  | JFloat t => t
  | JStr s => quoted s
  | JList l => "[" ++ join ", " (map to_text l) ++ "]"
  | JObj fs =>
      "{" ++ join ", "
               (map (fun kv => let '(k, x) := kv in
                               quoted k ++ ": " ++ to_text x) fs) ++ "}"
  end.

(** What the extractor answers for three pages. The first answer echoes
    a name and a link of its own; the second has the [type] and
    [linkedin] fields that the prompt asks for. *)
Definition alpha_fields : sdict json :=
  [("name", JStr "X"); ("location", JStr "Y");
   ("description", JStr "food bank"); ("size", JInt 12);
   ("contacts", JList [JStr "a@x.org"; JStr "555-1234"]);
   ("social_media", JStr "@alpha");
   ("link", JStr "http://echo.example")].

Definition alpha : json := JObj alpha_fields.

Definition gamma : json :=
  JObj [("name", JStr "Gamma Society"); ("location", JStr "Vancouver");
        ("type", JStr "health"); ("description", JStr "clinic");
        ("size", JStr "small");
        ("contacts", JList [JStr "info@gamma.example"]);
        ("linkedin", JStr "https://linkedin.example/gamma")].

Definition directory : json :=
  JObj [("associations", JList [JStr "Alpha"; JStr "Beta"])].

(** [json.loads] on the texts above; any other text is malformed. *)
Definition loads_known (text : string) : option json :=
  find (fun v => String.eqb (to_text v) text) [alpha; gamma; directory].

Definition cache_a : sdict string :=
  [("Alpha", "http://example.org/team");
   ("Beta", "http://beta.example/home");
   ("Gamma", "http://gamma.example")].

Definition cache_b : sdict string :=
  [("Gamma", "http://gamma.example")].

Definition files (file : string) : option (sdict string) :=
  if String.eqb file "cacheA/links.pkl" then Some cache_a
  else if String.eqb file "cacheB/links.pkl" then Some cache_b
  else None.

(** The scraper answers by the source it is given; it fails on the page
    of Beta and on any page it does not know. *)
Definition scraper (call : nat) (argv : list string) : CompletedProcess :=
  let source := nth 5 argv EmptyString in
  if String.eqb source "http://example.org/team/about"
  then mkProc (to_text alpha) EmptyString
  else if String.eqb source "http://gamma.example/about"
  then mkProc (to_text gamma) EmptyString
  else if String.eqb source "http://directory.example"
  then mkProc (to_text directory) EmptyString
  else if String.eqb source "http://garbled.example"
  then mkProc "<html>" EmptyString
  else mkProc EmptyString ("scraper: no answer for " ++ source).

(** A disk with no directory [nodir]. *)
Definition writable (file : string) : option exn :=
  if prefix "nodir/" file
  then Some (OtherError "OSError"
                        "Cannot save file into a non-existent directory")
  else None.

(** A search service that always answers with a rate limit. *)
Definition limited (call : nat) (keywords : string)
  : outcome (list (sdict string)) :=
  Raise (DuckDuckGoSearchException "https://duckduckgo.com/ 202 Ratelimit").

Definition env : Env :=
  mkEnv scraper limited
        (fun _ _ _ => Raise (OtherError "ConnectionError" "offline"))
        loads_known files
        (fun _ => mkDate 2024 7 5 9 30)
        (fun _ _ => "0:00:01") (fun _ => "table")
        "api-key" "engine-id" writable.

Definition args_a : Namespace := mkArgs 3 3 "cacheA" "../" false.

(** Two command lines that differ in the source flag only. *)
Definition first_of_a : Namespace := mkArgs 1 1 "cacheA" "../" false.
Definition first_of_b : Namespace := mkArgs 1 1 "cacheB" "../" false.

(** A dictionary of one record, as get_np_info leaves it. *)
Definition one_record : sdict (sdict json) := [("Alpha", alpha_fields)].

(** The links and names that main draws from the first cache. *)
Definition links_a : list string := batch_links env "cacheA" 3.
Definition names_a : list string := batch_names env "cacheA" 3.

End Demo.

(* ================================================================== *)
(** * automation.py, the functions beside the batch path *)

Module Lookup.
Import PyStr PyVal Pandas Eff Automation.

Section Program.
Variable E : Env.

(** [v[key]] for a string key: only a dict has one. *)
Definition field (v : json) (key : string) : M json :=
  match v with
  | JObj fields => or_raise (sget key fields) (KeyError (JStr key))
  | _ => raise TypeError
  end.

(** ** get_links

    [lim] is a parameter of its own: Python binds a keyword of that name
    to it, so that [kwargs], the keywords handed on to google_search, are
    the other ones. *)
Definition get_links (query : json) (api_key search_engine_id : string)
           (lim : Z) (kwargs : sdict json) : M json :=
  results <- google_search E query api_key search_engine_id kwargs ;;
  items <- match results with
           | JObj fields =>
               ret (match sget "items" fields with
                    | Some v => v
                    | None => JList []
                    end)
           | _ => raise AttributeError      (* no [get] but on a dict *)
           end ;;
  first <- item items 0 ;;
  field first "link".

End Program.

End Lookup.

(* ================================================================== *)
(** * More vocabulary *)

Section MoreObservations.
Import PyStr PyVal Pandas Eff Automation.

(** The reply of the search service makes duckduckgo_search wait and try
    again, as long as it has attempts left. *)
Definition is_rate_limit (reply : outcome (list (sdict string))) : bool :=
  match reply with
  | Raise (DuckDuckGoSearchException msg) => str_in "Ratelimit" msg
  | _ => false
  end.

(** The seconds slept by a run. *)
Definition total_sleep (t : list event) : Z := fold_right Z.add 0%Z (sleeps t).

(** The HTTP requests made, in order. *)
Fixpoint requests (t : list event) : list (string * sdict json) :=
  match t with
  | [] => []
  | EHttpGet url params :: t' => (url, params) :: requests t'
  | _ :: t' => requests t'
  end.

(** The lines printed, in order. *)
Fixpoint printed (t : list event) : list string :=
  match t with
  | [] => []
  | EPrint text :: t' => text :: printed t'
  | _ :: t' => printed t'
  end.

(** A computation that writes no file, however it ends. *)
Definition writes_nothing {A : Type} (m : M A) : Prop :=
  forall w r w', m w = (r, w') -> written (trace w') = written (trace w).

(** A record that create_database can turn into a row: it has contacts,
    and once they are flattened every value fits a cell. *)
Definition assemblable (record : sdict json) : bool :=
  match sget "contacts" record with
  | Some _ =>
      match one_row_frame (flatten_record record) with
      | Some _ => true
      | None => false
      end
  | None => false
  end.

(** The answer for organization [k] is one that get_np_info can store or
    skip: an empty stdout, or a JSON object. *)
Definition storable (E : Env) (w0 : world) (links : list string) (k : nat)
  : bool :=
  negb (extracted E w0 links k)
  || match json_loads E (stdout (answer_of E w0 links k)) with
     | Some (JObj _) => true
     | _ => false
     end.

(** The exception that an answer that is not storable raises. *)
Definition rejection (E : Env) (w0 : world) (links : list string) (k : nat)
  : exn :=
  match json_loads E (stdout (answer_of E w0 links k)) with
  | None => JSONDecodeError
  | Some _ => TypeError
  end.

(** The base of the request of google_search, before the keyword
    arguments. *)
Definition base_params (query : json) (api_key search_engine_id : string)
  : sdict json :=
  [("q", query); ("key", JStr api_key); ("cx", JStr search_engine_id)].

(** The search page that scrap_link hands to the scraper. *)
Definition search_page (name : string) : string :=
  "https://duckduckgo.com/?t=h_&q="
  ++ replace_char " "%char "+"%char name ++ "&ia=web".

(** The address of the Custom Search API, and the request of find_websites
    for one name. *)
Definition api_url : string := "https://www.googleapis.com/customsearch/v1".

Definition name_request (E : Env) (name : string) : sdict json :=
  (base_params (JStr name) (search_api_key E) (search_engine_id E)
   ++ [("lim", JInt 1)])%list.

(** The answer of the scraper to scrap_link for [name]. *)
Definition link_answer (E : Env) (w : world) (name : string)
  : CompletedProcess :=
  subprocess_run E (n_run w)
                 (scraper_argv ("find the link of " ++ name)
                               (search_page name)).

End MoreObservations.

(* ================================================================== *)
(** * More of the small world *)

Module Demo2.
Import PyStr PyVal Pandas Eff Automation.

(** A search service limited on its first two calls. *)
Definition flaky (call : nat) (keywords : string)
  : outcome (list (sdict string)) :=
  if (call <? 2)%nat
  then Raise (DuckDuckGoSearchException "https://duckduckgo.com/ 202 Ratelimit")
  else Ok [[("title", keywords); ("href", "https://found.example")]].

(** A search service that times out, and one that finds nothing. *)
Definition timing_out (call : nat) (keywords : string)
  : outcome (list (sdict string)) :=
  Raise (DuckDuckGoSearchException "https://duckduckgo.com/ timed out").

Definition finding_nothing (call : nat) (keywords : string)
  : outcome (list (sdict string)) :=
  Ok [].

(** A search service that answers each query by a page named after it. *)
Definition finding (call : nat) (keywords : string)
  : outcome (list (sdict string)) :=
  Ok [[("href", "https://site.example/" ++ keywords)]].

(** The body of an API response with two items. *)
Definition response : json :=
  JObj [("kind", JStr "customsearch#search");
        ("items", JList [JObj [("title", JStr "Alpha");
                               ("link", JStr "https://alpha.example")];
                         JObj [("link", JStr "https://other.example")]])].

Definition api (call : nat) (url : string) (params : sdict json)
  : outcome json :=
  Ok response.

(** An answer that is JSON but no object, and a record without contacts. *)
Definition listing : json := JList [JStr "Alpha"; JStr "Beta"].

Definition found_link : json := JObj [("link", JStr "https://alpha.example")].

Definition loads_known (text : string) : option json :=
  find (fun v => String.eqb (Demo.to_text v) text)
       [Demo.alpha; Demo.gamma; Demo.directory; listing; found_link].

Definition scraper (call : nat) (argv : list string) : CompletedProcess :=
  let source := nth 5 argv EmptyString in
  if String.eqb source "http://list.example"
  then mkProc (Demo.to_text listing) EmptyString
  else if String.eqb source (search_page "Alpha Society")
  then mkProc (Demo.to_text found_link) EmptyString
  else Demo.scraper call argv.

Definition env_with (search : nat -> string -> outcome (list (sdict string)))
  : Env :=
  mkEnv scraper search api loads_known Demo.files
        (fun _ => mkDate 2024 7 5 9 30)
        (fun _ _ => "0:00:01") (fun _ => "table")
        "api-key" "engine-id" Demo.writable.

Definition env : Env := env_with finding.

Definition no_contacts : sdict json :=
  [("name", JStr "Beta"); ("location", JStr "Z")].

Definition two_sizes : sdict json :=
  [("name", JStr "Delta"); ("size", JList [JInt 1; JInt 2]);
   ("contacts", JList [])].

(** A record whose contacts are one text, not a list. *)
Definition text_contacts : sdict (sdict json) :=
  [("Epsilon", [("name", JStr "Epsilon"); ("contacts", JStr "e@x.org")])].

(** Two pages supplied under one name, and a batch whose second page is
    garbled. *)
Definition two_pages : list string :=
  ["http://example.org/team/about"; "http://gamma.example/about"].

Definition one_name : list string := ["Society"; "Society"].

Definition garbled_batch : list string :=
  ["http://example.org/team/about"; "http://garbled.example"].

Definition two_names : list string := ["Alpha"; "Garbled"].

(** The names of the directory, and the page found for each. *)
Definition listed : list string := ["Alpha"; "Beta"].

Definition page_of (k : nat) : string :=
  "https://site.example/" ++ nth k listed EmptyString ++ " BC".

(** An API that finds nothing. *)
Definition env_without_results : Env :=
  mkEnv scraper finding
        (fun _ _ _ => Ok (JObj [("kind", JStr "customsearch#search")]))
        loads_known Demo.files
        (fun _ => mkDate 2024 7 5 9 30)
        (fun _ _ => "0:00:01") (fun _ => "table")
        "api-key" "engine-id" Demo.writable.

(** Keyword arguments that replace the query. *)
Definition keywords : sdict json :=
  [("lim", JInt 1); ("q", JStr "other")].

(** A command line whose output directory does not exist. *)
Definition args_nodir : Namespace := mkArgs 3 3 "cacheA" "nodir/" false.

(** A keyword named after the first parameter. *)
Definition named : sdict json := [("query", JStr "other")].

End Demo2.

(* ================================================================== *)
(** * Reasoning about the monad and the loops *)

Section MonadFacts.
Import Eff.

Lemma bind_ok {A B : Type} {m : M A} (k : A -> M B) {w a w1} :
  m w = (Ok a, w1) -> bind m k w = k a w1.
Proof. unfold bind; intros ->; reflexivity. Qed.

Lemma bind_raise {A B : Type} {m : M A} (k : A -> M B) {w e w1} :
  m w = (Raise e, w1) -> bind m k w = (Raise e, w1).
Proof. unfold bind; intros ->; reflexivity. Qed.

Lemma bind_inv_ok {A B : Type} (m : M A) (k : A -> M B) w b w2 :
  bind m k w = (Ok b, w2) ->
  exists a w1, m w = (Ok a, w1) /\ k a w1 = (Ok b, w2).
Proof.
  unfold bind; destruct (m w) as [[a|e] w1]; intros H.
  - exists a, w1; split; [reflexivity | exact H].
  - discriminate.
Qed.

Lemma or_raise_inv_ok {A : Type} (o : option A) e w a w1 :
  or_raise o e w = (Ok a, w1) -> o = Some a /\ w1 = w.
Proof.
  destruct o as [x|]; cbn; intros H; inversion H; subst; auto.
Qed.

Lemma when_inv_ok b (m : M unit) w u w1 :
  when b m w = (Ok u, w1) ->
  (b = true /\ m w = (Ok u, w1)) \/ (b = false /\ w1 = w).
Proof.
  destruct b; cbn; intros H; [left; auto | right].
  inversion H; auto.
Qed.

(** An invariant indexed by the number of turns done holds when a
    [for_each] loop ends normally. *)
Lemma for_each_invariant {X St : Type} (body : X -> St -> M St)
      (I : nat -> St -> world -> Prop) :
  forall (xs : list X) (s : St) (w : world) (s' : St) (w' : world),
    I 0%nat s w ->
    (forall i x t u t' u',
        nth_error xs i = Some x -> I i t u ->
        body x t u = (Ok t', u') -> I (S i) t' u') ->
    for_each xs body s w = (Ok s', w') ->
    I (List.length xs) s' w'.
Proof.
  intros xs; revert I.
  induction xs as [|x xs IH]; intros I s w s' w' H0 Hstep Hrun.
  - cbn in Hrun. inversion Hrun; subst. exact H0.
  - cbn [for_each] in Hrun.
    apply bind_inv_ok in Hrun as (s1 & w1 & Hb & Hrest).
    apply (IH (fun i => I (S i)) s1 w1 s' w').
    + apply (Hstep 0%nat x s w s1 w1); [reflexivity | exact H0 | exact Hb].
    + intros i y t u t' u' Hn Hi Hy.
      apply (Hstep (S i) y t u t' u'); assumption.
    + exact Hrest.
Qed.

(** A [for_each] loop that raises in its turn [i] raises that exception
    as a whole. *)
Lemma for_each_raise {X St : Type} (body : X -> St -> M St) :
  forall (done : list X) (x : X) (rest : list X) s w t u e u',
    for_each done body s w = (Ok t, u) ->
    body x t u = (Raise e, u') ->
    for_each (done ++ x :: rest)%list body s w = (Raise e, u').
Proof.
  induction done as [|y done IH]; intros x rest s w t u e u' Hd Hx.
  - cbn in Hd. inversion Hd; subst. cbn [app for_each].
    apply bind_raise; exact Hx.
  - cbn [app for_each] in *.
    apply bind_inv_ok in Hd as (s1 & w1 & Hy & Hd).
    rewrite (bind_ok _ Hy). eapply IH; eassumption.
Qed.

End MonadFacts.

Ltac inv_bind H :=
  let a := fresh "a" in
  let w := fresh "w" in
  let H1 := fresh "Hrun" in
  apply bind_inv_ok in H as (a & w & H1 & H).

Tactic Notation "open_bind" hyp(H) "as" ident(a) ident(w) ident(H1) :=
  apply bind_inv_ok in H as (a & w & H1 & H).

(* ================================================================== *)
(** * The retry loop of duckduckgo_search *)

Section Backoff.
Import PyStr PyVal Eff Automation.
Variable E : Env.

Lemma sleeps_app t u : sleeps (t ++ u)%list = (sleeps t ++ sleeps u)%list.
Proof.
  induction t as [|e t IH]; [reflexivity|].
  destruct e; cbn; rewrite IH; reflexivity.
Qed.

Lemma ddg_attempt_retry query attempt w :
  rate_limited E query (n_search w) ->
  (attempt < 9)%nat ->
  exists w',
    ddg_attempt E query attempt w = (Ok None, w')
    /\ sleeps (trace w') = (sleeps (trace w) ++ [5 * 2 ^ Z.of_nat attempt]%Z)%list
    /\ n_search w' = S (n_search w).
Proof.
  intros (msg & Hreply & Hmsg) Hlt.
  unfold ddg_attempt, try_except, bind, DDGS_text.
  rewrite Hreply. cbn [exn_str]. rewrite Hmsg.
  assert (Hb : (attempt <? max_retries - 1)%nat = true)
    by (apply Nat.ltb_lt; unfold max_retries; cbn; lia).
  rewrite Hb. cbn.
  eexists; split; [reflexivity|]. cbn.
  rewrite !sleeps_app. cbn. rewrite !app_nil_r.
  split; reflexivity.
Qed.

Lemma ddg_attempt_give_up {query w msg} :
  ddgs_text E (n_search w) (query ++ " BC")
    = Raise (DuckDuckGoSearchException msg) ->
  exists w',
    ddg_attempt E query 9 w = (Raise (DuckDuckGoSearchException msg), w')
    /\ sleeps (trace w') = sleeps (trace w)
    /\ n_search w' = S (n_search w).
Proof.
  intros Hreply.
  unfold ddg_attempt, try_except, bind, DDGS_text.
  rewrite Hreply. cbn [exn_str].
  replace (9 <? max_retries - 1)%nat with false by reflexivity.
  rewrite andb_false_r. cbn.
  eexists; split; [reflexivity|]. cbn.
  rewrite sleeps_app. cbn. rewrite app_nil_r. split; reflexivity.
Qed.

(** The turns [a], ..., [9] of the loop when every reply is a rate
    limit. *)
Lemma retry_loop_exhausts query :
  forall n a w,
    (a + n = 9)%nat ->
    (forall k, (k <= n)%nat -> rate_limited E query (n_search w + k)) ->
    exists msg w',
      for_return (seq a (S n)) (ddg_attempt E query) w
        = (Raise (DuckDuckGoSearchException msg), w')
      /\ ddgs_text E (n_search w + n) (query ++ " BC")
         = Raise (DuckDuckGoSearchException msg)
      /\ sleeps (trace w')
         = (sleeps (trace w)
            ++ map (fun k => 5 * 2 ^ Z.of_nat k)%Z (seq a n))%list
      /\ n_search w' = (n_search w + S n)%nat.
Proof.
  induction n as [|n IH]; intros a w Ha Hall.
  - assert (a = 9%nat) by lia. subst a.
    destruct (Hall 0%nat (Nat.le_refl _)) as (msg & Hreply & _).
    rewrite Nat.add_0_r in Hreply.
    destruct (ddg_attempt_give_up Hreply) as (w' & Hrun & Hs & Hn).
    exists msg, w'. cbn [seq for_return].
    rewrite (bind_raise _ Hrun).
    rewrite Nat.add_0_r. cbn [map]. rewrite app_nil_r.
    repeat split; try assumption. lia.
  - assert (Hfirst : rate_limited E query (n_search w)).
    { specialize (Hall 0%nat (Nat.le_0_l _)).
      rewrite Nat.add_0_r in Hall. exact Hall. }
    destruct (@ddg_attempt_retry query a w Hfirst ltac:(lia))
      as (w1 & Hrun & Hs & Hn).
    destruct (IH (S a) w1 ltac:(lia)) as (msg & w' & Hloop & Hlast & Hs' & Hn').
    { intros k Hk. rewrite Hn.
      replace (S (n_search w) + k)%nat with (n_search w + S k)%nat by lia.
      apply Hall. lia. }
    exists msg, w'.
    change (seq a (S (S n))) with (a :: seq (S a) (S n)).
    cbn [for_return]. rewrite (bind_ok _ Hrun).
    split; [exact Hloop|]. split.
    + rewrite Hn in Hlast.
      replace (n_search w + S n)%nat with (S (n_search w) + n)%nat by lia.
      exact Hlast.
    + split.
      * rewrite Hs', Hs. cbn [seq map]. rewrite <- app_assoc. reflexivity.
      * rewrite Hn', Hn. lia.
Qed.

Lemma ddg_attempt_returns {query attempt w url w'} :
  ddg_attempt E query attempt w = (Ok (Some url), w') ->
  exists r rest,
    ddgs_text E (n_search w) (query ++ " BC") = Ok (r :: rest)
    /\ sget "href" r = Some url.
Proof.
  unfold ddg_attempt, try_except, bind, DDGS_text.
  destruct (ddgs_text E (n_search w) (query ++ " BC")) as [results|e] eqn:Hreply.
  - destruct results as [|r rest]; cbn.
    + discriminate.
    + destruct (sget "href" r) as [h|] eqn:Hh; cbn; intros H.
      * inversion H; subst. exists r, rest. split; [reflexivity | exact Hh].
      * discriminate.
  - destruct e; try discriminate.
    destruct (str_in "Ratelimit" (exn_str (DuckDuckGoSearchException msg))
              && (attempt <? max_retries - 1)%nat); cbn; discriminate.
Qed.

Lemma ddg_attempt_counts query attempt w r w' :
  ddg_attempt E query attempt w = (r, w') -> n_search w' = S (n_search w).
Proof.
  unfold ddg_attempt, try_except, bind, DDGS_text.
  destruct (ddgs_text E (n_search w) (query ++ " BC")) as [results|e].
  - destruct results as [|x rest]; cbn.
    + intros H; inversion H; reflexivity.
    + destruct (sget "href" x); cbn; intros H; inversion H; reflexivity.
  - destruct e; try (intros H; inversion H; reflexivity).
    destruct (str_in "Ratelimit" (exn_str (DuckDuckGoSearchException msg))
              && (attempt <? max_retries - 1)%nat); cbn;
      intros H; inversion H; reflexivity.
Qed.

Lemma retry_loop_returns {query} :
  forall {attempts w url w'},
    for_return attempts (ddg_attempt E query) w = (Ok (Some url), w') ->
    exists k r rest,
      (k < List.length attempts)%nat
      /\ ddgs_text E (n_search w + k) (query ++ " BC") = Ok (r :: rest)
      /\ sget "href" r = Some url.
Proof.
  induction attempts as [|a attempts IH]; intros w url w' Hrun.
  - cbn in Hrun. discriminate.
  - cbn [for_return] in Hrun. inv_bind Hrun.
    destruct a0 as [u|].
    + cbn in Hrun. inversion Hrun; subst.
      destruct (ddg_attempt_returns Hrun0) as (r & rest & Hreply & Hh).
      exists 0%nat, r, rest. rewrite Nat.add_0_r. cbn. repeat split; auto. lia.
    + apply ddg_attempt_counts in Hrun0.
      destruct (IH _ _ _ Hrun) as (k & r & rest & Hk & Hreply & Hh).
      exists (S k), r, rest. rewrite Hrun0 in Hreply.
      replace (n_search w + S k)%nat with (S (n_search w) + k)%nat by lia.
      cbn. repeat split; auto. lia.
Qed.

(** C1. When each of the ten search calls is answered by a rate-limit
    error, duckduckgo_search sleeps 5 * 2^k seconds before retry k, for
    k = 0, ..., 8 and nothing else, makes ten calls, and raises the error
    of the tenth call. Whatever the replies, a value it returns is the
    [href] of the first result of one of its at most ten calls. *)
Theorem duckduckgo_search_backoff (query : string) (w : world) :
  ((forall k, (k < 10)%nat -> rate_limited E query (n_search w + k)) ->
   exists msg w',
     duckduckgo_search E query w = (Raise (DuckDuckGoSearchException msg), w')
     /\ ddgs_text E (n_search w + 9) (query ++ " BC")
        = Raise (DuckDuckGoSearchException msg)
     /\ sleeps (trace w')
        = (sleeps (trace w)
           ++ map (fun k => 5 * 2 ^ Z.of_nat k)%Z (seq 0 9))%list
     /\ n_search w' = (n_search w + 10)%nat)
  /\
  (forall url w',
      duckduckgo_search E query w = (Ok url, w') ->
      exists k r rest,
        (k < 10)%nat
        /\ ddgs_text E (n_search w + k) (query ++ " BC") = Ok (r :: rest)
        /\ sget "href" r = Some url).
Proof.
  split.
  - intros Hall.
    destruct (@retry_loop_exhausts query 9 0 w eq_refl)
      as (msg & w' & Hloop & Hlast & Hs & Hn).
    { intros k Hk. apply Hall. lia. }
    exists msg, w'. unfold duckduckgo_search.
    change (seq 0 max_retries) with (seq 0 10).
    rewrite (bind_raise _ Hloop). repeat split; assumption.
  - intros url w' Hrun. unfold duckduckgo_search in Hrun.
    inv_bind Hrun. destruct a as [u|].
    + cbn in Hrun. inversion Hrun; subst.
      destruct (retry_loop_returns Hrun0) as (k & r & rest & Hk & H1 & H2).
      exists k, r, rest. repeat split; auto.
    + cbn in Hrun. discriminate.
Qed.

End Backoff.

(* ================================================================== *)
(** * Dictionaries *)

Section DictFacts.
Context {V : Type}.
Implicit Types (d : sdict V) (k : string) (v : V).

Lemma sget_sset_same k v d : sget k (sset k v d) = Some v.
Proof.
  induction d as [|[k' v'] d IH]; cbn.
  - rewrite String.eqb_refl. reflexivity.
  - destruct (String.eqb k' k) eqn:Hk; cbn; rewrite Hk; auto.
Qed.

Lemma sget_sset_other k k' v d :
  k <> k' -> sget k' (sset k v d) = sget k' d.
Proof.
  intros Hne. induction d as [|[k0 v0] d IH]; cbn.
  - destruct (String.eqb k k') eqn:Hk; [|reflexivity].
    apply String.eqb_eq in Hk. contradiction.
  - destruct (String.eqb k0 k) eqn:Hk; cbn.
    + apply String.eqb_eq in Hk. subst k0.
      destruct (String.eqb k k') eqn:Hk'; [|reflexivity].
      apply String.eqb_eq in Hk'. contradiction.
    + destruct (String.eqb k0 k'); auto.
Qed.

Lemma sget_none_notin k d : sget k d = None <-> ~ In k (Dict.keys d).
Proof.
  induction d as [|[k' v'] d IH]; cbn.
  - split; auto.
  - destruct (String.eqb k' k) eqn:Hk.
    + apply String.eqb_eq in Hk. subst. split; [discriminate|].
      intros H. exfalso. apply H. left. reflexivity.
    + apply String.eqb_neq in Hk. rewrite IH. split.
      * intros H [Heq|Hin]; [contradiction | auto].
      * intros H Hin. apply H. right. exact Hin.
Qed.

Lemma sget_some_in k v d : sget k d = Some v -> In (k, v) d.
Proof.
  induction d as [|[k' v'] d IH]; cbn; [discriminate|].
  destruct (String.eqb k' k) eqn:Hk.
  - apply String.eqb_eq in Hk. intros H. inversion H; subst. left. reflexivity.
  - intros H. right. auto.
Qed.

Lemma sset_fresh k v d :
  ~ In k (Dict.keys d) -> sset k v d = (d ++ [(k, v)])%list.
Proof.
  induction d as [|[k' v'] d IH]; cbn; intros Hn; [reflexivity|].
  destruct (String.eqb k' k) eqn:Hk.
  - apply String.eqb_eq in Hk. exfalso. apply Hn. left. exact Hk.
  - f_equal. apply IH. intros Hin. apply Hn. right. exact Hin.
Qed.

Lemma sset_length k v d :
  (List.length (sset k v d) <= S (List.length d))%nat.
Proof.
  induction d as [|[k' v'] d IH]; cbn; [lia|].
  destruct (String.eqb k' k); cbn; lia.
Qed.

Lemma sset_keys_in k v d :
  forall x, In x (Dict.keys (sset k v d)) <-> x = k \/ In x (Dict.keys d).
Proof.
  intros x. induction d as [|[k' v'] d IH]; cbn.
  - intuition auto.
  - destruct (String.eqb k' k) eqn:Hk; cbn.
    + apply String.eqb_eq in Hk. subst. intuition auto.
    + rewrite IH. intuition auto.
Qed.

Lemma sset_keys_present k v d :
  In k (Dict.keys d) -> Dict.keys (sset k v d) = Dict.keys d.
Proof.
  induction d as [|[k' v'] d IH]; cbn; [contradiction|].
  destruct (String.eqb k' k) eqn:Hk; cbn; [reflexivity|].
  apply String.eqb_neq in Hk.
  intros [H|H]; [contradiction|]. f_equal. apply IH. exact H.
Qed.

(** Assigning to the key of the entry that follows [pre] rewrites that
    entry where it stands. *)
Lemma sset_middle k v v0 (pre post : sdict V) :
  ~ In k (Dict.keys pre) ->
  sset k v (pre ++ (k, v0) :: post)%list = (pre ++ (k, v) :: post)%list.
Proof.
  induction pre as [|[k' v'] pre IH]; cbn; intros Hn.
  - rewrite String.eqb_refl. reflexivity.
  - destruct (String.eqb k' k) eqn:Hk.
    + apply String.eqb_eq in Hk. exfalso. apply Hn. left. exact Hk.
    + f_equal. apply IH. intros H. apply Hn. right. exact H.
Qed.

Lemma sget_middle k v0 (pre post : sdict V) :
  ~ In k (Dict.keys pre) ->
  sget k (pre ++ (k, v0) :: post)%list = Some v0.
Proof.
  induction pre as [|[k' v'] pre IH]; cbn; intros Hn.
  - rewrite String.eqb_refl. reflexivity.
  - destruct (String.eqb k' k) eqn:Hk.
    + apply String.eqb_eq in Hk. exfalso. apply Hn. left. exact Hk.
    + apply IH. intros H. apply Hn. right. exact H.
Qed.

Lemma sget_in_nodup k v d :
  NoDup (Dict.keys d) -> In (k, v) d -> sget k d = Some v.
Proof.
  induction d as [|[k' v'] d IH]; cbn; intros Hnd Hin; [contradiction|].
  inversion Hnd as [|? ? Hnotin Hnd']; subst.
  destruct Hin as [Heq|Hin].
  - inversion Heq; subst. rewrite String.eqb_refl. reflexivity.
  - destruct (String.eqb k' k) eqn:Hk.
    + apply String.eqb_eq in Hk. subst. exfalso. apply Hnotin.
      apply (in_map fst) in Hin. exact Hin.
    + auto.
Qed.

End DictFacts.

(* ================================================================== *)
(** * Frames *)

Section FrameFacts.
Import PyVal Pandas.

Lemma has_column_in c cols : has_column c cols = true <-> In c cols.
Proof.
  unfold has_column. rewrite existsb_exists. split.
  - intros (x & Hin & Hx). apply String.eqb_eq in Hx. subst. exact Hin.
  - intros Hin. exists c. split; [exact Hin | apply String.eqb_refl].
Qed.

Lemma sget_combine_map {A : Type} (g : string -> A) c cols :
  sget c (combine cols (map g cols))
  = if has_column c cols then Some (g c) else None.
Proof.
  induction cols as [|k cols IH]; cbn; [reflexivity|].
  rewrite (String.eqb_sym c k).
  destruct (String.eqb k c) eqn:Hk; cbn.
  - apply String.eqb_eq in Hk. subst. reflexivity.
  - exact IH.
Qed.

Lemma cells_of_length vs cs :
  cells_of vs = Some cs -> List.length cs = List.length vs.
Proof.
  revert cs. induction vs as [|v vs IH]; cbn; intros cs H.
  - inversion H. reflexivity.
  - destruct (cell_of v); [|discriminate].
    destruct (cells_of vs) as [cs'|]; [|discriminate].
    inversion H; subst. cbn. f_equal. apply IH. reflexivity.
Qed.

Lemma sget_combine_cells (record : sdict json) cs c :
  cells_of (map snd record) = Some cs ->
  match sget c (combine (map fst record) cs) with
  | Some x => x
  | None => NaN
  end = field_cell record c.
Proof.
  unfold field_cell. revert cs.
  induction record as [|[k v] record IH]; cbn; intros cs H.
  - reflexivity.
  - destruct (cell_of v) as [x|] eqn:Hv; [|discriminate].
    destruct (cells_of (map snd record)) as [cs'|] eqn:Hcs; [|discriminate].
    inversion H; subst. cbn.
    destruct (String.eqb k c); [rewrite Hv; reflexivity|].
    apply IH. reflexivity.
Qed.

Lemma reindex_one_row (record : sdict json) cs cols :
  cells_of (map snd record) = Some cs ->
  reindex (map fst record) cols cs = row_of cols record.
Proof.
  intros H. unfold reindex, row_of. apply map_ext.
  intros c. apply sget_combine_cells. exact H.
Qed.

Lemma reindex_row_of (record : sdict json) cols extra :
  (forall c, In c (Dict.keys record) -> In c cols) ->
  (forall c, In c extra -> ~ In c cols) ->
  reindex cols (cols ++ extra) (row_of cols record)
  = row_of (cols ++ extra) record.
Proof.
  intros Hkeys Hextra. unfold reindex, row_of at 2.
  apply map_ext_in. intros c Hc. unfold row_of.
  rewrite sget_combine_map.
  destruct (has_column c cols) eqn:Hhas; [reflexivity|].
  apply in_app_or in Hc. destruct Hc as [Hc|Hc].
  - apply has_column_in in Hc. congruence.
  - unfold field_cell.
    destruct (sget c record) eqn:Hg; [|reflexivity].
    exfalso. apply (Hextra c Hc). apply Hkeys.
    apply sget_some_in in Hg. apply (in_map fst) in Hg. exact Hg.
Qed.

Lemma add_fields_new cols (record : sdict json) :
  forall c,
    In c (filter (fun c => negb (has_column c cols)) (Dict.keys record)) ->
    ~ In c cols.
Proof.
  intros c Hc. apply filter_In in Hc as [_ Hc].
  intros Hin. apply has_column_in in Hin. rewrite Hin in Hc. discriminate.
Qed.

Lemma add_fields_covers cols (record : sdict json) :
  forall c, In c (Dict.keys record) -> In c (add_fields cols record).
Proof.
  intros c Hc. unfold add_fields. apply in_or_app.
  destruct (has_column c cols) eqn:Hhas.
  - left. apply has_column_in. exact Hhas.
  - right. apply filter_In. split; [exact Hc | rewrite Hhas; reflexivity].
Qed.

Lemma add_fields_keeps cols (record : sdict json) :
  forall c, In c cols -> In c (add_fields cols record).
Proof. intros c Hc. unfold add_fields. apply in_or_app. left. exact Hc. Qed.

(** Appending the one-row frame of a record. *)
Lemma concat_one_row (db : DataFrame) (records : list (sdict json))
      (record : sdict json) (df : DataFrame) :
  rows db = map (row_of (columns db)) records ->
  (forall r, In r records ->
             forall c, In c (Dict.keys r) -> In c (columns db)) ->
  one_row_frame record = Some df ->
  let db' := concat db df in
  columns db' = add_fields (columns db) record
  /\ rows db' = map (row_of (columns db')) (records ++ [record])%list.
Proof.
  intros Hrows Hkeys Hdf. unfold one_row_frame in Hdf.
  destruct (cells_of (map snd record)) as [cs|] eqn:Hcs; [|discriminate].
  inversion Hdf; subst df. clear Hdf. cbn.
  split; [reflexivity|].
  rewrite Hrows, map_map, map_app. cbn. f_equal.
  - apply map_ext_in. intros r Hr.
    apply reindex_row_of.
    + apply Hkeys. exact Hr.
    + apply add_fields_new.
  - f_equal. apply reindex_one_row. exact Hcs.
Qed.

Lemma header_of_app records (record : sdict json) :
  header_of (records ++ [record])%list
  = add_fields (header_of records) record.
Proof. unfold header_of. rewrite fold_left_app. reflexivity. Qed.

Lemma fold_add_fields_prefix (records : list (sdict json)) :
  forall cols, exists extra, fold_left add_fields records cols
                             = (cols ++ extra)%list.
Proof.
  induction records as [|r records IH]; intros cols; cbn.
  - exists []. rewrite app_nil_r. reflexivity.
  - destruct (IH (add_fields cols r)) as (extra & Hx).
    rewrite Hx. unfold add_fields. rewrite <- app_assoc.
    eexists. reflexivity.
Qed.

(** A record whose fields are all table columns leaves the header as it
    is. *)
Lemma add_fields_within cols (record : sdict json) :
  (forall c, In c (Dict.keys record) -> In c cols) ->
  add_fields cols record = cols.
Proof.
  intros H. unfold add_fields.
  replace (filter (fun c => negb (has_column c cols)) (Dict.keys record))
    with (@nil string); [apply app_nil_r|].
  symmetry. induction (Dict.keys record) as [|c l IH]; [reflexivity|].
  cbn. assert (Hc : has_column c cols = true).
  { apply has_column_in. apply H. left. reflexivity. }
  rewrite Hc. cbn. apply IH. intros x Hx. apply H. right. exact Hx.
Qed.

Lemma fold_add_fields_within (records : list (sdict json)) :
  forall cols,
    (forall r, In r records ->
               forall c, In c (Dict.keys r) -> In c cols) ->
    fold_left add_fields records cols = cols.
Proof.
  induction records as [|r records IH]; intros cols H; cbn; [reflexivity|].
  rewrite add_fields_within.
  - apply IH. intros r' Hr'. apply H. right. exact Hr'.
  - apply H. left. reflexivity.
Qed.

End FrameFacts.

(* ================================================================== *)
(** * get_np_info *)

Section InfoCollection.
Import PyStr PyVal Pandas Eff Automation.
Variables (E : Env) (limit : Z) (links NPs_names : list string)
          (verbose : bool).

Lemma runs_app t u : runs (t ++ u)%list = (runs t ++ runs u)%list.
Proof.
  induction t as [|e t IH]; [reflexivity|].
  destruct e; cbn; rewrite IH; reflexivity.
Qed.

Lemma runs_done_note k :
  runs (done_note limit NPs_names verbose k) = [].
Proof. unfold done_note. destruct verbose; reflexivity. Qed.

Lemma nth_error_seq_eq a n i x :
  nth_error (seq a n) i = Some x -> x = (a + i)%nat /\ (i < n)%nat.
Proof.
  revert a i. induction n as [|n IH]; intros a i H.
  - destruct i; discriminate.
  - destruct i as [|i]; cbn in H.
    + inversion H. lia.
    + apply IH in H. lia.
Qed.

(** One turn of the loop that ends normally, for the organization [n] of
    a run started in [w0], [n] subprocesses later. *)
Lemma get_np_info_step_ok w0 n d w d' w' :
  n_run w = (n_run w0 + n)%nat ->
  get_np_info_step E limit links NPs_names verbose n d w = (Ok d', w') ->
  (n < List.length links)%nat /\ (n < List.length NPs_names)%nat
  /\ n_run w' = S (n_run w)
  /\ ((extracted E w0 links n = true
       /\ (exists fields,
              json_loads E (stdout (answer_of E w0 links n))
              = Some (JObj fields))
       /\ d' = sset (name_of NPs_names n) (record_of E w0 links NPs_names n) d
       /\ trace w'
          = (trace w
             ++ ERun (scraper_argv info_prompt (link_of links n))
             :: done_note limit NPs_names verbose n)%list)
      \/
      (extracted E w0 links n = false
       /\ d' = d
       /\ trace w'
          = (trace w
             ++ ERun (scraper_argv info_prompt (link_of links n))
             :: EPrint (diagnostic E w0 limit links NPs_names n)
             :: done_note limit NPs_names verbose n)%list)).
Proof.
  intros Hn Hrun. unfold get_np_info_step in Hrun.
  inv_bind Hrun. apply or_raise_inv_ok in Hrun0 as [Hlink ->].
  inv_bind Hrun. apply or_raise_inv_ok in Hrun0 as [Hname ->].
  rename a into link, a0 into name.
  assert (Hl : link_of links n = link)
    by (unfold link_of; apply nth_error_nth; exact Hlink).
  assert (Hm : name_of NPs_names n = name)
    by (unfold name_of; apply nth_error_nth; exact Hname).
  split; [apply nth_error_Some; congruence|].
  split; [apply nth_error_Some; congruence|].
  inv_bind Hrun. unfold run in Hrun0. inversion Hrun0; subst a w1.
  clear Hrun0.
  assert (Hans : subprocess_run E (n_run w) (scraper_argv info_prompt link)
                 = answer_of E w0 links n).
  { unfold answer_of. rewrite Hl, Hn. reflexivity. }
  rewrite Hans in Hrun.
  inv_bind Hrun. rename a into dict1.
  inv_bind Hrun. cbn in Hrun. inversion Hrun; subst d' w'. clear Hrun.
  assert (Hnote : n_run w2 = n_run w1
                  /\ trace w2 = (trace w1
                                 ++ done_note limit NPs_names verbose n)%list).
  { unfold done_note. rewrite Hm.
    destruct verbose; cbn in Hrun1; inversion Hrun1; subst; cbn.
    - split; reflexivity.
    - rewrite app_nil_r. split; reflexivity. }
  destruct Hnote as [Hn2 Ht2]. clear Hrun1.
  destruct (String.eqb (stdout (answer_of E w0 links n)) EmptyString) eqn:Hout;
    cbn [negb] in Hrun0.
  - (* empty stdout *)
    inv_bind Hrun0. cbn in Hrun0. inversion Hrun0; subst dict1 w1.
    unfold print, emit in Hrun. inversion Hrun; subst w3. clear Hrun Hrun0.
    cbn in Hn2, Ht2. split; [exact Hn2|]. right.
    split; [unfold extracted; rewrite Hout; reflexivity|].
    split; [reflexivity|].
    rewrite Ht2. unfold diagnostic. rewrite Hl, Hm.
    rewrite <- !app_assoc. reflexivity.
  - (* an answer *)
    open_bind Hrun0 as parsed w3 Hloads.
    apply or_raise_inv_ok in Hloads as [Hparse ->].
    destruct parsed as [| | | | |?|fields]; try discriminate.
    cbn in Hrun0. inversion Hrun0; subst dict1 w1. clear Hrun0.
    cbn in Hn2, Ht2. split; [exact Hn2|]. left.
    split; [unfold extracted; rewrite Hout; reflexivity|].
    split; [exists fields; exact Hparse|].
    split.
    + unfold record_of. rewrite Hparse, Hl, Hm. reflexivity.
    + rewrite Ht2, Hl. rewrite <- app_assoc. reflexivity.
Qed.

Lemma extracted_among_S w0 n :
  extracted_among E w0 links (S n)
  = (extracted_among E w0 links n
     ++ (if extracted E w0 links n then [n] else []))%list.
Proof.
  unfold extracted_among. rewrite seq_S, filter_app. cbn.
  destruct (extracted E w0 links n); reflexivity.
Qed.

(** What a run of get_np_info that ends normally has done. *)
Lemma get_np_info_spec w0 d w1 :
  get_np_info E limit links NPs_names verbose w0 = (Ok d, w1) ->
  let L := Z.to_nat limit in
  d = collected E w0 links NPs_names L
  /\ n_run w1 = (n_run w0 + L)%nat
  /\ (L <= List.length links)%nat /\ (L <= List.length NPs_names)%nat
  /\ runs (trace w1)
     = (runs (trace w0)
        ++ map (fun k => scraper_argv info_prompt (link_of links k))
               (seq 0 L))%list
  /\ (forall k, (k < L)%nat -> extracted E w0 links k = true ->
                exists fields,
                  json_loads E (stdout (answer_of E w0 links k))
                  = Some (JObj fields))
  /\ (forall k, (k < L)%nat -> extracted E w0 links k = false ->
                In (EPrint (diagnostic E w0 limit links NPs_names k))
                   (trace w1)).
Proof.
  intros Hrun L. unfold get_np_info, range in Hrun. fold L in Hrun.
  pose (I := fun (i : nat) (d : sdict (sdict json)) (w : world) =>
    d = collected E w0 links NPs_names i
    /\ n_run w = (n_run w0 + i)%nat
    /\ (i <= List.length links)%nat /\ (i <= List.length NPs_names)%nat
    /\ runs (trace w)
       = (runs (trace w0)
          ++ map (fun k => scraper_argv info_prompt (link_of links k))
                 (seq 0 i))%list
    /\ (forall k, (k < i)%nat -> extracted E w0 links k = true ->
                  exists fields,
                    json_loads E (stdout (answer_of E w0 links k))
                    = Some (JObj fields))
    /\ (forall k, (k < i)%nat -> extracted E w0 links k = false ->
                  In (EPrint (diagnostic E w0 limit links NPs_names k))
                     (trace w))).
  assert (HI : I (List.length (seq 0 L)) d w1).
  { eapply (@for_each_invariant _ _ _ I); [ | | exact Hrun].
    - unfold I. cbn. rewrite app_nil_r, Nat.add_0_r.
      repeat split; try lia; intros k Hk; lia.
    - intros i x t u t' u' Hx (Hd & Hn & Hll & Hln & Hr & Hp & Hf) Hstep.
      apply nth_error_seq_eq in Hx as [-> _]. cbn [Nat.add] in Hstep.
      destruct (@get_np_info_step_ok w0 i t u t' u' Hn Hstep)
        as (Hl1 & Hl2 & Hn' & Hcase).
      assert (Hcommon :
        runs (trace u')
        = (runs (trace w0)
           ++ map (fun k => scraper_argv info_prompt (link_of links k))
                  (seq 0 (S i)))%list
        /\ (forall e, In e (trace u) -> In e (trace u'))).
      { destruct Hcase as [(_ & _ & _ & Ht)|(_ & _ & Ht)]; rewrite Ht;
          (split; [| intros e He; apply in_or_app; left; exact He]);
          rewrite runs_app; cbn [runs]; rewrite runs_done_note, Hr;
          rewrite seq_S, map_app, <- app_assoc; reflexivity. }
      destruct Hcommon as [Hr' Hmono].
      unfold I. split; [|split; [lia|split; [lia|split; [lia|split;
        [exact Hr'|split]]]]].
      + unfold collected. rewrite extracted_among_S, fold_left_app.
        fold (collected E w0 links NPs_names i). rewrite <- Hd.
        destruct Hcase as [(Hx & _ & Hd' & _)|(Hx & Hd' & _)];
          rewrite Hx; cbn; exact Hd'.
      + intros k Hk Hx. destruct (Nat.eq_dec k i) as [->|Hne].
        * destruct Hcase as [(_ & Hfields & _)|(Hx' & _)];
            [exact Hfields | congruence].
        * apply Hp; [lia | exact Hx].
      + intros k Hk Hx. destruct (Nat.eq_dec k i) as [->|Hne].
        * destruct Hcase as [(Hx' & _)|(_ & _ & Ht)]; [congruence|].
          rewrite Ht. apply in_or_app. right. right. left. reflexivity.
        * apply Hmono. apply Hf; [lia | exact Hx]. }
  rewrite length_seq in HI. exact HI.
Qed.

End InfoCollection.

Arguments get_np_info_spec {E limit links NPs_names verbose w0 d w1} _.

(* ================================================================== *)
(** * create_database *)

Section Assembly.
Import PyStr PyVal Pandas Eff Automation.

Lemma firstn_skipn_nth {A : Type} (l : list A) i x :
  nth_error l i = Some x ->
  firstn (S i) l = (firstn i l ++ [x])%list
  /\ skipn i l = x :: skipn (S i) l.
Proof.
  revert i. induction l as [|a l IH]; intros i H.
  - destruct i; discriminate.
  - destruct i as [|i]; cbn in H.
    + inversion H; subst. split; reflexivity.
    + destruct (IH i H) as [H1 H2]. split.
      * change (firstn (S (S i)) (a :: l)) with (a :: firstn (S i) l).
        rewrite H1. reflexivity.
      * exact H2.
Qed.

Lemma keys_flatten (d : sdict (sdict json)) :
  Dict.keys (map flatten_entry d) = Dict.keys d.
Proof.
  unfold Dict.keys. rewrite map_map. apply map_ext. intros [k r]. reflexivity.
Qed.

Lemma assembled_S {d i key record} :
  nth_error d i = Some (key, record) ->
  assembled d (S i) = (assembled d i ++ [flatten_record record])%list.
Proof.
  intros H. unfold assembled.
  destruct (firstn_skipn_nth _ _ _ H) as [-> _].
  rewrite !map_app. reflexivity.
Qed.

(** One turn of the loop of create_database on the entry [i]. *)
Lemma create_database_step_ok {d : sdict (sdict json)} {i key record db w
      st' w'} :
  NoDup (Dict.keys d) ->
  nth_error d i = Some (key, record) ->
  rows db = map (row_of (columns db)) (assembled d i) ->
  (forall r, In r (assembled d i) ->
             forall c, In c (Dict.keys r) -> In c (columns db)) ->
  create_database_step key
    ((map flatten_entry (firstn i d) ++ skipn i d)%list, db) w = (Ok st', w') ->
  exists db',
    st' = ((map flatten_entry (firstn (S i) d) ++ skipn (S i) d)%list, db')
    /\ w' = w
    /\ (exists c, sget "contacts" record = Some c)
    /\ columns db' = add_fields (columns db) (flatten_record record)
    /\ rows db' = map (row_of (columns db')) (assembled d (S i)).
Proof.
  intros Hnd Hnth Hrows Hkeys Hrun.
  destruct (firstn_skipn_nth _ _ _ Hnth) as [Hfirst Hskip].
  assert (Hfresh : ~ In key (Dict.keys (map flatten_entry (firstn i d)))).
  { rewrite keys_flatten.
    rewrite <- (firstn_skipn i d), Hskip in Hnd.
    unfold Dict.keys in Hnd. rewrite map_app in Hnd. cbn in Hnd.
    apply NoDup_remove_2 in Hnd. intros Hin. apply Hnd.
    apply in_or_app. left. exact Hin. }
  unfold create_database_step in Hrun. rewrite Hskip in Hrun.
  open_bind Hrun as rec0 w1 Hget.
  apply or_raise_inv_ok in Hget as [Hget ->].
  rewrite (sget_middle _ record _ _ Hfresh) in Hget.
  inversion Hget; subst rec0. clear Hget.
  open_bind Hrun as c w2 Hc. apply or_raise_inv_ok in Hc as [Hc ->].
  open_bind Hrun as df w3 Hdf. apply or_raise_inv_ok in Hdf as [Hdf ->].
  cbn in Hrun. inversion Hrun; subst st' w'. clear Hrun.
  assert (Hflat : sset "contacts" (JStr (slice_1_m1 (str c))) record
                  = flatten_record record)
    by (unfold flatten_record; rewrite Hc; reflexivity).
  rewrite Hflat in *.
  destruct (concat_one_row db (assembled d i) _ _ Hrows Hkeys Hdf)
    as [Hcols Hr].
  exists (concat db df). split; [|split; [reflexivity|split;
    [exists c; exact Hc|split; [exact Hcols|]]]].
  - f_equal. rewrite (sset_middle _ _ _ _ _ Hfresh), Hfirst, map_app.
    rewrite <- app_assoc. reflexivity.
  - rewrite (assembled_S Hnth). exact Hr.
Qed.

(** What a call of create_database that ends normally has done: every
    record has its contacts flattened; the table has the rows of the
    flattened records on the header they build. *)
Lemma create_database_spec {d : sdict (sdict json)} {verbose w d' db w'} :
  NoDup (Dict.keys d) ->
  create_database d verbose w = (Ok (d', db), w') ->
  d' = map flatten_entry d
  /\ (forall key record, In (key, record) d ->
                         exists c, sget "contacts" record = Some c)
  /\ columns db = header_of (map snd d')
  /\ rows db = map (row_of (columns db)) (map snd d')
  /\ n_run w' = n_run w
  /\ trace w'
     = (trace w
        ++ if verbose then [EPrint "Database created."] else [])%list.
Proof.
  intros Hnd Hrun. unfold create_database in Hrun.
  open_bind Hrun as st w1 Hloop.
  open_bind Hrun as u w2 Hprint. cbn in Hrun. inversion Hrun; subst st w2.
  clear Hrun.
  pose (I := fun (i : nat) (st : sdict (sdict json) * DataFrame) (u : world) =>
    u = w
    /\ fst st = (map flatten_entry (firstn i d) ++ skipn i d)%list
    /\ (forall key record, In (key, record) (firstn i d) ->
                           exists c, sget "contacts" record = Some c)
    /\ columns (snd st) = header_of (assembled d i)
    /\ rows (snd st) = map (row_of (columns (snd st))) (assembled d i)
    /\ (forall r, In r (assembled d i) ->
                  forall c, In c (Dict.keys r) -> In c (columns (snd st)))).
  assert (HI : I (List.length (Dict.keys d)) (d', db) w1).
  { eapply (@for_each_invariant _ _ _ I); [ | | exact Hloop].
    - unfold I, assembled. cbn. repeat split; try reflexivity;
        intros; contradiction.
    - intros i key [D t] u0 st' u' Hkey
             (Hu & HD & Hc & Hcols & Hrows & Hcov) Hstep.
      cbn [fst snd] in *. subst D u0.
      unfold Dict.keys in Hkey. rewrite nth_error_map in Hkey.
      destruct (nth_error d i) as [[key' record]|] eqn:Hnth; [|discriminate].
      cbn in Hkey. inversion Hkey; subst key'. clear Hkey.
      destruct (create_database_step_ok Hnd Hnth Hrows Hcov Hstep)
        as (db' & -> & -> & Hcontacts & Hcols' & Hrows').
      destruct (firstn_skipn_nth _ _ _ Hnth) as [Hfirst _].
      unfold I. cbn [fst snd].
      split; [reflexivity|].
      split; [reflexivity|]. split; [|split; [|split; [exact Hrows'|]]].
      + intros k r Hin. rewrite Hfirst in Hin.
        apply in_app_or in Hin as [Hin|[Heq|[]]].
        * apply (Hc k r Hin).
        * inversion Heq; subst. exact Hcontacts.
      + rewrite (assembled_S Hnth), header_of_app, <- Hcols. exact Hcols'.
      + intros r Hr c Hin. rewrite Hcols'.
        rewrite (assembled_S Hnth) in Hr.
        apply in_app_or in Hr as [Hr|[Heq|[]]].
        * apply add_fields_keeps. apply (Hcov r Hr c Hin).
        * subst r. apply add_fields_covers. exact Hin. }
  unfold I, assembled in HI. cbn [fst snd] in HI.
  unfold Dict.keys in HI. rewrite length_map in HI.
  rewrite firstn_all, skipn_all, app_nil_r in HI.
  destruct HI as (Hw & Hd' & Hc & Hcols & Hrows & _).
  subst d' w1.
  assert (Hworld : n_run w' = n_run w
                   /\ trace w'
                      = (trace w ++ if verbose
                                    then [EPrint "Database created."]
                                    else [])%list).
  { destruct verbose; cbn in Hprint; inversion Hprint; subst; cbn.
    - split; reflexivity.
    - rewrite app_nil_r. split; reflexivity. }
  destruct Hworld as [Hn Ht].
  repeat split; assumption.
Qed.

End Assembly.

(* ================================================================== *)
(** * The dictionary that get_np_info builds *)

Section Collected.
Import PyStr PyVal Pandas Eff Automation.
Variables (E : Env) (w0 : world) (links NPs_names : list string).

Lemma sset_nodup {V : Type} k (v : V) (d : sdict V) :
  NoDup (Dict.keys d) -> NoDup (Dict.keys (sset k v d)).
Proof.
  intros Hnd. destruct (in_dec string_dec k (Dict.keys d)) as [Hin|Hnot].
  - rewrite sset_keys_present; assumption.
  - rewrite sset_fresh by exact Hnot.
    unfold Dict.keys. rewrite map_app. cbn.
    apply NoDup_app.
    + exact Hnd.
    + constructor; [intros [] | constructor].
    + intros x Hx [Heq|[]]. subst. contradiction.
Qed.

Lemma fold_sset_facts (ks : list nat) :
  forall d : sdict (sdict json),
    NoDup (Dict.keys d) ->
    let d' := fold_left
                (fun d k => sset (name_of NPs_names k)
                                 (record_of E w0 links NPs_names k) d) ks d in
    NoDup (Dict.keys d')
    /\ (List.length d' <= List.length d + List.length ks)%nat.
Proof.
  induction ks as [|k ks IH]; intros d Hnd; cbn.
  - split; [exact Hnd | lia].
  - destruct (IH _ (sset_nodup (name_of NPs_names k)
                      (record_of E w0 links NPs_names k) _ Hnd)) as [H1 H2].
    split; [exact H1|].
    pose proof (sset_length (name_of NPs_names k)
                  (record_of E w0 links NPs_names k) d).
    cbn in H2. lia.
Qed.

Lemma collected_nodup n :
  NoDup (Dict.keys (collected E w0 links NPs_names n)).
Proof.
  unfold collected. apply (fold_sset_facts _ []). constructor.
Qed.

Lemma collected_length n :
  (List.length (collected E w0 links NPs_names n)
   <= List.length (extracted_among E w0 links n))%nat.
Proof.
  unfold collected.
  destruct (fold_sset_facts (extracted_among E w0 links n) []
                            (NoDup_nil _)) as [_ H].
  cbn in H. exact H.
Qed.

Lemma extracted_among_bound n :
  (List.length (extracted_among E w0 links n) <= n)%nat.
Proof.
  unfold extracted_among.
  pose proof (filter_length_le (extracted E w0 links) (seq 0 n)) as H.
  rewrite length_seq in H. exact H.
Qed.

Lemma extracted_among_in n k :
  In k (extracted_among E w0 links n)
  <-> (k < n)%nat /\ extracted E w0 links k = true.
Proof.
  unfold extracted_among. rewrite filter_In, in_seq. intuition lia.
Qed.

Lemma name_of_inj j k :
  NoDup NPs_names ->
  (j < List.length NPs_names)%nat -> (k < List.length NPs_names)%nat ->
  name_of NPs_names j = name_of NPs_names k -> j = k.
Proof.
  intros Hnd Hj Hk Heq. unfold name_of in Heq.
  rewrite NoDup_nth in Hnd. apply (Hnd j k Hj Hk Heq).
Qed.

(** With names that differ, each extracted organization appends its
    entry. *)
Lemma fold_sset_fresh (ks : list nat) :
  NoDup NPs_names -> NoDup ks ->
  (forall k, In k ks -> (k < List.length NPs_names)%nat) ->
  forall d : sdict (sdict json),
    (forall k, In k ks -> ~ In (name_of NPs_names k) (Dict.keys d)) ->
    fold_left (fun d k => sset (name_of NPs_names k)
                               (record_of E w0 links NPs_names k) d) ks d
    = (d ++ map (entry_of E w0 links NPs_names) ks)%list.
Proof.
  intros Hnames. induction ks as [|k ks IH]; intros Hks Hlt d Hfresh; cbn.
  - rewrite app_nil_r. reflexivity.
  - inversion Hks as [|? ? Hk Hks']; subst.
    rewrite sset_fresh by (apply Hfresh; left; reflexivity).
    rewrite IH.
    + rewrite <- app_assoc. reflexivity.
    + exact Hks'.
    + intros j Hj. apply Hlt. right. exact Hj.
    + intros j Hj Hin. unfold Dict.keys in Hin. rewrite map_app in Hin.
      apply in_app_or in Hin as [Hin|[Heq|[]]].
      * apply (Hfresh j); [right; exact Hj | exact Hin].
      * cbn in Heq. apply name_of_inj in Heq.
        -- subst j. contradiction.
        -- exact Hnames.
        -- apply Hlt. left. reflexivity.
        -- apply Hlt. right. exact Hj.
Qed.

Lemma collected_entries n :
  NoDup NPs_names -> (n <= List.length NPs_names)%nat ->
  collected E w0 links NPs_names n
  = map (entry_of E w0 links NPs_names) (extracted_among E w0 links n).
Proof.
  intros Hnames Hn. unfold collected.
  rewrite fold_sset_fresh; try assumption.
  - reflexivity.
  - unfold extracted_among. apply NoDup_filter. apply seq_NoDup.
  - intros k Hk. apply extracted_among_in in Hk. lia.
  - intros k _ [].
Qed.

(** The record of an extracted organization carries the caller's name
    and the link cut at its last slash, whatever the answer held. *)
Lemma record_of_fields k fields :
  json_loads E (stdout (answer_of E w0 links k)) = Some (JObj fields) ->
  let record := record_of E w0 links NPs_names k in
  sget "name" record = Some (JStr (name_of NPs_names k))
  /\ sget "link" record = Some (JStr (rsplit_slash_head (link_of links k)))
  /\ (forall f, f <> "name" -> f <> "link" -> sget f record = sget f fields).
Proof.
  intros Hparse. cbn. unfold record_of. rewrite Hparse.
  split; [|split].
  - rewrite sget_sset_other by discriminate. apply sget_sset_same.
  - apply sget_sset_same.
  - intros f Hn Hl.
    rewrite sget_sset_other by congruence.
    rewrite sget_sset_other by congruence. reflexivity.
Qed.

End Collected.

Arguments record_of_fields E w0 links NPs_names k {fields} _.
Arguments collected_entries E w0 links {NPs_names n} _ _.

(* ================================================================== *)
(** * main *)

Section Driver.
Import PyStr PyVal Pandas Eff Automation.
Variable E : Env.

Lemma about_links_ok dbd names w links w' :
  about_links dbd names w = (Ok links, w') ->
  w' = w
  /\ links = map (fun np => match sget np dbd with
                            | Some link => link ++ "/about"
                            | None => EmptyString
                            end) names.
Proof.
  revert w links w'. induction names as [|np names IH]; intros w links w' H.
  - cbn in H. inversion H. split; reflexivity.
  - cbn [about_links] in H.
    open_bind H as link w1 Hlink. apply or_raise_inv_ok in Hlink as [Hlink ->].
    open_bind H as rest w2 Hrest. apply IH in Hrest as [-> ->].
    cbn in H. inversion H; subst. cbn [map]. rewrite Hlink.
    split; reflexivity.
Qed.

(** A run of main that ends normally has loaded the cache, collected the
    batch and assembled its table. *)
Lemma main_ok {n limit path verbose w db w'} :
  main E n limit path verbose w = (Ok db, w') ->
  exists dbd d d' w1 w2,
    pickle_file E ((path ++ "/links") ++ ".pkl") = Some dbd
    /\ cache_of E path = dbd
    /\ get_np_info E limit (batch_links E path n) (batch_names E path n)
                   verbose (after_clock w) = (Ok d, w1)
    /\ create_database d false w1 = (Ok (d', db), w2)
    /\ n_run w' = n_run w2
    /\ (forall e, In e (trace w2) -> In e (trace w'))
    /\ runs (trace w') = runs (trace w2)
    /\ n_clock w' = S (n_clock w2).
Proof.
  intros H. unfold main in H.
  open_bind H as start w1 Hnow. unfold now in Hnow.
  inversion Hnow; subst start w1. clear Hnow.
  fold (after_clock w) in H.
  open_bind H as dbd w1 Hload. unfold load_dict in Hload.
  apply or_raise_inv_ok in Hload as [Hload ->].
  assert (Hcache : cache_of E path = dbd)
    by (unfold cache_of; rewrite Hload; reflexivity).
  open_bind H as links w1 Hlinks. apply about_links_ok in Hlinks as [-> ->].
  open_bind H as d w1 Hinfo.
  open_bind H as st w2 Hdb. destruct st as [d' db0].
  open_bind H as finish w3 Hnow. unfold now in Hnow.
  inversion Hnow; subst finish w3. clear Hnow.
  open_bind H as u w4 Hprint. cbn in H. inversion H; subst db0 w4. clear H.
  exists dbd, d, d', w1, w2.
  split; [exact Hload|]. split; [exact Hcache|].
  split.
  { unfold batch_links, batch_names, about_link. rewrite Hcache.
    exact Hinfo. }
  split; [exact Hdb|].
  destruct verbose; cbn in Hprint; inversion Hprint; subst; cbn.
  - split; [reflexivity|]. split; [|split; [|reflexivity]].
    + intros e He. apply in_or_app. left. exact He.
    + rewrite runs_app. cbn. apply app_nil_r.
  - repeat split. intros e He. exact He.
Qed.

(** The table of a run of main: one row for each entry that get_np_info
    stored. *)
Lemma main_table {n limit path verbose w db w'} :
  main E n limit path verbose w = (Ok db, w') ->
  let links := batch_links E path n in
  let names := batch_names E path n in
  let L := Z.to_nat limit in
  let records :=
    map snd (map flatten_entry (collected E (after_clock w) links names L)) in
  columns db = header_of records
  /\ rows db = map (row_of (columns db)) records
  /\ (L <= List.length names)%nat
  /\ n_run w' = (n_run w + L)%nat
  /\ runs (trace w')
     = (runs (trace w)
        ++ map (fun k => scraper_argv info_prompt (link_of links k))
               (seq 0 L))%list
  /\ (forall k, (k < L)%nat -> extracted E (after_clock w) links k = true ->
                exists fields,
                  json_loads E (stdout (answer_of E (after_clock w) links k))
                  = Some (JObj fields))
  /\ (forall k, (k < L)%nat -> extracted E (after_clock w) links k = false ->
                In (EPrint (diagnostic E (after_clock w) limit links names k))
                   (trace w')).
Proof.
  intros H. cbn zeta.
  destruct (main_ok H)
    as (dbd & d & d' & w1 & w2 & _ & _ & Hinfo & Hdb & Hn & Hmono & Hruns & _).
  destruct (get_np_info_spec Hinfo)
    as (Hd & Hn1 & _ & Hlen & Hr1 & Hparse & Hdiag).
  assert (Hnd : NoDup (Dict.keys d)) by (subst d; apply collected_nodup).
  destruct (create_database_spec Hnd Hdb)
    as (Hd' & _ & Hcols & Hrows & Hn2 & Ht2).
  subst d d'. cbn [app] in Ht2. rewrite app_nil_r in Ht2.
  split; [exact Hcols|]. split; [exact Hrows|]. split; [exact Hlen|].
  split; [rewrite Hn, Hn2, Hn1; reflexivity|].
  split; [rewrite Hruns, Ht2, Hr1; reflexivity|].
  split; [exact Hparse|].
  intros k Hk Hx. apply Hmono. rewrite Ht2. apply Hdiag; assumption.
Qed.

End Driver.

(* ================================================================== *)
(** * The table of a batch *)

Section BatchTable.
Import PyStr PyVal Pandas Eff Automation.
Variable E : Env.

Lemma NoDup_firstn {A : Type} (l : list A) n : NoDup l -> NoDup (firstn n l).
Proof.
  revert n. induction l as [|a l IH]; intros n H.
  - rewrite firstn_nil. constructor.
  - destruct n as [|n]; cbn; [constructor|].
    inversion H as [|? ? Hnot Hnd]; subst. constructor.
    + intros Hin. apply Hnot.
      rewrite <- (firstn_skipn n l). apply in_or_app. left. exact Hin.
    + apply IH. exact Hnd.
Qed.

Lemma batch_names_nodup path n :
  NoDup (Dict.keys (cache_of E path)) -> NoDup (batch_names E path n).
Proof.
  intros H. unfold batch_names, slice_to.
  destruct (0 <=? n)%Z; apply NoDup_firstn; exact H.
Qed.

Lemma filter_true {A : Type} (f : A -> bool) (l : list A) :
  (forall x, In x l -> f x = true) -> filter f l = l.
Proof.
  induction l as [|a l IH]; intros H; cbn; [reflexivity|].
  rewrite (H a (or_introl eq_refl)). f_equal. apply IH.
  intros x Hx. apply H. right. exact Hx.
Qed.

(** Among [L] turns of which only turn [k] fails, the others remain. *)
Lemma filter_all_but_one (f : nat -> bool) L k :
  (k < L)%nat -> f k = false ->
  (forall j, (j < L)%nat -> j <> k -> f j = true) ->
  filter f (seq 0 L) = (seq 0 k ++ seq (S k) (L - S k))%list.
Proof.
  intros Hk Hf Hothers.
  replace L with (k + S (L - S k))%nat at 1 by lia.
  rewrite seq_app, filter_app. cbn [seq filter Nat.add]. rewrite Hf.
  rewrite !filter_true; [reflexivity| |].
  - intros j Hj. apply in_seq in Hj. apply Hothers; lia.
  - intros j Hj. apply in_seq in Hj. apply Hothers; lia.
Qed.

Lemma cell_at_row_of cols record c :
  In c cols -> cell_at cols (row_of cols record) c = Some (field_cell record c).
Proof.
  intros Hin. unfold cell_at, row_of. rewrite sget_combine_map.
  apply has_column_in in Hin. rewrite Hin. reflexivity.
Qed.

Lemma header_has_table_columns records c :
  In c table_columns -> In c (header_of records).
Proof.
  intros Hin. unfold header_of.
  destruct (fold_add_fields_prefix records table_columns) as (extra & ->).
  apply in_or_app. left. exact Hin.
Qed.

Lemma sget_flatten_other (record : sdict json) f :
  f <> "contacts" -> sget f (flatten_record record) = sget f record.
Proof.
  intros Hne. unfold flatten_record.
  destruct (sget "contacts" record); [|reflexivity].
  apply sget_sset_other. congruence.
Qed.

(** The name and link cells of the row of an extracted organization. *)
Lemma extracted_row_cells w0 links names k {fields} cols :
  json_loads E (stdout (answer_of E w0 links k)) = Some (JObj fields) ->
  In "name" cols -> In "link" cols ->
  let row := row_of cols (flatten_record (record_of E w0 links names k)) in
  cell_at cols row "name" = Some (Val (JStr (name_of names k)))
  /\ cell_at cols row "link"
     = Some (Val (JStr (rsplit_slash_head (link_of links k)))).
Proof.
  intros Hparse Hn Hl. cbn zeta.
  destruct (record_of_fields E w0 links names k Hparse) as (H1 & H2 & _).
  rewrite !cell_at_row_of by assumption. unfold field_cell.
  rewrite !sget_flatten_other by discriminate.
  rewrite H1, H2. split; reflexivity.
Qed.

(** With a cache whose names differ, the table of main has the rows of
    the extracted organizations, in order. *)
Lemma main_rows {n limit path verbose w db w'} :
  NoDup (Dict.keys (cache_of E path)) ->
  main E n limit path verbose w = (Ok db, w') ->
  let links := batch_links E path n in
  let names := batch_names E path n in
  rows db
  = map (fun k => row_of (columns db)
                         (flatten_record (record_of E w links names k)))
        (extracted_among E w links (Z.to_nat limit)).
Proof.
  intros Hnd H. cbn zeta.
  destruct (main_table E H) as (_ & Hrows & Hlen & _).
  rewrite Hrows.
  rewrite (collected_entries E (after_clock w) _ (batch_names_nodup _ n Hnd) Hlen).
  rewrite !map_map. reflexivity.
Qed.

Lemma before_last_slash_none (s : string) :
  has_char slash s = false -> before_last_slash s = None.
Proof.
  induction s as [|c s IH]; [reflexivity|].
  cbn [has_char before_last_slash]. intros H.
  apply orb_false_iff in H as [Hc Hs]. rewrite (IH Hs), Hc. reflexivity.
Qed.

Lemma before_last_slash_app (h t : string) :
  has_char slash t = false ->
  before_last_slash (h ++ String slash t) = Some h.
Proof.
  intros Ht. induction h as [|c h IH]; cbn [append before_last_slash].
  - rewrite (before_last_slash_none t Ht), Ascii.eqb_refl. reflexivity.
  - rewrite IH. reflexivity.
Qed.

Lemma rsplit_about (link : string) :
  rsplit_slash_head (link ++ "/about") = link.
Proof.
  unfold rsplit_slash_head.
  assert (H : before_last_slash (link ++ "/about") = Some link).
  { induction link as [|c t IH]; [reflexivity|].
    cbn [append before_last_slash]. rewrite IH. reflexivity. }
  rewrite H. reflexivity.
Qed.

End BatchTable.

(* ================================================================== *)
(** * The claims on the batch *)

Section BatchClaims.
Import PyStr PyVal Pandas Eff Automation.
Variable E : Env.

(** C2. For a batch size [n] and a limit [limit <= n], a number of
    organizations, the table that main obtains from get_np_info followed by
    create_database has at most [limit] rows, and no more rows than there
    are organizations among the first [limit] whose extraction subprocess
    returned a non-empty stdout. *)
Theorem table_rows_bounded (n limit : Z) (path : string) (verbose : bool)
        (w : world) (db : DataFrame) (w' : world) :
  (0 <= limit <= n)%Z ->
  main E n limit path verbose w = (Ok db, w') ->
  (Z.of_nat (List.length (rows db)) <= limit)%Z
  /\ (List.length (rows db)
      <= List.length (extracted_among E w (batch_links E path n)
                                      (Z.to_nat limit)))%nat.
Proof.
  intros Hlimit H.
  destruct (main_table E H) as (_ & Hrows & _).
  assert (Hlen : (List.length (rows db)
                  <= List.length (extracted_among E w (batch_links E path n)
                                                  (Z.to_nat limit)))%nat).
  { rewrite Hrows, !length_map.
    apply (collected_length E (after_clock w)). }
  split; [|exact Hlen].
  pose proof (extracted_among_bound E w (batch_links E path n)
                                    (Z.to_nat limit)).
  lia.
Qed.

(** C3. For every organization [k] whose extraction succeeds, the record
    that get_np_info stores under the caller's name has that name as its
    [name] field and, as its [link] field, the caller's source link
    without its final segment: for a source link [h/t], where [t] holds no
    slash, the stored link is [h], whatever [name] and [link] the answer
    of the extractor held (a source link without a slash is stored as it
    is); the other fields are those of the answer. The names supplied
    differ, as the keys of the cache they come from. *)
Theorem stored_name_and_link (limit : Z) (links NPs_names : list string)
        (verbose : bool) (w : world) (d : sdict (sdict json)) (w' : world)
        (k : nat) :
  NoDup NPs_names ->
  get_np_info E limit links NPs_names verbose w = (Ok d, w') ->
  (k < Z.to_nat limit)%nat ->
  extracted E w links k = true ->
  exists fields record,
    json_loads E (stdout (answer_of E w links k)) = Some (JObj fields)
    /\ sget (name_of NPs_names k) d = Some record
    /\ sget "name" record = Some (JStr (name_of NPs_names k))
    /\ (forall h t, link_of links k = h ++ String slash t ->
                    has_char slash t = false ->
                    sget "link" record = Some (JStr h))
    /\ (has_char slash (link_of links k) = false ->
        sget "link" record = Some (JStr (link_of links k)))
    /\ (forall f, f <> "name" -> f <> "link" ->
                  sget f record = sget f fields).
Proof.
  intros Hnd H Hk Hx.
  destruct (get_np_info_spec H) as (Hd & _ & _ & Hlen & _ & Hparse & _).
  destruct (Hparse k Hk Hx) as (fields & Hfields).
  exists fields, (record_of E w links NPs_names k).
  split; [exact Hfields|].
  split.
  - subst d. apply sget_in_nodup; [apply collected_nodup|].
    rewrite (collected_entries E w links Hnd Hlen).
    apply (in_map (entry_of E w links NPs_names)).
    apply extracted_among_in. split; assumption.
  - destruct (record_of_fields E w links NPs_names k Hfields)
      as (Hname & Hlink & Hother).
    split; [exact Hname|]. split; [|split; [|exact Hother]].
    + intros h t Heq Ht. rewrite Hlink, Heq. unfold rsplit_slash_head.
      rewrite (before_last_slash_app h t Ht). reflexivity.
    + intros Hnone. rewrite Hlink. unfold rsplit_slash_head.
      rewrite (before_last_slash_none _ Hnone). reflexivity.
Qed.

(** C4. When, among the first [limit] organizations of a batch, the
    extraction subprocess returns an empty stdout for organization [k]
    alone, the table of main has exactly [limit - 1] rows, each the row of
    another organization, so that no row bears the name of [k]; the
    diagnostic of [k], made of its index, its name and the stderr text, is
    printed; and exactly one subprocess is spawned for each organization,
    none again for [k]. The cache is a dict: its names differ. *)
Theorem one_failure_one_row_less (n limit : Z) (path : string)
        (verbose : bool) (w : world) (db : DataFrame) (w' : world)
        (k : nat) :
  let links := batch_links E path n in
  let names := batch_names E path n in
  let L := Z.to_nat limit in
  NoDup (Dict.keys (cache_of E path)) ->
  main E n limit path verbose w = (Ok db, w') ->
  (k < L)%nat ->
  extracted E w links k = false ->
  (forall j, (j < L)%nat -> j <> k -> extracted E w links j = true) ->
  List.length (rows db) = (L - 1)%nat
  /\ (forall row, In row (rows db) ->
        exists j, (j < L)%nat /\ j <> k
                  /\ cell_at (columns db) row "name"
                     = Some (Val (JStr (name_of names j)))
                  /\ name_of names j <> name_of names k)
  /\ In (EPrint (str_of_nat (k + 1) ++ "/" ++ str_of_Z limit ++ " | "
                 ++ name_of names k ++ nl ++ stderr (answer_of E w links k)))
        (trace w')
  /\ runs (trace w')
     = (runs (trace w)
        ++ map (fun j => scraper_argv info_prompt (link_of links j))
               (seq 0 L))%list.
Proof.
  intros links names L Hnd H Hk Hfail Hothers.
  pose proof (main_rows E Hnd H) as Hrows. cbn zeta in Hrows.
  fold links names L in Hrows.
  destruct (main_table E H)
    as (Hcols & _ & Hlen & _ & Hruns & Hparse & Hdiag).
  fold links names L in Hlen, Hruns, Hparse, Hdiag.
  assert (Hsel : extracted_among E w links L
                 = (seq 0 k ++ seq (S k) (L - S k))%list).
  { apply filter_all_but_one; assumption. }
  split; [|split; [|split]].
  - rewrite Hrows, length_map, Hsel, length_app, !length_seq. lia.
  - intros row Hrow. rewrite Hrows in Hrow.
    apply in_map_iff in Hrow as (j & <- & Hj).
    apply extracted_among_in in Hj as [Hj Hxj].
    assert (Hjk : j <> k) by (intros ->; congruence).
    destruct (Hparse j Hj Hxj) as (fields & Hfields).
    exists j. split; [exact Hj|]. split; [exact Hjk|].
    split.
    + apply (extracted_row_cells E w links names j (columns db) Hfields);
        rewrite Hcols; apply header_has_table_columns; cbn; auto 10.
    + intros Heq. apply Hjk.
      apply (name_of_inj names j k (batch_names_nodup E path n Hnd));
        [lia | lia | exact Heq].
  - apply (Hdiag k Hk Hfail).
  - exact Hruns.
Qed.

(** C5. For a name of the batch cached with the link [cached], the
    subprocess of main for that organization is given the source link
    [cached] followed by ["/about"]; cutting that link before its last
    slash gives [cached] back; and when the extraction succeeds, the row
    of the organization in the table has [cached] as its link. The cache
    is a dict: its names differ. *)
Theorem about_suffix_round_trip (n limit : Z) (path : string)
        (verbose : bool) (w : world) (db : DataFrame) (w' : world)
        (k : nat) (np cached : string) :
  NoDup (Dict.keys (cache_of E path)) ->
  main E n limit path verbose w = (Ok db, w') ->
  (k < Z.to_nat limit)%nat ->
  nth_error (batch_names E path n) k = Some np ->
  sget np (cache_of E path) = Some cached ->
  nth_error (runs (trace w')) (List.length (runs (trace w)) + k)
  = Some (scraper_argv info_prompt (cached ++ "/about"))
  /\ rsplit_slash_head (cached ++ "/about") = cached
  /\ (extracted E w (batch_links E path n) k = true ->
      exists row,
        In row (rows db)
        /\ cell_at (columns db) row "name" = Some (Val (JStr np))
        /\ cell_at (columns db) row "link" = Some (Val (JStr cached))).
Proof.
  intros Hnd H Hk Hnp Hcached.
  assert (Hname : name_of (batch_names E path n) k = np)
    by (unfold name_of; apply nth_error_nth; exact Hnp).
  assert (Hlink : link_of (batch_links E path n) k = cached ++ "/about").
  { unfold link_of, batch_links. apply nth_error_nth.
    rewrite nth_error_map, Hnp. cbn. unfold about_link.
    rewrite Hcached. reflexivity. }
  destruct (main_table E H) as (Hcols & _ & _ & _ & Hruns & Hparse & _).
  split; [|split].
  - rewrite Hruns, nth_error_app2 by lia.
    replace (List.length (runs (trace w)) + k - List.length (runs (trace w)))%nat
      with k by lia.
    rewrite nth_error_map, nth_error_seq.
    assert (Hb : (k <? Z.to_nat limit)%nat = true) by (apply Nat.ltb_lt; exact Hk).
    rewrite Hb. cbn. rewrite Hlink. reflexivity.
  - apply rsplit_about.
  - intros Hx. destruct (Hparse k Hk Hx) as (fields & Hfields).
    exists (row_of (columns db)
              (flatten_record
                 (record_of E w (batch_links E path n)
                            (batch_names E path n) k))).
    split.
    + rewrite (main_rows E Hnd H).
      apply (in_map (fun j => row_of (columns db)
               (flatten_record (record_of E w (batch_links E path n)
                                          (batch_names E path n) j)))).
      apply extracted_among_in. split; assumption.
    + pose proof (extracted_row_cells E w (batch_links E path n)
                    (batch_names E path n) k (columns db) Hfields) as Hc.
      rewrite Hname, Hlink, rsplit_about in Hc. apply Hc;
        rewrite Hcols; apply header_has_table_columns; cbn; auto 10.
Qed.

End BatchClaims.

(* ================================================================== *)
(** * The clock *)

Section Clock.
Import PyStr PyVal Pandas Eff Automation.
Variable E : Env.

Lemma when_print_clock b text w u w' :
  when b (print text) w = (Ok u, w') -> n_clock w' = n_clock w.
Proof. destruct b; cbn; intros H; inversion H; reflexivity. Qed.

Lemma get_np_info_step_clock limit links names verbose n d w d' w' :
  get_np_info_step E limit links names verbose n d w = (Ok d', w') ->
  n_clock w' = n_clock w.
Proof.
  intros H. unfold get_np_info_step in H.
  open_bind H as link w1 H1. apply or_raise_inv_ok in H1 as [_ ->].
  open_bind H as name w1 H1. apply or_raise_inv_ok in H1 as [_ ->].
  open_bind H as result w1 H1. unfold run in H1. inversion H1; subst w1.
  clear H1.
  open_bind H as d1 w2 Hbranch.
  open_bind H as u w3 Hnote. apply when_print_clock in Hnote.
  cbn in H. inversion H; subst w'. rewrite Hnote. clear H Hnote.
  destruct (negb (String.eqb (stdout result) EmptyString)).
  - open_bind Hbranch as parsed w4 Hloads.
    apply or_raise_inv_ok in Hloads as [_ ->].
    destruct parsed; cbn in Hbranch; inversion Hbranch; reflexivity.
  - open_bind Hbranch as u0 w4 Hprint. cbn in Hprint, Hbranch.
    inversion Hprint; inversion Hbranch; subst. reflexivity.
Qed.

Lemma get_np_info_clock limit links names verbose w d w' :
  get_np_info E limit links names verbose w = (Ok d, w') ->
  n_clock w' = n_clock w.
Proof.
  intros H. unfold get_np_info in H.
  apply (@for_each_invariant _ _ _
           (fun _ _ u => n_clock u = n_clock w) _ _ _ _ _ eq_refl) in H.
  - exact H.
  - intros i x t u t' u' _ Hu Hstep.
    apply get_np_info_step_clock in Hstep. congruence.
Qed.

Lemma create_database_clock (d : sdict (sdict json)) verbose w st w' :
  create_database d verbose w = (Ok st, w') -> n_clock w' = n_clock w.
Proof.
  intros H. unfold create_database in H.
  open_bind H as st0 w1 Hloop.
  open_bind H as u w2 Hprint. apply when_print_clock in Hprint.
  cbn in H. inversion H; subst. rewrite Hprint.
  apply (@for_each_invariant _ _ _
           (fun _ _ u => n_clock u = n_clock w) _ _ _ _ _ eq_refl) in Hloop.
  - exact Hloop.
  - intros i key [D t] u0 st' u' _ Hu Hstep.
    unfold create_database_step in Hstep.
    open_bind Hstep as r x1 Hr. apply or_raise_inv_ok in Hr as [_ ->].
    open_bind Hstep as c x1 Hc. apply or_raise_inv_ok in Hc as [_ ->].
    open_bind Hstep as df x1 Hdf. apply or_raise_inv_ok in Hdf as [_ ->].
    cbn in Hstep. inversion Hstep; subst. exact Hu.
Qed.

Lemma main_clock {n limit path verbose w db w'} :
  main E n limit path verbose w = (Ok db, w') ->
  n_clock w' = S (S (n_clock w)).
Proof.
  intros H.
  destruct (main_ok E H)
    as (dbd & d & d' & w1 & w2 & _ & _ & Hinfo & Hdb & _ & _ & _ & Hc).
  apply get_np_info_clock in Hinfo. apply create_database_clock in Hdb.
  cbn in Hinfo. congruence.
Qed.

End Clock.

(* ================================================================== *)
(** * Texts *)

Section TextFacts.
Import PyStr PyVal.

Lemma prefix_app a b : prefix a (a ++ b) = true.
Proof.
  induction a as [|c a IH]; cbn.
  - destruct b; reflexivity.
  - destruct (ascii_dec c c) as [_|Hne]; [exact IH | contradiction].
Qed.

Lemma str_in_prefix a s : prefix a s = true -> str_in a s = true.
Proof. destruct s; cbn [str_in]; intros ->; reflexivity. Qed.

Lemma str_in_app_right a b : str_in a (a ++ b) = true.
Proof. apply str_in_prefix, prefix_app. Qed.

Lemma str_in_app_left a pre b :
  str_in a b = true -> str_in a (pre ++ b) = true.
Proof.
  intros H. induction pre as [|c pre IH]; [exact H|].
  cbn [append str_in]. rewrite IH. apply orb_true_r.
Qed.

(** A text occurs in whatever surrounds it. *)
Lemma str_in_middle a pre post : str_in a (pre ++ a ++ post) = true.
Proof. apply str_in_app_left, str_in_app_right. Qed.

Lemma append_assoc (a b c : string) : (a ++ b) ++ c = a ++ b ++ c.
Proof. induction a as [|x a IH]; cbn; [reflexivity | rewrite IH; reflexivity]. Qed.

Lemma append_nil_r (a : string) : a ++ EmptyString = a.
Proof. induction a as [|x a IH]; cbn; [reflexivity | rewrite IH; reflexivity]. Qed.

Lemma join_occurs sep (x : string) (l : list string) :
  In x l -> exists pre post, join sep l = pre ++ x ++ post.
Proof.
  unfold join. induction l as [|y l IH]; intros Hin; [contradiction|].
  destruct Hin as [->|Hin].
  - exists EmptyString. destruct l as [|z l]; cbn [concat].
    + exists EmptyString. rewrite append_nil_r. reflexivity.
    + eexists. reflexivity.
  - destruct (IH Hin) as (pre & post & Heq).
    destruct l as [|z l]; [contradiction|].
    change (concat sep (y :: z :: l)) with (y ++ sep ++ concat sep (z :: l)).
    rewrite Heq. exists (y ++ sep ++ pre), post.
    rewrite !append_assoc. reflexivity.
Qed.

Lemma substring_all (s : string) : substring 0 (String.length s) s = s.
Proof. induction s as [|c s IH]; cbn; [reflexivity | rewrite IH; reflexivity]. Qed.

Lemma substring_prefix (s t : string) :
  substring 0 (String.length s) (s ++ t) = s.
Proof.
  induction s as [|c s IH]; cbn.
  - destruct t; reflexivity.
  - rewrite IH. reflexivity.
Qed.

Lemma length_append (a b : string) :
  String.length (a ++ b) = (String.length a + String.length b)%nat.
Proof. induction a as [|c a IH]; cbn; [reflexivity | rewrite IH; reflexivity]. Qed.

(** Stripping the first and the last character of a bracketed text. *)
Lemma slice_brackets (s : string) : slice_1_m1 ("[" ++ s ++ "]") = s.
Proof.
  unfold slice_1_m1. cbn [append String.length substring].
  rewrite length_append. cbn [String.length].
  replace (S (String.length s + 1) - 2)%nat with (String.length s) by lia.
  apply substring_prefix.
Qed.

Lemma str_list (l : list json) : str (JList l) = "[" ++ flat_contacts l ++ "]".
Proof. reflexivity. Qed.

Lemma plain_has_no_quote s : plain s = true -> has_char squote s = false.
Proof.
  induction s as [|c s IH]; cbn; [reflexivity|].
  intros H. apply andb_prop in H as [H Hs].
  apply andb_prop in H as [H _]. apply andb_prop in H as [_ Hq].
  rewrite (IH Hs), orb_false_r. apply negb_true_iff. exact Hq.
Qed.

Lemma plain_repr_chars s : plain s = true -> repr_chars squote s = s.
Proof.
  induction s as [|c s IH]; cbn; [reflexivity|].
  intros H. apply andb_prop in H as [H Hs].
  apply andb_prop in H as [H Hb]. apply andb_prop in H as [Hp Hq].
  rewrite (IH Hs). unfold repr_char.
  apply negb_true_iff in Hq, Hb. rewrite Hq, Hb. cbn [orb].
  assert (Hctl : forall x, isprintable x = false ->
                           Ascii.eqb c x = false).
  { intros x Hx. destruct (Ascii.eqb c x) eqn:Hcx; [|reflexivity].
    apply Ascii.eqb_eq in Hcx. subst. congruence. }
  rewrite !Hctl by reflexivity. rewrite Hp. reflexivity.
Qed.

(** The [repr] of a plain text is the text between single quotes. *)
Lemma plain_repr s :
  plain s = true -> repr (JStr s) = chr squote ++ s ++ chr squote.
Proof.
  intros H. cbn [repr]. unfold repr_str.
  rewrite (plain_has_no_quote s H). cbn [andb].
  rewrite (plain_repr_chars s H). reflexivity.
Qed.

Lemma flat_contacts_occurs (l : list json) (x : json) :
  In x l -> exists pre post, flat_contacts l = pre ++ repr x ++ post.
Proof.
  intros Hin. unfold flat_contacts. apply join_occurs.
  apply in_map. exact Hin.
Qed.

Lemma pad2_century (y : nat) : Automation.pad2 (y mod 100) = Automation.pad2 y.
Proof.
  unfold Automation.pad2.
  pose proof (Nat.div_mod_eq y 100).
  pose proof (Nat.mod_upper_bound y 100 ltac:(lia)).
  pose proof (Nat.div_mod_eq (y mod 100) 10).
  pose proof (Nat.mod_upper_bound (y mod 100) 10 ltac:(lia)).
  pose proof (Nat.div_mod_eq y 10).
  pose proof (Nat.mod_upper_bound y 10 ltac:(lia)).
  pose proof (Nat.div_mod_eq (y / 10) 10).
  pose proof (Nat.mod_upper_bound (y / 10) 10 ltac:(lia)).
  pose proof (Nat.div_mod_eq (y mod 100 / 10) 10).
  pose proof (Nat.mod_upper_bound (y mod 100 / 10) 10 ltac:(lia)).
  assert (Htens : ((y mod 100) / 10 mod 10 = y / 10 mod 10)%nat) by lia.
  assert (Hunits : ((y mod 100) mod 10 = y mod 10)%nat) by lia.
  rewrite Htens, Hunits. reflexivity.
Qed.

(** The stamp of save_db is [YYMMDD-HHMM]. *)
Lemma strftime_from_2 (d : Eff.datetime) :
  Automation.from_2 (Automation.strftime d) = stamp d.
Proof.
  unfold Automation.from_2, Automation.strftime, Automation.pad4, stamp.
  rewrite pad2_century.
  cbn [append chr String.length substring].
  match goal with
  | |- substring 0 (S (S ?n) - 2) _ = _ => change (S (S n) - 2)%nat with n
  end.
  exact (substring_all _).
Qed.

End TextFacts.

(* ================================================================== *)
(** * The claims on the table and the file *)

Section TableClaims.
Import PyStr PyVal Pandas Eff Automation.

Lemma keys_flatten_record (record : sdict json) :
  Dict.keys (flatten_record record) = Dict.keys record.
Proof.
  unfold flatten_record. destruct (sget "contacts" record) eqn:Hc;
    [|reflexivity].
  apply sset_keys_present.
  apply sget_some_in in Hc. apply (in_map fst) in Hc. exact Hc.
Qed.

Lemma fold_add_fields_extra (records : list (sdict json)) :
  forall cols,
  exists extra,
    fold_left add_fields records cols = (cols ++ extra)%list
    /\ (forall c, In c extra <->
                  ~ In c cols
                  /\ exists r, In r records /\ In c (Dict.keys r)).
Proof.
  induction records as [|r records IH]; intros cols; cbn [fold_left].
  - exists []. rewrite app_nil_r. split; [reflexivity|].
    intros c. split; [intros [] | intros (_ & r & [] & _)].
  - destruct (IH (add_fields cols r)) as (extra & Hfold & Hextra).
    exists (filter (fun c => negb (has_column c cols)) (Dict.keys r)
            ++ extra)%list.
    split.
    + rewrite Hfold. unfold add_fields. rewrite <- app_assoc. reflexivity.
    + intros c. split.
      * intros Hc. apply in_app_or in Hc as [Hc|Hc].
        -- split; [apply (add_fields_new cols r c Hc)|].
           exists r. split; [left; reflexivity|].
           apply filter_In in Hc. apply Hc.
        -- destruct (proj1 (Hextra c) Hc) as (Hnot & r' & Hr' & Hin).
           split.
           ++ intros Hcols. apply Hnot. apply add_fields_keeps. exact Hcols.
           ++ exists r'. split; [right; exact Hr' | exact Hin].
      * intros (Hnot & r' & Hr' & Hin). apply in_or_app.
        assert (Hhas : has_column c cols = false).
        { destruct (has_column c cols) eqn:Hhas; [|reflexivity].
          exfalso. apply Hnot. apply has_column_in. exact Hhas. }
        destruct Hr' as [->|Hr'].
        -- left. apply filter_In. split; [exact Hin|].
           rewrite Hhas. reflexivity.
        -- destruct (has_column c (add_fields cols r)) eqn:Hadd.
           ++ left. apply has_column_in in Hadd. unfold add_fields in Hadd.
              apply in_app_or in Hadd as [Hadd|Hadd];
                [contradiction | exact Hadd].
           ++ right. apply (proj2 (Hextra c)). split.
              ** intros Hcols. apply has_column_in in Hcols.
                 rewrite Hcols in Hadd. discriminate.
              ** exists r'. split; [exact Hr' | exact Hin].
Qed.

Lemma when_print_keeps {b text w u w'} :
  when b (print text) w = (Ok u, w') ->
  forall e, In e (trace w) -> In e (trace w').
Proof.
  destruct b; unfold when, print, emit, ret; intros H e He;
    inversion H; subst; cbn [trace].
  - apply in_or_app. left. exact He.
  - exact He.
Qed.

Lemma sget_map_flatten key (d : sdict (sdict json)) :
  sget key (map flatten_entry d) = option_map flatten_record (sget key d).
Proof.
  induction d as [|[k r] d IH]; cbn; [reflexivity|].
  destruct (String.eqb k key); [reflexivity | exact IH].
Qed.

(** C7. When create_database has assembled its table, the row of a
    record whose contacts are a list holds, in the contacts column, one
    string: the text of the list without its two brackets, that is, the
    [repr] of the elements separated by a comma and a space. Every element
    occurs in it in its [repr] form, and a plain text element as it is. *)
Theorem contacts_flattened (d : sdict (sdict json)) (verbose : bool)
        (w : world) (d' : sdict (sdict json)) (db : DataFrame) (w' : world)
        (i : nat) (key : string) (record : sdict json) (l : list json) :
  NoDup (Dict.keys d) ->
  create_database d verbose w = (Ok (d', db), w') ->
  nth_error d i = Some (key, record) ->
  sget "contacts" record = Some (JList l) ->
  str (JList l) = "[" ++ flat_contacts l ++ "]"
  /\ slice_1_m1 (str (JList l)) = flat_contacts l
  /\ (exists row,
         nth_error (rows db) i = Some row
         /\ cell_at (columns db) row "contacts"
            = Some (Val (JStr (flat_contacts l))))
  /\ (forall x, In x l -> str_in (repr x) (flat_contacts l) = true)
  /\ (forall s, In (JStr s) l -> plain s = true ->
                str_in s (flat_contacts l) = true).
Proof.
  intros Hnd H Hnth Hc.
  destruct (create_database_spec Hnd H) as (Hd' & _ & Hcols & Hrows & _).
  assert (Hslice : slice_1_m1 (str (JList l)) = flat_contacts l)
    by (rewrite str_list; apply slice_brackets).
  split; [apply str_list|]. split; [exact Hslice|].
  split; [|split].
  - exists (row_of (columns db) (flatten_record record)). split.
    + rewrite Hrows, Hd', !nth_error_map, Hnth. reflexivity.
    + rewrite cell_at_row_of.
      * unfold field_cell, flatten_record. rewrite Hc, sget_sset_same.
        rewrite Hslice. reflexivity.
      * rewrite Hcols. apply header_has_table_columns. cbn. auto 10.
  - intros x Hx.
    destruct (flat_contacts_occurs l x Hx) as (pre & post & ->).
    apply str_in_middle.
  - intros s Hs Hplain.
    destruct (flat_contacts_occurs l (JStr s) Hs) as (pre & post & ->).
    rewrite (plain_repr s Hplain), !append_assoc.
    rewrite <- (append_assoc pre (chr squote)).
    apply str_in_middle.
Qed.

(** C10. create_database assigns to the caller's dictionary: when it
    returns, the dictionary has the same keys, and the record of each key
    has its contacts replaced by their flattened text, so that it no
    longer holds contacts that were a list; the record keeps its field
    names and every other field keeps its value. *)
Theorem create_database_flattens_in_place (d : sdict (sdict json))
        (verbose : bool) (w : world) (d' : sdict (sdict json))
        (db : DataFrame) (w' : world) :
  NoDup (Dict.keys d) ->
  create_database d verbose w = (Ok (d', db), w') ->
  Dict.keys d' = Dict.keys d
  /\ forall key record,
      sget key d = Some record ->
      exists contacts record',
        sget "contacts" record = Some contacts
        /\ sget key d' = Some record'
        /\ sget "contacts" record'
           = Some (JStr (slice_1_m1 (str contacts)))
        /\ (forall l, contacts = JList l ->
                      sget "contacts" record' <> sget "contacts" record)
        /\ Dict.keys record' = Dict.keys record
        /\ (forall f, f <> "contacts" -> sget f record' = sget f record).
Proof.
  intros Hnd H.
  destruct (create_database_spec Hnd H) as (Hd' & Hcontacts & _).
  subst d'. split; [apply keys_flatten|].
  intros key record Hget.
  destruct (Hcontacts key record (sget_some_in _ _ _ Hget)) as (c & Hc).
  exists c, (flatten_record record).
  split; [exact Hc|].
  split; [rewrite sget_map_flatten, Hget; reflexivity|].
  assert (Hflat : flatten_record record
                  = sset "contacts" (JStr (slice_1_m1 (str c))) record)
    by (unfold flatten_record; rewrite Hc; reflexivity).
  split; [rewrite Hflat; apply sget_sset_same|].
  split; [|split].
  - intros l ->. rewrite Hflat, sget_sset_same, Hc. discriminate.
  - rewrite Hflat. apply sset_keys_present.
    apply sget_some_in in Hc. apply (in_map fst) in Hc. exact Hc.
  - intros f Hf. apply sget_flatten_other. exact Hf.
Qed.

Variable E : Env.

(** C6, as the code has it. The script writes one CSV file, named
    [associations_YYMMDD-HHMM.csv] after the clock read by save_db, under
    the output path. Its header is the seven table columns, in their
    order, followed by exactly the field names of the extracted records
    that are not table columns: every field name of every answer of the
    extractor is a column, and there is no further column when the records
    have table columns only. It has one row for each organization whose
    extraction succeeded, the row of its record. The cache is a dict: its
    names differ. *)
Theorem csv_file_written (args : Namespace) (w w' : world) :
  let links := batch_links E (source_link args) (n_associations args) in
  let names := batch_names E (source_link args) (n_associations args) in
  let organizations := extracted_among E w links (Z.to_nat (limit args)) in
  let records :=
    map (fun k => flatten_record (record_of E w links names k))
        organizations in
  let file :=
    path args ++ "associations_"
    ++ stamp (datetime_now E (S (S (n_clock w)))) ++ ".csv" in
  NoDup (Dict.keys (cache_of E (source_link args))) ->
  script E args w = (Ok tt, w') ->
  exists content extra,
    In (EWriteCsv file content) (trace w')
    /\ write_error E file = None
    /\ csv_header content = (table_columns ++ extra)%list
    /\ (forall c, In c extra <->
                  ~ In c table_columns
                  /\ exists r, In r records /\ In c (Dict.keys r))
    /\ (forall k fields c,
           In k organizations ->
           json_loads E (stdout (answer_of E w links k)) = Some (JObj fields) ->
           In c (Dict.keys fields) ->
           In c (csv_header content))
    /\ ((forall r c, In r records -> In c (Dict.keys r) ->
                     In c table_columns) -> extra = [])
    /\ csv_records content = map (row_of (csv_header content)) records
    /\ List.length (csv_records content) = List.length organizations.
Proof.
  intros links names organizations records file Hnd H.
  unfold script in H.
  open_bind H as db w1 Hmain.
  open_bind H as u w2 Hsave.
  pose proof (main_rows E Hnd Hmain) as Hrows. cbn zeta in Hrows.
  fold links names organizations in Hrows.
  destruct (main_table E Hmain) as (Hcols & _ & Hlen & _).
  rewrite (collected_entries E (after_clock w) _
             (batch_names_nodup E _ _ Hnd) Hlen) in Hcols.
  rewrite !map_map in Hcols. cbn [snd flatten_entry entry_of] in Hcols.
  assert (Hheader : columns db = header_of records) by exact Hcols.
  clear Hcols. rename Hheader into Hcols.
  destruct (fold_add_fields_extra records table_columns)
    as (extra & Hfold & Hextra).
  fold (header_of records) in Hfold.
  assert (Hwrite : write_error E file = None
                   /\ In (EWriteCsv file (to_csv db)) (trace w2)).
  { unfold save_db in Hsave.
    open_bind Hsave as dt x1 Hnow. unfold now in Hnow.
    inversion Hnow; subst dt x1. clear Hnow.
    rewrite (main_clock E Hmain) in Hsave.
    rewrite strftime_from_2 in Hsave.
    fold file in Hsave.
    destruct (write_error E file) as [e|]; [discriminate Hsave|].
    split; [reflexivity|].
    open_bind Hsave as u1 x2 Hemit. unfold emit in Hemit.
    inversion Hemit; subst u1 x2. clear Hemit.
    apply (when_print_keeps Hsave). cbn [trace].
    apply in_or_app. right. left. reflexivity. }
  destruct Hwrite as (Hfree & Hwritten).
  assert (Hcover : forall r c, In r records -> In c (Dict.keys r) ->
                               In c (table_columns ++ extra)%list).
  { intros r c Hr Hc. apply in_or_app.
    destruct (in_dec string_dec c table_columns) as [Hin|Hout];
      [left; exact Hin | right].
    apply (proj2 (Hextra c)). split; [exact Hout|].
    exists r. split; assumption. }
  exists (to_csv db), extra. cbn [to_csv csv_header csv_records].
  split; [apply (when_print_keeps H); exact Hwritten|].
  split; [exact Hfree|].
  split; [congruence|].
  split; [exact Hextra|].
  split; [|split; [|split]].
  - intros k fields c Hk Hparse Hc. rewrite Hcols, Hfold.
    apply (Hcover (flatten_record (record_of E w links names k))).
    + unfold records. apply in_map_iff. exists k. split; [reflexivity|].
      exact Hk.
    + rewrite keys_flatten_record. unfold record_of. rewrite Hparse.
      apply sset_keys_in. right. apply sset_keys_in. right. exact Hc.
  - intros Hwithin. destruct extra as [|c extra]; [reflexivity|].
    destruct (proj1 (Hextra c) (or_introl eq_refl)) as (Hnot & r & Hr & Hc).
    exfalso. apply Hnot. apply (Hwithin r c Hr Hc).
  - rewrite Hrows. unfold records. rewrite map_map. reflexivity.
  - rewrite Hrows, length_map. reflexivity.
Qed.

End TableClaims.

(* ================================================================== *)
(** * find_websites *)

Section Discovery.
Import PyStr PyVal Pandas Eff Automation.
Variable E : Env.

Lemma find_websites_unfold source engine verbose w :
  find_websites E source engine verbose w
  = (if negb (String.eqb (stdout (discovery_answer E w source)) EmptyString)
     then
       resdict <- loads E (stdout (discovery_answer E w source)) ;;
       NPs_names <- match resdict with
                    | JObj [] => raise IndexError
                    | JObj ((_, v) :: _) => ret v
                    | _ => raise AttributeError
                    end ;;
       total <- len NPs_names ;;
       NPs_links <- for_each (seq 0 total)
                      (find_websites_step E engine NPs_names total) [] ;;
       when verbose (print "Finding the links of the associations done.") ;;
       ret (NamesLinks NPs_names NPs_links)
     else ret (ErrorText (stderr (discovery_answer E w source))))
      (discovered E source verbose w).
Proof.
  unfold find_websites, discovered, discovery_answer, discovery_prompt,
    bind, run.
  destruct verbose; reflexivity.
Qed.

Lemma discovered_searches source verbose w :
  n_search (discovered E source verbose w) = n_search w.
Proof. unfold discovered, bind, run. destruct verbose; reflexivity. Qed.

(** C8. In find_websites, an empty stdout of the extraction subprocess
    makes the function return the stderr text as its value, without
    raising and without any search. In its other failures the exception
    goes through: a stdout that is not JSON raises the decoding error, and
    an exception that the search backend raises for a name, the earlier
    names having been resolved, is raised by find_websites; each of the
    three backends passes on what its search function raises. No failure
    is turned into a value: the function returns the error text for an
    empty stdout only, and otherwise returns the names and the links that
    its loop has resolved for all of them. *)
Theorem find_websites_soft_failure (source engine : string)
        (verbose : bool) (w : world) :
  let answer := discovery_answer E w source in
  let w1 := discovered E source verbose w in
  (stdout answer = EmptyString ->
   find_websites E source engine verbose w = (Ok (ErrorText (stderr answer)), w1)
   /\ n_search w1 = n_search w)
  /\ (stdout answer <> EmptyString ->
      json_loads E (stdout answer) = None ->
      find_websites E source engine verbose w = (Raise JSONDecodeError, w1))
  /\ (forall key NPs_names rest total i acc wi np e we,
         stdout answer <> EmptyString ->
         json_loads E (stdout answer)
         = Some (JObj ((key, NPs_names) :: rest)) ->
         len NPs_names w1 = (Ok total, w1) ->
         (i < total)%nat ->
         for_each (seq 0 i) (find_websites_step E engine NPs_names total)
                  [] w1 = (Ok acc, wi) ->
         item NPs_names i wi = (Ok np, wi) ->
         search_backend E engine np
                        (snd (print (progress_line i total np) wi))
         = (Raise e, we) ->
         find_websites E source engine verbose w = (Raise e, we))
  /\ (forall np e u u',
         (duckduckgo_search E (str np) u = (Raise e, u') ->
          search_backend E "ddg" np u = (Raise e, u'))
         /\ (google_search E np (search_api_key E) (search_engine_id E)
                           [("lim", JInt 1)] u = (Raise e, u') ->
             search_backend E "google" np u = (Raise e, u'))
         /\ (scrap_link E np u = (Raise e, u') ->
             search_backend E "gemini" np u = (Raise e, u')))
  /\ (forall v w',
         find_websites E source engine verbose w = (Ok v, w') ->
         (stdout answer = EmptyString /\ v = ErrorText (stderr answer))
         \/ (stdout answer <> EmptyString
             /\ exists key NPs_names rest total NPs_links w2,
                 json_loads E (stdout answer)
                 = Some (JObj ((key, NPs_names) :: rest))
                 /\ len NPs_names w1 = (Ok total, w1)
                 /\ for_each (seq 0 total)
                              (find_websites_step E engine NPs_names total)
                              [] w1 = (Ok NPs_links, w2)
                 /\ v = NamesLinks NPs_names NPs_links)).
Proof.
  intros answer w1. split; [|split; [|split; [|split]]].
  - intros Hempty. split; [|apply discovered_searches].
    rewrite find_websites_unfold. fold answer w1. rewrite Hempty.
    reflexivity.
  - intros Hout Hparse.
    rewrite find_websites_unfold. fold answer w1.
    apply String.eqb_neq in Hout. rewrite Hout. cbn [negb].
    unfold loads. rewrite Hparse. reflexivity.
  - intros key NPs_names rest total i acc wi np e we
           Hout Hparse Hlen Hi Hdone Hitem Hsearch.
    rewrite find_websites_unfold. fold answer w1.
    apply String.eqb_neq in Hout. rewrite Hout. cbn [negb].
    unfold loads. rewrite Hparse.
    cbn [or_raise]. unfold bind at 1. cbn [ret].
    unfold bind at 1. cbn [ret].
    rewrite (bind_ok _ Hlen).
    apply bind_raise.
    replace total with (i + S (total - S i))%nat at 1 by lia.
    rewrite seq_app. cbn [seq Nat.add].
    eapply for_each_raise; [exact Hdone|].
    unfold find_websites_step.
    rewrite (bind_ok _ Hitem).
    unfold bind at 1.
    change (str_of_nat (i + 1) ++ "/" ++ str_of_nat total ++ " | " ++ str np)
      with (progress_line i total np).
    destruct (print (progress_line i total np) wi) as [[u|x] wp] eqn:Hp;
      [|unfold print, emit in Hp; discriminate].
    cbn [snd] in Hsearch. apply bind_raise. exact Hsearch.
  - intros np e u u'. split; [|split]; intros H.
    + change (search_backend E "ddg" np)
        with (link <- duckduckgo_search E (str np) ;; ret (Some (JStr link))).
      apply bind_raise. exact H.
    + change (search_backend E "google" np)
        with (link <- google_search E np (search_api_key E)
                                    (search_engine_id E) [("lim", JInt 1)] ;;
              ret (Some link)).
      apply bind_raise. exact H.
    + change (search_backend E "gemini" np)
        with (link <- scrap_link E np ;; ret (Some link)).
      apply bind_raise. exact H.
  - intros v w' H. rewrite find_websites_unfold in H. fold answer w1 in H.
    destruct (String.eqb (stdout answer) EmptyString) eqn:Hout; cbn [negb] in H.
    + left. apply String.eqb_eq in Hout. cbn in H. inversion H.
      split; [exact Hout | reflexivity].
    + right. apply String.eqb_neq in Hout. split; [exact Hout|].
      open_bind H as resdict x1 Hloads.
      apply or_raise_inv_ok in Hloads as [Hparse ->].
      open_bind H as NPs_names x1 Hfirst.
      destruct resdict as [| | | | | |fields];
        try (cbn in Hfirst; discriminate).
      destruct fields as [|[key v0] rest]; [cbn in Hfirst; discriminate|].
      cbn in Hfirst. inversion Hfirst; subst v0 x1. clear Hfirst.
      open_bind H as total x1 Hlen.
      assert (Hx1 : x1 = w1).
      { destruct NPs_names; cbn in Hlen; inversion Hlen; reflexivity. }
      subst x1.
      open_bind H as NPs_links w2 Hloop.
      open_bind H as u x3 Hnote. cbn in H. inversion H; subst v.
      exists key, NPs_names, rest, total, NPs_links, w2.
      repeat split; assumption.
Qed.

End Discovery.

(* ================================================================== *)
(** * The claims at work in the small world *)

Section Instances.
Import PyStr PyVal Pandas Eff Automation.

Lemma cache_a_nodup : NoDup (Dict.keys (cache_of Demo.env "cacheA")).
Proof.
  vm_compute.
  repeat (constructor; [cbn; intuition discriminate|]). constructor.
Defined.

Lemma names_a_nodup : NoDup Demo.names_a.
Proof.
  vm_compute.
  repeat (constructor; [cbn; intuition discriminate|]). constructor.
Defined.

Lemma one_record_nodup : NoDup (Dict.keys Demo.one_record).
Proof.
  vm_compute.
  repeat (constructor; [cbn; intuition discriminate|]). constructor.
Defined.

Lemma duckduckgo_search_backoff_witness :
  (forall k, (k < 10)%nat ->
             rate_limited Demo.env "Alpha" (n_search world0 + k))
  /\ exists msg w',
      duckduckgo_search Demo.env "Alpha" world0
      = (Raise (DuckDuckGoSearchException msg), w')
      /\ ddgs_text Demo.env (n_search world0 + 9) ("Alpha" ++ " BC")
         = Raise (DuckDuckGoSearchException msg)
      /\ sleeps (trace w')
         = (sleeps (trace world0)
            ++ map (fun k => 5 * 2 ^ Z.of_nat k)%Z (seq 0 9))%list
      /\ n_search w' = (n_search world0 + 10)%nat.
Proof.
  assert (H : forall k, (k < 10)%nat ->
                        rate_limited Demo.env "Alpha" (n_search world0 + k)).
  { intros k _. exists "https://duckduckgo.com/ 202 Ratelimit".
    split; reflexivity. }
  split; [exact H|].
  exact (proj1 (duckduckgo_search_backoff Demo.env "Alpha" world0) H).
Defined.

Lemma table_rows_bounded_witness :
  (0 <= 3 <= 3)%Z
  /\ exists db w',
      main Demo.env 3 3 "cacheA" false world0 = (Ok db, w')
      /\ (Z.of_nat (List.length (rows db)) <= 3)%Z
      /\ (List.length (rows db)
          <= List.length (extracted_among Demo.env world0
                            (batch_links Demo.env "cacheA" 3)
                            (Z.to_nat 3)))%nat.
Proof.
  split; [lia|].
  eexists. eexists. split; [vm_compute; reflexivity|].
  eapply (table_rows_bounded Demo.env 3 3 "cacheA" false world0);
    [lia | vm_compute; reflexivity].
Defined.

Lemma stored_name_and_link_witness :
  NoDup Demo.names_a
  /\ (0 < Z.to_nat 3)%nat
  /\ extracted Demo.env world0 Demo.links_a 0 = true
  /\ link_of Demo.links_a 0 = "http://example.org/team" ++ String slash "about"
  /\ sget "name" Demo.alpha_fields = Some (JStr "X")
  /\ sget "link" Demo.alpha_fields = Some (JStr "http://echo.example")
  /\ exists d w',
      get_np_info Demo.env 3 Demo.links_a Demo.names_a false world0
      = (Ok d, w')
      /\ exists record,
          json_loads Demo.env
                     (stdout (answer_of Demo.env world0 Demo.links_a 0))
          = Some (JObj Demo.alpha_fields)
          /\ sget "Alpha" d = Some record
          /\ sget "name" record = Some (JStr "Alpha")
          /\ sget "link" record = Some (JStr "http://example.org/team")
          /\ sget "location" record = Some (JStr "Y").
Proof.
  split; [exact names_a_nodup|].
  split; [vm_compute; lia|].
  split; [vm_compute; reflexivity|].
  split; [vm_compute; reflexivity|].
  split; [reflexivity|]. split; [reflexivity|].
  eexists. eexists. split; [vm_compute; reflexivity|].
  destruct (stored_name_and_link Demo.env 3 Demo.links_a Demo.names_a false
              world0 _ _ 0 names_a_nodup
              ltac:(vm_compute; reflexivity) ltac:(vm_compute; lia)
              ltac:(vm_compute; reflexivity))
    as (fields & record & Hfields & Hrecord & Hname & Hcut & _ & Hother).
  assert (Hparsed : json_loads Demo.env
                      (stdout (answer_of Demo.env world0 Demo.links_a 0))
                    = Some (JObj Demo.alpha_fields))
    by (vm_compute; reflexivity).
  assert (fields = Demo.alpha_fields) by congruence. subst fields.
  exists record.
  split; [exact Hparsed|]. split; [exact Hrecord|].
  split; [exact Hname|]. split.
  - apply (Hcut "http://example.org/team" "about");
      vm_compute; reflexivity.
  - rewrite Hother by discriminate. reflexivity.
Defined.

Lemma others_extracted_a :
  forall j, (j < Z.to_nat 3)%nat -> j <> 1%nat ->
            extracted Demo.env world0 (batch_links Demo.env "cacheA" 3) j
            = true.
Proof.
  intros j Hj Hne.
  destruct j as [|[|[|j]]];
    [vm_compute; reflexivity | contradiction | vm_compute; reflexivity|].
  exfalso. vm_compute in Hj. lia.
Defined.

Lemma one_failure_one_row_less_witness :
  NoDup (Dict.keys (cache_of Demo.env "cacheA"))
  /\ (1 < Z.to_nat 3)%nat
  /\ extracted Demo.env world0 (batch_links Demo.env "cacheA" 3) 1 = false
  /\ exists db w',
      main Demo.env 3 3 "cacheA" false world0 = (Ok db, w')
      /\ List.length (rows db) = (Z.to_nat 3 - 1)%nat
      /\ In (EPrint (str_of_nat (1 + 1) ++ "/" ++ str_of_Z 3 ++ " | "
                     ++ name_of (batch_names Demo.env "cacheA" 3) 1 ++ nl
                     ++ stderr (answer_of Demo.env world0
                                  (batch_links Demo.env "cacheA" 3) 1)))
            (trace w').
Proof.
  split; [exact cache_a_nodup|].
  split; [vm_compute; lia|].
  split; [vm_compute; reflexivity|].
  eexists. eexists. split; [vm_compute; reflexivity|].
  pose proof (one_failure_one_row_less Demo.env 3 3 "cacheA" false world0
                _ _ 1 cache_a_nodup
                ltac:(vm_compute; reflexivity) ltac:(vm_compute; lia)
                ltac:(vm_compute; reflexivity) others_extracted_a)
    as (Hrows & _ & Hdiag & _).
  split; [exact Hrows | exact Hdiag].
Defined.

Lemma about_suffix_round_trip_witness :
  NoDup (Dict.keys (cache_of Demo.env "cacheA"))
  /\ nth_error (batch_names Demo.env "cacheA" 3) 0 = Some "Alpha"
  /\ sget "Alpha" (cache_of Demo.env "cacheA")
     = Some "http://example.org/team"
  /\ exists db w',
      main Demo.env 3 3 "cacheA" false world0 = (Ok db, w')
      /\ nth_error (runs (trace w')) (List.length (runs (trace world0)) + 0)
         = Some (scraper_argv info_prompt
                              ("http://example.org/team" ++ "/about"))
      /\ rsplit_slash_head ("http://example.org/team" ++ "/about")
         = "http://example.org/team"
      /\ (extracted Demo.env world0 (batch_links Demo.env "cacheA" 3) 0
          = true ->
          exists row,
            In row (rows db)
            /\ cell_at (columns db) row "name" = Some (Val (JStr "Alpha"))
            /\ cell_at (columns db) row "link"
               = Some (Val (JStr "http://example.org/team"))).
Proof.
  split; [exact cache_a_nodup|].
  split; [vm_compute; reflexivity|].
  split; [vm_compute; reflexivity|].
  eexists. eexists. split; [vm_compute; reflexivity|].
  eapply (about_suffix_round_trip Demo.env 3 3 "cacheA" false world0 _ _ 0
                                 "Alpha" "http://example.org/team"
                                 cache_a_nodup);
    [vm_compute; reflexivity | vm_compute; lia | vm_compute; reflexivity
     | vm_compute; reflexivity].
Defined.

Lemma csv_file_written_witness :
  NoDup (Dict.keys (cache_of Demo.env (source_link Demo.args_a)))
  /\ exists w',
      script Demo.env Demo.args_a world0 = (Ok tt, w')
      /\ exists content extra,
          In (EWriteCsv "../associations_240705-0930.csv" content) (trace w')
          /\ csv_header content = (table_columns ++ extra)%list
          /\ In "type" (csv_header content)
          /\ In "linkedin" (csv_header content)
          /\ List.length (csv_records content) = 2%nat.
Proof.
  split; [exact cache_a_nodup|].
  eexists. split; [vm_compute; reflexivity|].
  destruct (csv_file_written Demo.env Demo.args_a world0 _ cache_a_nodup
              ltac:(vm_compute; reflexivity))
    as (content & extra & Hin & _ & Hheader & _ & Hfields & _ & _ & Hlen).
  exists content, extra.
  split; [exact Hin|]. split; [exact Hheader|].
  assert (Hgamma : forall c,
             In c ["name"; "location"; "type"; "description"; "size";
                   "contacts"; "linkedin"] ->
             In c (csv_header content)).
  { intros c Hc. eapply (Hfields 2%nat _ c).
    - vm_compute. right. left. reflexivity.
    - vm_compute. reflexivity.
    - exact Hc. }
  split; [apply Hgamma; cbn; tauto|].
  split; [apply Hgamma; cbn; tauto | exact Hlen].
Defined.

(** C6, as the spec has it, fails: the answer for Gamma has the [type]
    and [linkedin] fields that the prompt of get_np_info asks for, and the
    header of the file written has nine columns. *)
Lemma csv_header_exceeds_table_columns :
  map (fun f => csv_header (snd f))
      (written (trace (snd (script Demo.env Demo.args_a world0))))
  = [(table_columns ++ ["type"; "linkedin"])%list]
  /\ (table_columns ++ ["type"; "linkedin"])%list <> table_columns.
Proof. split; [vm_compute; reflexivity | discriminate]. Qed.

Lemma contacts_flattened_witness :
  NoDup (Dict.keys Demo.one_record)
  /\ nth_error Demo.one_record 0 = Some ("Alpha", Demo.alpha_fields)
  /\ sget "contacts" Demo.alpha_fields
     = Some (JList [JStr "a@x.org"; JStr "555-1234"])
  /\ flat_contacts [JStr "a@x.org"; JStr "555-1234"]
     = "'a@x.org', '555-1234'"
  /\ exists d' db w',
      create_database Demo.one_record false world0 = (Ok (d', db), w')
      /\ (exists row,
             nth_error (rows db) 0 = Some row
             /\ cell_at (columns db) row "contacts"
                = Some (Val (JStr (flat_contacts
                                     [JStr "a@x.org"; JStr "555-1234"]))))
      /\ str_in "a@x.org" (flat_contacts [JStr "a@x.org"; JStr "555-1234"])
         = true
      /\ str_in "555-1234" (flat_contacts [JStr "a@x.org"; JStr "555-1234"])
         = true.
Proof.
  split; [exact one_record_nodup|].
  split; [reflexivity|]. split; [reflexivity|]. split; [reflexivity|].
  eexists. eexists. eexists. split; [vm_compute; reflexivity|].
  destruct (contacts_flattened Demo.one_record false world0 _ _ _ 0
              "Alpha" Demo.alpha_fields [JStr "a@x.org"; JStr "555-1234"]
              one_record_nodup ltac:(vm_compute; reflexivity)
              eq_refl eq_refl)
    as (_ & _ & Hrow & _ & Hplain).
  split; [exact Hrow|]. split.
  - apply Hplain; [left; reflexivity | reflexivity].
  - apply Hplain; [right; left; reflexivity | reflexivity].
Defined.

Lemma create_database_flattens_in_place_witness :
  NoDup (Dict.keys Demo.one_record)
  /\ exists d' db w',
      create_database Demo.one_record false world0 = (Ok (d', db), w')
      /\ Dict.keys d' = Dict.keys Demo.one_record
      /\ exists record',
          sget "Alpha" d' = Some record'
          /\ sget "contacts" record' = Some (JStr "'a@x.org', '555-1234'")
          /\ sget "name" record' = sget "name" Demo.alpha_fields.
Proof.
  split; [exact one_record_nodup|].
  eexists. eexists. eexists. split; [vm_compute; reflexivity|].
  destruct (create_database_flattens_in_place Demo.one_record false world0
              _ _ _ one_record_nodup ltac:(vm_compute; reflexivity))
    as (Hkeys & Hall).
  split; [exact Hkeys|].
  destruct (Hall "Alpha" Demo.alpha_fields eq_refl)
    as (c & record' & Hc & Hget & Hflat & _ & _ & Hother).
  exists record'. split; [exact Hget|]. split.
  - rewrite Hflat. vm_compute in Hc. inversion Hc; subst c. reflexivity.
  - apply Hother. discriminate.
Defined.

Lemma find_websites_soft_failure_witness :
  stdout (discovery_answer Demo.env world0 "http://down.example")
  = EmptyString
  /\ find_websites Demo.env "http://down.example" "ddg" false world0
     = (Ok (ErrorText "scraper: no answer for http://down.example"),
        discovered Demo.env "http://down.example" false world0)
  /\ find_websites Demo.env "http://garbled.example" "ddg" false world0
     = (Raise JSONDecodeError,
        discovered Demo.env "http://garbled.example" false world0)
  /\ exists we,
      find_websites Demo.env "http://directory.example" "ddg" false world0
      = (Raise (DuckDuckGoSearchException
                  "https://duckduckgo.com/ 202 Ratelimit"), we).
Proof.
  split; [reflexivity|]. split; [|split].
  - apply (proj1 (find_websites_soft_failure
                    Demo.env "http://down.example" "ddg" false world0)).
    reflexivity.
  - apply (proj1 (proj2 (find_websites_soft_failure
                           Demo.env "http://garbled.example" "ddg" false
                           world0)));
      [vm_compute; discriminate | vm_compute; reflexivity].
  - eexists.
    eapply (proj1 (proj2 (proj2 (find_websites_soft_failure
              Demo.env "http://directory.example" "ddg" false world0)))
            "associations" (JList [JStr "Alpha"; JStr "Beta"]) []
            2%nat 0%nat [] _ (JStr "Alpha"));
      [vm_compute; discriminate | vm_compute; reflexivity | reflexivity
       | lia | reflexivity | reflexivity | vm_compute; reflexivity].
Defined.

(** C9 at work: two command lines that differ in the source flag only.
    main takes the flag for the directory of the cache, so the two runs
    load different caches and write different tables. *)
Theorem source_flag_selects_the_cache :
  n_associations Demo.first_of_a = n_associations Demo.first_of_b
  /\ limit Demo.first_of_a = limit Demo.first_of_b
  /\ path Demo.first_of_a = path Demo.first_of_b
  /\ verbose Demo.first_of_a = verbose Demo.first_of_b
  /\ map (fun f => csv_records (snd f))
         (written (trace (snd (script Demo.env Demo.first_of_a world0))))
     = [[[Val (JStr "Alpha"); Val (JStr "Y"); Val (JStr "food bank");
          Num (JInt 12); Val (JStr "'a@x.org', '555-1234'");
          Val (JStr "@alpha"); Val (JStr "http://example.org/team")]]]
  /\ map (fun f => csv_records (snd f))
         (written (trace (snd (script Demo.env Demo.first_of_b world0))))
     = [[[Val (JStr "Gamma"); Val (JStr "Vancouver"); Val (JStr "clinic");
          Val (JStr "small"); Val (JStr "'info@gamma.example'"); NaN;
          Val (JStr "http://gamma.example"); Val (JStr "health");
          Val (JStr "https://linkedin.example/gamma")]]].
Proof. repeat split; vm_compute; reflexivity. Qed.

(** The cache that the script loads is the file [links.pkl] of the
    directory named by the source flag: without that file, the script
    stops on the missing file whatever the output path holds. *)
Lemma script_loads_the_cache_of_the_source_flag (E : Env)
      (args : Namespace) (w : world) :
  pickle_file E ((source_link args ++ "/links") ++ ".pkl") = None ->
  script E args w
  = (Raise (FileNotFoundError ((source_link args ++ "/links") ++ ".pkl")),
     after_clock w).
Proof.
  intros Hfile. unfold script, main, bind, now, load_dict.
  rewrite Hfile. reflexivity.
Qed.

End Instances.

(* ================================================================== *)
(** * duckduckgo_search, reply by reply *)

Section Replies.
Import PyStr PyVal Pandas Eff Automation.
Variable E : Env.

(** The first [j] turns, all answered by a rate limit, leave the loop in
    turn [a + j], [j] calls and [j] sleeps later. *)
Lemma retry_prefix query :
  forall j a w,
    (a + j <= 9)%nat ->
    (forall k, (k < j)%nat -> rate_limited E query (n_search w + k)) ->
    exists w1,
      n_search w1 = (n_search w + j)%nat
      /\ sleeps (trace w1)
         = (sleeps (trace w)
            ++ map (fun k => 5 * 2 ^ Z.of_nat k)%Z (seq a j))%list
      /\ forall m,
          for_return (seq a (j + m)) (ddg_attempt E query) w
          = for_return (seq (a + j) m) (ddg_attempt E query) w1.
Proof.
  induction j as [|j IH]; intros a w Ha Hall.
  - exists w. rewrite !Nat.add_0_r. cbn [seq map]. rewrite app_nil_r.
    repeat split. 
  - assert (Hfirst : rate_limited E query (n_search w)).
    { specialize (Hall 0%nat (Nat.lt_0_succ _)).
      rewrite Nat.add_0_r in Hall. exact Hall. }
    destruct (@ddg_attempt_retry E query a w Hfirst ltac:(lia))
      as (w0 & Hrun & Hs & Hn).
    destruct (IH (S a) w0 ltac:(lia)) as (w1 & Hn1 & Hs1 & Hloop).
    { intros k Hk. rewrite Hn.
      replace (S (n_search w) + k)%nat with (n_search w + S k)%nat by lia.
      apply Hall. lia. }
    exists w1. split; [lia|]. split.
    + rewrite Hs1, Hs. cbn [seq map]. rewrite <- app_assoc. reflexivity.
    + intros m. cbn [Nat.add seq for_return].
      rewrite (bind_ok _ Hrun).
      replace (a + S j)%nat with (S a + j)%nat by lia. apply Hloop.
Qed.

(** After [j] rate limits, duckduckgo_search is the rest of its loop. *)
Lemma duckduckgo_search_after_retries query j w :
  (j <= 9)%nat ->
  (forall k, (k < j)%nat -> rate_limited E query (n_search w + k)) ->
  exists w1,
    n_search w1 = (n_search w + j)%nat
    /\ sleeps (trace w1)
       = (sleeps (trace w)
          ++ map (fun k => 5 * 2 ^ Z.of_nat k)%Z (seq 0 j))%list
    /\ duckduckgo_search E query w
       = (r <- (first <- ddg_attempt E query j ;;
                match first with
                | Some url => ret (Some url)
                | None => for_return (seq (S j) (9 - j)) (ddg_attempt E query)
                end) ;;
          match r with
          | Some url => ret url
          | None =>
              raise (DuckDuckGoSearchException
                       "Max retries reached. Unable to complete search.")
          end) w1.
Proof.
  intros Hj Hall.
  destruct (@retry_prefix query j 0 w ltac:(lia) Hall) as (w1 & Hn & Hs & Hloop).
  exists w1. split; [exact Hn|]. split; [exact Hs|].
  unfold duckduckgo_search, bind at 1.
  change (seq 0 max_retries) with (seq 0 10).
  replace 10%nat with (j + S (9 - j))%nat at 1 by lia.
  rewrite Hloop. cbn [Nat.add seq for_return]. reflexivity.
Qed.

Lemma ddg_attempt_found query attempt w r rest url :
  ddgs_text E (n_search w) (query ++ " BC") = Ok (r :: rest) ->
  sget "href" r = Some url ->
  exists w',
    ddg_attempt E query attempt w = (Ok (Some url), w')
    /\ sleeps (trace w') = sleeps (trace w)
    /\ n_search w' = S (n_search w).
Proof.
  intros Hreply Hhref.
  unfold ddg_attempt, try_except, bind, DDGS_text. rewrite Hreply.
  cbn [first_href or_raise]. rewrite Hhref. cbn.
  eexists. split; [reflexivity|]. cbn.
  rewrite sleeps_app. cbn. rewrite app_nil_r. split; reflexivity.
Qed.

Lemma ddg_attempt_unusable query attempt w results e :
  ddgs_text E (n_search w) (query ++ " BC") = Ok results ->
  first_href results w = (Raise e, w) ->
  exists w',
    ddg_attempt E query attempt w = (Raise e, w')
    /\ sleeps (trace w') = sleeps (trace w)
    /\ n_search w' = S (n_search w).
Proof.
  intros Hreply Hfirst.
  unfold ddg_attempt, try_except, bind, DDGS_text. rewrite Hreply.
  destruct results as [|r rest].
  - cbn in Hfirst. inversion Hfirst; subst e. cbn.
    eexists. split; [reflexivity|]. cbn.
    rewrite sleeps_app. cbn. rewrite app_nil_r. split; reflexivity.
  - cbn [first_href] in *. destruct (sget "href" r) as [h|];
      cbn in Hfirst; [discriminate|].
    inversion Hfirst; subst e. cbn.
    eexists. split; [reflexivity|]. cbn.
    rewrite sleeps_app. cbn. rewrite app_nil_r. split; reflexivity.
Qed.

Lemma ddg_attempt_fails query attempt w e :
  ddgs_text E (n_search w) (query ++ " BC") = Raise e ->
  is_rate_limit (Raise e) = false ->
  exists w',
    ddg_attempt E query attempt w = (Raise e, w')
    /\ sleeps (trace w') = sleeps (trace w)
    /\ n_search w' = S (n_search w).
Proof.
  intros Hreply Hnot.
  unfold ddg_attempt, try_except, bind, DDGS_text. rewrite Hreply.
  destruct e; cbn [is_rate_limit] in Hnot;
    try (eexists; split; [reflexivity|]; cbn;
         rewrite sleeps_app; cbn; rewrite app_nil_r; split; reflexivity).
  cbn [exn_str]. rewrite Hnot. cbn [andb].
  eexists. split; [reflexivity|]. cbn.
  rewrite sleeps_app. cbn. rewrite app_nil_r. split; reflexivity.
Qed.

(** X1. When the search service answers its first [j] calls, [j] at most
    9, by a rate limit and the next one by results, duckduckgo_search
    returns the [href] of the first result, after [j + 1] calls and the
    sleeps of 5 * 2^k seconds for k below [j]. *)
Theorem duckduckgo_search_recovers (query : string) (w : world) (j : nat)
        (r : sdict string) (rest : list (sdict string)) (url : string) :
  (j <= 9)%nat ->
  (forall k, (k < j)%nat -> rate_limited E query (n_search w + k)) ->
  ddgs_text E (n_search w + j) (query ++ " BC") = Ok (r :: rest) ->
  sget "href" r = Some url ->
  exists w',
    duckduckgo_search E query w = (Ok url, w')
    /\ sleeps (trace w')
       = (sleeps (trace w)
          ++ map (fun k => 5 * 2 ^ Z.of_nat k)%Z (seq 0 j))%list
    /\ n_search w' = (n_search w + j + 1)%nat.
Proof.
  intros Hj Hall Hreply Hhref.
  destruct (duckduckgo_search_after_retries query j w Hj Hall)
    as (w1 & Hn & Hs & ->).
  rewrite <- Hn in Hreply.
  destruct (ddg_attempt_found query j w1 r rest url Hreply Hhref) as (w' & Hrun & Hs' & Hn').
  exists w'. rewrite (bind_ok _ (bind_ok _ Hrun)).
  split; [reflexivity|]. split; [congruence | lia].
Qed.

(** X2. An exception of the search service that is no rate limit (another
    search error, or an exception of another class) is raised by
    duckduckgo_search as it is, without a sleep or a call after it, also
    when it comes after [j] rate limits. *)
Theorem duckduckgo_search_other_errors (query : string) (w : world)
        (j : nat) (e : exn) :
  (j <= 9)%nat ->
  (forall k, (k < j)%nat -> rate_limited E query (n_search w + k)) ->
  ddgs_text E (n_search w + j) (query ++ " BC") = Raise e ->
  is_rate_limit (Raise e) = false ->
  exists w',
    duckduckgo_search E query w = (Raise e, w')
    /\ sleeps (trace w')
       = (sleeps (trace w)
          ++ map (fun k => 5 * 2 ^ Z.of_nat k)%Z (seq 0 j))%list
    /\ n_search w' = (n_search w + j + 1)%nat.
Proof.
  intros Hj Hall Hreply Hnot.
  destruct (duckduckgo_search_after_retries query j w Hj Hall)
    as (w1 & Hn & Hs & ->).
  rewrite <- Hn in Hreply.
  destruct (ddg_attempt_fails query j w1 e Hreply Hnot) as (w' & Hrun & Hs' & Hn').
  exists w'. rewrite (bind_raise _ (bind_raise _ Hrun)).
  split; [reflexivity|]. split; [congruence | lia].
Qed.

(** X3. Results that cannot be used are not retried: an empty list of
    results makes duckduckgo_search raise IndexError, and a first result
    without [href] makes it raise KeyError, after that one call. *)
Theorem duckduckgo_search_unusable_results (query : string) (w : world)
        (j : nat) (results : list (sdict string)) :
  (j <= 9)%nat ->
  (forall k, (k < j)%nat -> rate_limited E query (n_search w + k)) ->
  ddgs_text E (n_search w + j) (query ++ " BC") = Ok results ->
  (results = [] ->
   exists w',
     duckduckgo_search E query w = (Raise IndexError, w')
     /\ n_search w' = (n_search w + j + 1)%nat)
  /\ (forall r rest,
         results = r :: rest -> sget "href" r = None ->
         exists w',
           duckduckgo_search E query w = (Raise (KeyError (JStr "href")), w')
           /\ n_search w' = (n_search w + j + 1)%nat).
Proof.
  intros Hj Hall Hreply.
  destruct (duckduckgo_search_after_retries query j w Hj Hall)
    as (w1 & Hn & Hs & ->).
  rewrite <- Hn in Hreply.
  split.
  - intros ->.
    destruct (@ddg_attempt_unusable query j w1 [] IndexError Hreply eq_refl)
      as (w' & Hrun & _ & Hn').
    exists w'. rewrite (bind_raise _ (bind_raise _ Hrun)).
    split; [reflexivity | lia].
  - intros r rest -> Hhref.
    assert (Hfirst : first_href (r :: rest) w1
                     = (Raise (KeyError (JStr "href")), w1))
      by (cbn [first_href]; rewrite Hhref; reflexivity).
    destruct (ddg_attempt_unusable query j w1 _ _ Hreply Hfirst)
      as (w' & Hrun & _ & Hn').
    exists w'. rewrite (bind_raise _ (bind_raise _ Hrun)).
    split; [reflexivity | lia].
Qed.

End Replies.

(* ================================================================== *)
(** * duckduckgo_search, whatever the replies *)

Section Budget.
Import PyStr PyVal Pandas Eff Automation.
Variable E : Env.

Lemma total_sleep_app t u :
  total_sleep (t ++ u) = (total_sleep t + total_sleep u)%Z.
Proof.
  unfold total_sleep. rewrite sleeps_app.
  induction (sleeps t) as [|z l IH]; cbn; [reflexivity | lia].
Qed.

Lemma backoff_sum j :
  (j <= 9)%nat ->
  (fold_right Z.add 0 (map (fun k => 5 * 2 ^ Z.of_nat k) (seq 0 j)) <= 2555)%Z.
Proof.
  intros Hj.
  do 10 (destruct j as [|j]; [vm_compute; discriminate|]). lia.
Qed.

Lemma ddg_attempt_out_of_turns query a w msg :
  (9 <= a)%nat ->
  ddgs_text E (n_search w) (query ++ " BC")
  = Raise (DuckDuckGoSearchException msg) ->
  exists w',
    ddg_attempt E query a w = (Raise (DuckDuckGoSearchException msg), w')
    /\ sleeps (trace w') = sleeps (trace w)
    /\ n_search w' = S (n_search w).
Proof.
  intros Ha Hreply.
  unfold ddg_attempt, try_except, bind, DDGS_text.
  rewrite Hreply. cbn [exn_str].
  assert (Hb : (a <? max_retries - 1)%nat = false)
    by (apply Nat.ltb_ge; unfold max_retries; cbn; lia).
  rewrite Hb, andb_false_r. cbn.
  eexists; split; [reflexivity|]. cbn.
  rewrite sleeps_app. cbn. rewrite app_nil_r. split; reflexivity.
Qed.

(** What one turn of the loop does, by its outcome. *)
Lemma ddg_attempt_cases query a w r w' :
  ddg_attempt E query a w = (r, w') ->
  n_search w' = S (n_search w)
  /\ ((r = Ok None /\ (a < 9)%nat /\ rate_limited E query (n_search w)
       /\ sleeps (trace w')
          = (sleeps (trace w) ++ [5 * 2 ^ Z.of_nat a]%Z)%list)
      \/ (sleeps (trace w') = sleeps (trace w)
          /\ ((exists url, r = Ok (Some url))
              \/ exists e,
                  r = Raise e
                  /\ (ddgs_text E (n_search w) (query ++ " BC") = Raise e
                      \/ (ddgs_text E (n_search w) (query ++ " BC") = Ok []
                          /\ e = IndexError)
                      \/ (exists x rest,
                             ddgs_text E (n_search w) (query ++ " BC")
                             = Ok (x :: rest)
                             /\ sget "href" x = None
                             /\ e = KeyError (JStr "href")))))).
Proof.
  intros H.
  destruct (ddgs_text E (n_search w) (query ++ " BC")) as [results|e] eqn:Hreply.
  - destruct results as [|x rest].
    + destruct (ddg_attempt_unusable E query a w [] IndexError Hreply eq_refl)
        as (w0 & Hrun & Hs & Hn).
      rewrite Hrun in H. inversion H; subst.
      split; [exact Hn|]. right. split; [exact Hs|].
      right. exists IndexError. split; [reflexivity|]. right. left. auto.
    + destruct (sget "href" x) as [h|] eqn:Hh.
      * destruct (ddg_attempt_found E query a w x rest h Hreply Hh)
          as (w0 & Hrun & Hs & Hn).
        rewrite Hrun in H. inversion H; subst.
        split; [exact Hn|]. right. split; [exact Hs|].
        left. exists h. reflexivity.
      * assert (Hfirst : first_href (x :: rest) w
                         = (Raise (KeyError (JStr "href")), w))
          by (cbn [first_href]; rewrite Hh; reflexivity).
        destruct (ddg_attempt_unusable E query a w _ _ Hreply Hfirst)
          as (w0 & Hrun & Hs & Hn).
        rewrite Hrun in H. inversion H; subst.
        split; [exact Hn|]. right. split; [exact Hs|].
        right. exists (KeyError (JStr "href")). split; [reflexivity|].
        right. right. exists x, rest. auto.
  - destruct (is_rate_limit (Raise e)) eqn:Hlim.
    + destruct e as [msg| | | | | | | |]; try discriminate.
      cbn [is_rate_limit] in Hlim.
      destruct (Nat.lt_ge_cases a 9) as [Ha|Ha].
      * assert (Hrl : rate_limited E query (n_search w))
          by (exists msg; auto).
        destruct (ddg_attempt_retry E query a w Hrl Ha) as (w0 & Hrun & Hs & Hn).
        rewrite Hrun in H. inversion H; subst.
        split; [exact Hn|]. left. auto.
      * destruct (ddg_attempt_out_of_turns query a w msg Ha Hreply)
          as (w0 & Hrun & Hs & Hn).
        rewrite Hrun in H. inversion H; subst.
        split; [exact Hn|]. right. split; [exact Hs|].
        right. eexists. split; [reflexivity|]. left. reflexivity.
    + destruct (ddg_attempt_fails E query a w e Hreply Hlim)
        as (w0 & Hrun & Hs & Hn).
      rewrite Hrun in H. inversion H; subst.
      split; [exact Hn|]. right. split; [exact Hs|].
      right. eexists. split; [reflexivity|]. left. reflexivity.
Qed.

(** The turns [a], ..., 9 of the loop end in a turn [a + j] that returns
    or raises, after [j] rate limits. *)
Lemma retry_loop_cases query :
  forall n a w r w',
    (a + S n = 10)%nat ->
    for_return (seq a (S n)) (ddg_attempt E query) w = (r, w') ->
    exists j,
      (j <= n)%nat
      /\ n_search w' = (n_search w + j + 1)%nat
      /\ sleeps (trace w')
         = (sleeps (trace w)
            ++ map (fun k => 5 * 2 ^ Z.of_nat k)%Z (seq a j))%list
      /\ (forall k, (k < j)%nat -> rate_limited E query (n_search w + k))
      /\ ((exists url, r = Ok (Some url))
          \/ exists e,
              r = Raise e
              /\ (ddgs_text E (n_search w + j) (query ++ " BC") = Raise e
                  \/ (ddgs_text E (n_search w + j) (query ++ " BC") = Ok []
                      /\ e = IndexError)
                  \/ (exists x rest,
                         ddgs_text E (n_search w + j) (query ++ " BC")
                         = Ok (x :: rest)
                         /\ sget "href" x = None
                         /\ e = KeyError (JStr "href")))).
Proof.
  induction n as [|n IH]; intros a w r w' Ha Hrun;
    cbn [seq for_return] in Hrun; unfold bind at 1 in Hrun;
    destruct (ddg_attempt E query a w) as [r1 w1] eqn:Hturn;
    destruct (ddg_attempt_cases _ _ _ _ _ Hturn)
      as (Hn1 & [(-> & Hlt & Hlim & Hs1)|(Hs1 & Hend)]).
  - lia.
  - exists 0%nat. rewrite !Nat.add_0_r. cbn [seq map]. rewrite app_nil_r.
    split; [lia|].
    destruct Hend as [(url & ->)|(e & -> & He)];
      cbn in Hrun; inversion Hrun; subst;
      (split; [lia|]); (split; [exact Hs1|]);
      (split; [intros k Hk; lia|]).
    + left. exists url. reflexivity.
    + right. exists e. split; [reflexivity | exact He].
  - cbn [ret] in Hrun. apply IH in Hrun; [|lia].
    destruct Hrun as (j & Hj & Hn & Hs & Hall & Hend).
    exists (S j). split; [lia|]. split; [lia|]. split.
    + rewrite Hs, Hs1. cbn [seq map]. rewrite <- app_assoc. reflexivity.
    + split.
      * intros k Hk. destruct k as [|k].
        -- rewrite Nat.add_0_r. exact Hlim.
        -- replace (n_search w + S k)%nat with (n_search w1 + k)%nat by lia.
           apply Hall. lia.
      * replace (n_search w + S j)%nat with (n_search w1 + j)%nat by lia.
        exact Hend.
  - exists 0%nat. rewrite !Nat.add_0_r. cbn [seq map]. rewrite app_nil_r.
    split; [lia|].
    destruct Hend as [(url & ->)|(e & -> & He)];
      cbn in Hrun; inversion Hrun; subst;
      (split; [lia|]); (split; [exact Hs1|]);
      (split; [intros k Hk; lia|]).
    + left. exists url. reflexivity.
    + right. exists e. split; [reflexivity | exact He].
Qed.

(** X4. Whatever the search service answers, a run of duckduckgo_search
    makes [j + 1] calls for some [j] at most 9 (at most ten calls), it has
    slept exactly 5 * 2^k seconds for each k below [j], each time after a
    rate limit, and so 2555 seconds at most in all. *)
Theorem duckduckgo_search_budget (query : string) (w : world)
        (r : outcome string) (w' : world) :
  duckduckgo_search E query w = (r, w') ->
  exists j,
    (j <= 9)%nat
    /\ n_search w' = (n_search w + j + 1)%nat
    /\ sleeps (trace w')
       = (sleeps (trace w)
          ++ map (fun k => 5 * 2 ^ Z.of_nat k)%Z (seq 0 j))%list
    /\ (forall k, (k < j)%nat -> rate_limited E query (n_search w + k))
    /\ (total_sleep (trace w') <= total_sleep (trace w) + 2555)%Z.
Proof.
  intros H. unfold duckduckgo_search, bind at 1 in H.
  change (seq 0 max_retries) with (seq 0 10) in H.
  destruct (for_return (seq 0 10) (ddg_attempt E query) w) as [r1 w1] eqn:Hloop.
  destruct (retry_loop_cases query 9 0 w r1 w1 eq_refl Hloop)
    as (j & Hj & Hn & Hs & Hall & Hend).
  assert (Hw : w' = w1).
  { destruct Hend as [(url & ->)|(e & -> & _)]; cbn in H; inversion H;
      reflexivity. }
  subst w'. exists j. split; [exact Hj|]. split; [exact Hn|].
  split; [exact Hs|]. split; [exact Hall|].
  unfold total_sleep. rewrite Hs, fold_right_app.
  pose proof (backoff_sum j Hj) as Hsum.
  set (extra := fold_right Z.add 0%Z
                  (map (fun k => (5 * 2 ^ Z.of_nat k)%Z) (seq 0 j))) in *.
  clearbody extra. clear -Hsum.
  induction (sleeps (trace w)) as [|z l IH]; cbn; lia.
Qed.

(** X5. Every exception that duckduckgo_search raises is the exception of
    its last call, or the IndexError or KeyError of a result that cannot
    be used: the loop never ends without returning or raising, and the
    error raised after the loop is never reached. *)
Theorem duckduckgo_search_raises_a_reply (query : string) (w : world)
        (e : exn) (w' : world) :
  duckduckgo_search E query w = (Raise e, w') ->
  (forall r1 w1,
      for_return (seq 0 max_retries) (ddg_attempt E query) w = (r1, w1) ->
      r1 <> Ok None)
  /\ exists j,
      (j <= 9)%nat
      /\ n_search w' = (n_search w + j + 1)%nat
      /\ (ddgs_text E (n_search w + j) (query ++ " BC") = Raise e
          \/ (ddgs_text E (n_search w + j) (query ++ " BC") = Ok []
              /\ e = IndexError)
          \/ (exists x rest,
                 ddgs_text E (n_search w + j) (query ++ " BC") = Ok (x :: rest)
                 /\ sget "href" x = None
                 /\ e = KeyError (JStr "href"))).
Proof.
  intros H. split.
  - intros r1 w1 Hloop.
    change (seq 0 max_retries) with (seq 0 10) in Hloop.
    destruct (retry_loop_cases query 9 0 w r1 w1 eq_refl Hloop)
      as (j & _ & _ & _ & _ & [(url & ->)|(e1 & -> & _)]); discriminate.
  - unfold duckduckgo_search, bind at 1 in H.
    change (seq 0 max_retries) with (seq 0 10) in H.
    destruct (for_return (seq 0 10) (ddg_attempt E query) w)
      as [r1 w1] eqn:Hloop.
    destruct (retry_loop_cases query 9 0 w r1 w1 eq_refl Hloop)
      as (j & Hj & Hn & _ & _ & [(url & ->)|(e1 & -> & He)]);
      cbn in H; inversion H; subst.
    exists j. split; [exact Hj|]. split; [exact Hn | exact He].
Qed.

End Budget.

(* ================================================================== *)
(** * Loops that go on, loops that stop *)

Section LoopFacts.
Import Eff.

(** A [for_each] loop whose turns all end normally under an invariant
    ends normally. *)
Lemma for_each_progress {X St : Type} (body : X -> St -> M St)
      (I : nat -> St -> world -> Prop) :
  forall (xs : list X) (s : St) (w : world),
    I 0%nat s w ->
    (forall i x t u,
        nth_error xs i = Some x -> I i t u ->
        exists t' u', body x t u = (Ok t', u') /\ I (S i) t' u') ->
    exists s' w',
      for_each xs body s w = (Ok s', w') /\ I (List.length xs) s' w'.
Proof.
  intros xs; revert I.
  induction xs as [|x xs IH]; intros I s w H0 Hstep.
  - exists s, w. split; [reflexivity | exact H0].
  - destruct (Hstep 0%nat x s w eq_refl H0) as (s1 & w1 & Hb & H1).
    destruct (IH (fun i => I (S i)) s1 w1 H1) as (s' & w' & Hrun & Hend).
    { intros i y t u Hy Hi. apply (Hstep (S i) y t u Hy Hi). }
    exists s', w'. split; [|exact Hend].
    cbn [for_each]. rewrite (bind_ok _ Hb). exact Hrun.
Qed.

(** What every turn keeps of the world, the loop keeps, however it ends. *)
Lemma for_each_keeps {X St : Type} (body : X -> St -> M St)
      (P : world -> Prop) :
  (forall x s w r w', body x s w = (r, w') -> P w -> P w') ->
  forall (xs : list X) (s : St) (w : world) r w',
    for_each xs body s w = (r, w') -> P w -> P w'.
Proof.
  intros Hbody xs. induction xs as [|x xs IH]; intros s w r w' Hrun Hw.
  - cbn in Hrun. inversion Hrun; subst. exact Hw.
  - cbn [for_each] in Hrun. unfold bind at 1 in Hrun.
    destruct (body x s w) as [[s1|e] w1] eqn:Hb.
    + apply (IH s1 w1 r w' Hrun). apply (Hbody x s w _ _ Hb Hw).
    + inversion Hrun; subst. apply (Hbody x s w _ _ Hb Hw).
Qed.

End LoopFacts.

(* ================================================================== *)
(** * get_np_info, when it returns and when it stops *)

Section InfoOutcomes.
Import PyStr PyVal Pandas Eff Automation.
Variables (E : Env) (limit : Z) (links NPs_names : list string)
          (verbose : bool) (w0 : world).

Lemma storable_cases k :
  storable E w0 links k = true ->
  extracted E w0 links k = false
  \/ (extracted E w0 links k = true
      /\ exists fields,
          json_loads E (stdout (answer_of E w0 links k)) = Some (JObj fields)).
Proof.
  unfold storable. destruct (extracted E w0 links k); cbn [negb orb].
  - intros H. right. split; [reflexivity|].
    destruct (json_loads E (stdout (answer_of E w0 links k))) as [v|];
      [|discriminate].
    destruct v; try discriminate. eexists. reflexivity.
  - intros _. left. reflexivity.
Qed.

(** A turn on an answer that can be stored or skipped ends normally. *)
Lemma get_np_info_step_runs n d w :
  n_run w = (n_run w0 + n)%nat ->
  (n < List.length links)%nat -> (n < List.length NPs_names)%nat ->
  storable E w0 links n = true ->
  exists d' w',
    get_np_info_step E limit links NPs_names verbose n d w = (Ok d', w')
    /\ n_run w' = (n_run w0 + S n)%nat.
Proof.
  intros Hn Hl Hm Hst.
  assert (Hlink : nth_error links n = Some (link_of links n))
    by (apply nth_error_nth'; exact Hl).
  assert (Hname : nth_error NPs_names n = Some (name_of NPs_names n))
    by (apply nth_error_nth'; exact Hm).
  assert (Hout : forall r w',
             get_np_info_step E limit links NPs_names verbose n d w = (r, w') ->
             n_run w' = (n_run w0 + S n)%nat /\ exists d', r = Ok d').
  { intros r w'. unfold get_np_info_step.
    rewrite Hlink, Hname. cbn [or_raise]. unfold bind at 1. cbn [ret].
    unfold bind at 1. cbn [ret]. unfold bind at 1, run at 1.
    replace (subprocess_run E (n_run w)
               (scraper_argv info_prompt (link_of links n)))
      with (answer_of E w0 links n)
      by (unfold answer_of; rewrite Hn; reflexivity).
    destruct (storable_cases n Hst) as [Hx|(Hx & fields & Hparse)];
      unfold extracted in Hx.
    - apply negb_false_iff in Hx. rewrite Hx. cbn [negb].
      unfold bind, print, emit, when, ret.
      destruct verbose; intros H; inversion H; subst; cbn;
        (split; [lia | eexists; reflexivity]).
    - rewrite Hx. unfold loads. rewrite Hparse.
      unfold bind, or_raise, print, emit, when, ret.
      destruct verbose; intros H; inversion H; subst; cbn;
        (split; [lia | eexists; reflexivity]). }
  destruct (get_np_info_step E limit links NPs_names verbose n d w)
    as [r w'] eqn:Hrun.
  destruct (Hout r w' eq_refl) as (Hn' & d' & ->).
  exists d', w'. split; [reflexivity | exact Hn'].
Qed.

(** A turn on an answer that is neither empty nor a JSON object raises,
    once its subprocess has run. *)
Lemma get_np_info_step_rejects n d w :
  n_run w = (n_run w0 + n)%nat ->
  (n < List.length links)%nat -> (n < List.length NPs_names)%nat ->
  storable E w0 links n = false ->
  exists w',
    get_np_info_step E limit links NPs_names verbose n d w
    = (Raise (rejection E w0 links n), w')
    /\ n_run w' = (n_run w0 + S n)%nat.
Proof.
  intros Hn Hl Hm Hst.
  assert (Hlink : nth_error links n = Some (link_of links n))
    by (apply nth_error_nth'; exact Hl).
  assert (Hname : nth_error NPs_names n = Some (name_of NPs_names n))
    by (apply nth_error_nth'; exact Hm).
  unfold get_np_info_step.
  rewrite Hlink, Hname. cbn [or_raise]. unfold bind at 1. cbn [ret].
  unfold bind at 1. cbn [ret]. unfold bind at 1, run at 1.
  replace (subprocess_run E (n_run w)
             (scraper_argv info_prompt (link_of links n)))
    with (answer_of E w0 links n)
    by (unfold answer_of; rewrite Hn; reflexivity).
  unfold storable, extracted in Hst. unfold rejection.
  apply orb_false_iff in Hst as [Hx Hobj].
  apply negb_false_iff in Hx. rewrite Hx.
  unfold loads.
  destruct (json_loads E (stdout (answer_of E w0 links n))) as [v|].
  - destruct v; try discriminate;
      (eexists; split; [reflexivity | cbn; lia]).
  - eexists. split; [reflexivity | cbn; lia].
Qed.

(** A turn beyond the end of a list raises before any subprocess. *)
Lemma get_np_info_step_out_of_range n d w :
  (List.length links <= n)%nat \/ (List.length NPs_names <= n)%nat ->
  get_np_info_step E limit links NPs_names verbose n d w
  = (Raise IndexError, w).
Proof.
  intros Hout. unfold get_np_info_step.
  destruct (nth_error links n) as [link|] eqn:Hlink; [|reflexivity].
  destruct (nth_error NPs_names n) as [name|] eqn:Hname; [|reflexivity].
  exfalso.
  assert (n < List.length links)%nat by (apply nth_error_Some; congruence).
  assert (n < List.length NPs_names)%nat by (apply nth_error_Some; congruence).
  lia.
Qed.

(** The first [m] turns end normally when their answers allow. *)
Lemma get_np_info_prefix m :
  (m <= List.length links)%nat -> (m <= List.length NPs_names)%nat ->
  (forall k, (k < m)%nat -> storable E w0 links k = true) ->
  exists d w1,
    for_each (seq 0 m) (get_np_info_step E limit links NPs_names verbose)
             [] w0 = (Ok d, w1)
    /\ n_run w1 = (n_run w0 + m)%nat.
Proof.
  intros Hl Hm Hall.
  destruct (for_each_progress
              (get_np_info_step E limit links NPs_names verbose)
              (fun i _ u => n_run u = (n_run w0 + i)%nat)
              (seq 0 m) [] w0) as (d & w1 & Hrun & Hend).
  - cbn. lia.
  - intros i x t u Hx Hi. apply nth_error_seq_eq in Hx as [-> Hlt].
    cbn [Nat.add]. apply get_np_info_step_runs; try assumption; try lia.
    apply Hall. exact Hlt.
  - exists d, w1. rewrite length_seq in Hend. split; assumption.
Qed.

(** The loop stops in the turn [k] that raises. *)
Lemma get_np_info_stops k e d w1 w' :
  (k < Z.to_nat limit)%nat ->
  for_each (seq 0 k) (get_np_info_step E limit links NPs_names verbose)
           [] w0 = (Ok d, w1) ->
  get_np_info_step E limit links NPs_names verbose k d w1 = (Raise e, w') ->
  get_np_info E limit links NPs_names verbose w0 = (Raise e, w').
Proof.
  intros Hk Hpre Hstep. unfold get_np_info, range.
  replace (Z.to_nat limit) with (k + S (Z.to_nat limit - S k))%nat by lia.
  rewrite seq_app. cbn [seq Nat.add].
  eapply for_each_raise; eassumption.
Qed.

(** X6. get_np_info returns a dictionary exactly when the two lists have
    at least [limit] elements and each of the first [limit] answers is an
    empty stdout or a JSON object. *)
Theorem get_np_info_returns_iff :
  (exists d w', get_np_info E limit links NPs_names verbose w0 = (Ok d, w'))
  <-> ((Z.to_nat limit <= List.length links)%nat
       /\ (Z.to_nat limit <= List.length NPs_names)%nat
       /\ forall k, (k < Z.to_nat limit)%nat ->
                    storable E w0 links k = true).
Proof.
  split.
  - intros (d & w' & H).
    destruct (get_np_info_spec H) as (_ & _ & Hl & Hm & _ & Hparse & _).
    split; [exact Hl|]. split; [exact Hm|].
    intros k Hk. unfold storable.
    destruct (extracted E w0 links k) eqn:Hx; [|reflexivity].
    destruct (Hparse k Hk Hx) as (fields & ->). reflexivity.
  - intros (Hl & Hm & Hall).
    destruct (get_np_info_prefix (Z.to_nat limit) Hl Hm Hall)
      as (d & w1 & Hrun & _).
    exists d, w1. exact Hrun.
Qed.

(** X7. The first answer that has a stdout which is not a JSON object stops
    get_np_info: it raises the decoding error when the stdout is not JSON
    and TypeError when it is JSON of another kind, no dictionary is
    returned, and no subprocess is spawned for the organizations after
    it. *)
Theorem get_np_info_stops_on_bad_answer (k : nat) :
  (k < Z.to_nat limit)%nat ->
  (k < List.length links)%nat -> (k < List.length NPs_names)%nat ->
  (forall i, (i < k)%nat -> storable E w0 links i = true) ->
  storable E w0 links k = false ->
  exists w',
    get_np_info E limit links NPs_names verbose w0
    = (Raise (match json_loads E (stdout (answer_of E w0 links k)) with
              | None => JSONDecodeError
              | Some _ => TypeError
              end), w')
    /\ n_run w' = (n_run w0 + k + 1)%nat.
Proof.
  intros Hk Hl Hm Hall Hbad.
  destruct (get_np_info_prefix k ltac:(lia) ltac:(lia) Hall)
    as (d & w1 & Hpre & Hn).
  destruct (get_np_info_step_rejects k d w1 Hn Hl Hm Hbad) as (w' & Hstep & Hn').
  exists w'. split; [|lia].
  apply (get_np_info_stops k _ d w1 w' Hk Hpre Hstep).
Qed.

End InfoOutcomes.

(* ================================================================== *)
(** * get_np_info with names that repeat *)

Section Overwriting.
Import PyStr PyVal Pandas Eff Automation.
Variables (E : Env) (w0 : world) (links NPs_names : list string).

Lemma fold_sset_keys (ks : list nat) :
  forall (d : sdict (sdict json)) key,
    In key (Dict.keys
              (fold_left (fun d k => sset (name_of NPs_names k)
                                          (record_of E w0 links NPs_names k) d)
                         ks d))
    <-> In key (Dict.keys d)
        \/ exists k, In k ks /\ name_of NPs_names k = key.
Proof.
  induction ks as [|k ks IH]; intros d key; cbn [fold_left].
  - split; [auto | intros [H|(k & [] & _)]; exact H].
  - rewrite IH, sset_keys_in. split.
    + intros [[->|H]|(j & Hj & Hn)].
      * right. exists k. split; [left|]; reflexivity.
      * left. exact H.
      * right. exists j. split; [right; exact Hj | exact Hn].
    + intros [H|(j & [->|Hj] & Hn)].
      * left. right. exact H.
      * left. left. symmetry. exact Hn.
      * right. exists j. split; assumption.
Qed.

Lemma fold_sset_keeps (ks : list nat) :
  forall (d : sdict (sdict json)) key,
    (forall j, In j ks -> name_of NPs_names j <> key) ->
    sget key (fold_left (fun d k => sset (name_of NPs_names k)
                                         (record_of E w0 links NPs_names k) d)
                        ks d)
    = sget key d.
Proof.
  induction ks as [|k ks IH]; intros d key Hother; cbn [fold_left];
    [reflexivity|].
  rewrite IH by (intros j Hj; apply Hother; right; exact Hj).
  apply sget_sset_other. apply Hother. left. reflexivity.
Qed.

Lemma extracted_among_split L k :
  (k < L)%nat -> extracted E w0 links k = true ->
  extracted_among E w0 links L
  = (extracted_among E w0 links k
     ++ k :: filter (extracted E w0 links) (seq (S k) (L - S k)))%list.
Proof.
  intros Hk Hx. unfold extracted_among.
  replace L with (k + S (L - S k))%nat at 1 by lia.
  rewrite seq_app, filter_app. cbn [seq filter Nat.add]. rewrite Hx.
  reflexivity.
Qed.

(** The entry of a name holds the record of the last organization
    extracted under that name. *)
Lemma collected_last L k :
  (k < L)%nat -> extracted E w0 links k = true ->
  (forall j, (k < j < L)%nat -> extracted E w0 links j = true ->
             name_of NPs_names j <> name_of NPs_names k) ->
  sget (name_of NPs_names k) (collected E w0 links NPs_names L)
  = Some (record_of E w0 links NPs_names k).
Proof.
  intros Hk Hx Hlater. unfold collected.
  rewrite (extracted_among_split L k Hk Hx), fold_left_app.
  cbn [fold_left]. rewrite fold_sset_keeps.
  - apply sget_sset_same.
  - intros j Hj. apply filter_In in Hj as [Hj Hxj]. apply in_seq in Hj.
    apply Hlater; [lia | exact Hxj].
Qed.

(** X8. get_np_info keeps one entry for each name: under a name supplied
    for several organizations, the dictionary holds the record of the last
    one among them whose extraction succeeded, with that one's link. *)
Theorem get_np_info_last_answer_wins (limit : Z) (verbose : bool)
        (d : sdict (sdict json)) (w' : world) (k : nat) :
  get_np_info E limit links NPs_names verbose w0 = (Ok d, w') ->
  (k < Z.to_nat limit)%nat ->
  extracted E w0 links k = true ->
  (forall j, (k < j < Z.to_nat limit)%nat ->
             extracted E w0 links j = true ->
             name_of NPs_names j <> name_of NPs_names k) ->
  exists fields record,
    json_loads E (stdout (answer_of E w0 links k)) = Some (JObj fields)
    /\ sget (name_of NPs_names k) d = Some record
    /\ sget "name" record = Some (JStr (name_of NPs_names k))
    /\ sget "link" record = Some (JStr (rsplit_slash_head (link_of links k)))
    /\ (forall f, f <> "name" -> f <> "link" ->
                  sget f record = sget f fields).
Proof.
  intros H Hk Hx Hlater.
  destruct (get_np_info_spec H) as (Hd & _ & _ & _ & _ & Hparse & _).
  destruct (Hparse k Hk Hx) as (fields & Hfields).
  exists fields, (record_of E w0 links NPs_names k).
  split; [exact Hfields|]. split.
  - subst d. apply collected_last; assumption.
  - apply (record_of_fields E w0 links NPs_names k Hfields).
Qed.

(** X9. The dictionary that get_np_info returns has distinct keys, which
    are exactly the names of the organizations among the first [limit]
    whose extraction returned a non-empty stdout; it has no more entries
    than there are such organizations. *)
Theorem get_np_info_keys (limit : Z) (verbose : bool)
        (d : sdict (sdict json)) (w' : world) :
  get_np_info E limit links NPs_names verbose w0 = (Ok d, w') ->
  NoDup (Dict.keys d)
  /\ (forall key,
         In key (Dict.keys d)
         <-> exists k, (k < Z.to_nat limit)%nat
                       /\ extracted E w0 links k = true
                       /\ name_of NPs_names k = key)
  /\ (List.length d
      <= List.length (extracted_among E w0 links (Z.to_nat limit)))%nat.
Proof.
  intros H. destruct (get_np_info_spec H) as (Hd & _). subst d.
  split; [apply collected_nodup|]. split; [|apply collected_length].
  intros key. unfold collected. rewrite fold_sset_keys. cbn [Dict.keys map In].
  split.
  - intros [[]|(k & Hk & Hn)]. apply extracted_among_in in Hk as [Hk Hx].
    exists k. auto.
  - intros (k & Hk & Hx & Hn). right. exists k. split; [|exact Hn].
    apply extracted_among_in. auto.
Qed.

End Overwriting.

(* ================================================================== *)
(** * create_database, when it returns and when it stops *)

Section AssemblyOutcomes.
Import PyStr PyVal Pandas Eff Automation.

Lemma nth_error_firstn_some {A : Type} (l : list A) m i x :
  nth_error (firstn m l) i = Some x ->
  (i < m)%nat /\ nth_error l i = Some x.
Proof.
  revert m i. induction l as [|a l IH]; intros m i H.
  - rewrite firstn_nil in H. destruct i; discriminate.
  - destruct m as [|m]; [destruct i; discriminate|].
    destruct i as [|i]; cbn in H.
    + split; [lia | exact H].
    + apply IH in H as [Hi Hn]. split; [lia | exact Hn].
Qed.

Lemma fresh_in_prefix (d : sdict (sdict json)) i key record :
  NoDup (Dict.keys d) ->
  nth_error d i = Some (key, record) ->
  ~ In key (Dict.keys (map flatten_entry (firstn i d))).
Proof.
  intros Hnd Hnth.
  destruct (firstn_skipn_nth _ _ _ Hnth) as [_ Hskip].
  rewrite keys_flatten.
  rewrite <- (firstn_skipn i d), Hskip in Hnd.
  unfold Dict.keys in Hnd. rewrite map_app in Hnd. cbn in Hnd.
  apply NoDup_remove_2 in Hnd. intros Hin. apply Hnd.
  apply in_or_app. left. exact Hin.
Qed.

(** The turn on an entry that can be assembled. *)
Lemma create_database_step_runs (d : sdict (sdict json)) i key record db w :
  NoDup (Dict.keys d) ->
  nth_error d i = Some (key, record) ->
  assemblable record = true ->
  exists df,
    one_row_frame (flatten_record record) = Some df
    /\ create_database_step key
         ((map flatten_entry (firstn i d) ++ skipn i d)%list, db) w
       = (Ok ((map flatten_entry (firstn (S i) d) ++ skipn (S i) d)%list,
              concat db df), w).
Proof.
  intros Hnd Hnth Hok.
  pose proof (fresh_in_prefix d i key record Hnd Hnth) as Hfresh.
  destruct (firstn_skipn_nth _ _ _ Hnth) as [Hfirst Hskip].
  unfold assemblable in Hok.
  destruct (sget "contacts" record) as [c|] eqn:Hc; [|discriminate].
  destruct (one_row_frame (flatten_record record)) as [df|] eqn:Hdf;
    [|discriminate].
  exists df. split; [reflexivity|].
  unfold create_database_step. rewrite Hskip.
  rewrite (sget_middle _ record _ _ Hfresh). cbn [or_raise].
  unfold bind at 1. cbn [ret]. rewrite Hc. cbn [or_raise].
  unfold bind at 1. cbn [ret].
  assert (Hflat : sset "contacts" (JStr (slice_1_m1 (str c))) record
                  = flatten_record record)
    by (unfold flatten_record; rewrite Hc; reflexivity).
  rewrite Hflat, Hdf. cbn [or_raise]. unfold bind at 1. cbn [ret].
  rewrite (sset_middle _ _ _ _ _ Hfresh), Hfirst, map_app, <- app_assoc.
  reflexivity.
Qed.

(** The turn on an entry that cannot be assembled. *)
Lemma create_database_step_fails (d : sdict (sdict json)) i key record db w :
  NoDup (Dict.keys d) ->
  nth_error d i = Some (key, record) ->
  assemblable record = false ->
  create_database_step key
    ((map flatten_entry (firstn i d) ++ skipn i d)%list, db) w
  = (Raise (match sget "contacts" record with
            | None => KeyError (JStr "contacts")
            | Some _ => ValueError
            end), w).
Proof.
  intros Hnd Hnth Hbad.
  pose proof (fresh_in_prefix d i key record Hnd Hnth) as Hfresh.
  destruct (firstn_skipn_nth _ _ _ Hnth) as [Hfirst Hskip].
  unfold assemblable in Hbad.
  unfold create_database_step. rewrite Hskip.
  rewrite (sget_middle _ record _ _ Hfresh). cbn [or_raise].
  unfold bind at 1. cbn [ret].
  destruct (sget "contacts" record) as [c|] eqn:Hc; [|reflexivity].
  cbn [or_raise]. unfold bind at 1. cbn [ret].
  assert (Hflat : sset "contacts" (JStr (slice_1_m1 (str c))) record
                  = flatten_record record)
    by (unfold flatten_record; rewrite Hc; reflexivity).
  rewrite Hflat.
  destruct (one_row_frame (flatten_record record)); [discriminate|].
  reflexivity.
Qed.

(** The first [m] turns, on entries that can be assembled. *)
Lemma create_database_prefix (d : sdict (sdict json)) m w :
  NoDup (Dict.keys d) ->
  (forall i key record, (i < m)%nat -> nth_error d i = Some (key, record) ->
                        assemblable record = true) ->
  exists db,
    for_each (firstn m (Dict.keys d)) create_database_step
             (d, empty_frame table_columns) w
    = (Ok ((map flatten_entry (firstn (Nat.min m (List.length d)) d)
            ++ skipn (Nat.min m (List.length d)) d)%list, db), w).
Proof.
  intros Hnd Hall.
  destruct (for_each_progress create_database_step
              (fun i st u =>
                 u = w
                 /\ fst st = (map flatten_entry (firstn i d) ++ skipn i d)%list)
              (firstn m (Dict.keys d)) (d, empty_frame table_columns) w)
    as ([D db] & w1 & Hrun & -> & HD).
  - split; reflexivity.
  - intros i key [D db] u Hkey [-> HD]. cbn [fst] in HD. subst D.
    apply nth_error_firstn_some in Hkey as [Hi Hkey].
    unfold Dict.keys in Hkey. rewrite nth_error_map in Hkey.
    destruct (nth_error d i) as [[key' record]|] eqn:Hnth; [|discriminate].
    cbn in Hkey. inversion Hkey; subst key'.
    destruct (create_database_step_runs d i key record db w Hnd Hnth
                (Hall i key record Hi Hnth)) as (df & _ & Hstep).
    eexists. exists w. split; [exact Hstep|]. split; reflexivity.
  - exists db. cbn [fst] in HD. rewrite Hrun, HD.
    rewrite length_firstn. unfold Dict.keys. rewrite length_map.
    reflexivity.
Qed.

Lemma forallb_assemblable (d : sdict (sdict json)) :
  forallb assemblable (map snd d) = true
  <-> forall i key record, nth_error d i = Some (key, record) ->
                           assemblable record = true.
Proof.
  rewrite forallb_forall. split.
  - intros H i key record Hnth. apply H.
    apply nth_error_In in Hnth. apply (in_map snd) in Hnth. exact Hnth.
  - intros H r Hr. apply in_map_iff in Hr as ([key record] & <- & Hin).
    apply In_nth_error in Hin as (i & Hnth). apply (H i key record Hnth).
Qed.

(** A call that returns has assembled every record. *)
Lemma create_database_ok_assemblable (d : sdict (sdict json))
      (verbose : bool) (w : world) d' db w' :
  NoDup (Dict.keys d) ->
  create_database d verbose w = (Ok (d', db), w') ->
  forallb assemblable (map snd d) = true.
Proof.
  intros Hnd H. apply forallb_assemblable.
  unfold create_database in H.
  open_bind H as st w1 Hloop. clear H.
  assert (Hpre : forall m j key record, (j < m)%nat ->
             nth_error d j = Some (key, record) ->
             assemblable record = true).
  { induction m as [|m IHm]; intros j key record Hj Hnth; [lia|].
    destruct (Nat.eq_dec j m) as [->|Hne];
      [|apply (IHm j key record ltac:(lia) Hnth)].
    destruct (assemblable record) eqn:Hok; [reflexivity|]. exfalso.
    assert (Hm : (m < List.length d)%nat)
      by (apply nth_error_Some; congruence).
    destruct (create_database_prefix d m w Hnd IHm) as (db0 & Hrun).
    rewrite Nat.min_l in Hrun by lia.
    pose proof (create_database_step_fails d m key record db0 w Hnd
                  Hnth Hok) as Hstep.
    assert (Hkeys : Dict.keys d
                    = (firstn m (Dict.keys d)
                       ++ key :: skipn (S m) (Dict.keys d))%list).
    { symmetry. apply firstn_skipn_middle.
      unfold Dict.keys. rewrite nth_error_map, Hnth. reflexivity. }
    rewrite Hkeys in Hloop.
    rewrite (for_each_raise _ _ _ _ _ _ _ _ _ _ Hrun Hstep) in Hloop.
    discriminate. }
  intros i key record Hnth. apply (Hpre (S i) i key record); [lia | exact Hnth].
Qed.

(** A call on records that can all be assembled returns. *)
Lemma create_database_runs (d : sdict (sdict json)) (verbose : bool)
      (w : world) :
  NoDup (Dict.keys d) ->
  forallb assemblable (map snd d) = true ->
  exists d' db w', create_database d verbose w = (Ok (d', db), w').
Proof.
  intros Hnd Hall. rewrite forallb_assemblable in Hall.
  destruct (create_database_prefix d (List.length d) w Hnd)
    as (db & Hrun).
  { intros i key record _ Hnth. apply (Hall i key record Hnth). }
  rewrite Nat.min_id in Hrun.
  assert (Hkeys : firstn (List.length d) (Dict.keys d) = Dict.keys d).
  { apply firstn_all2. unfold Dict.keys. rewrite length_map. lia. }
  rewrite Hkeys in Hrun.
  unfold create_database. rewrite (bind_ok _ Hrun).
  destruct verbose; cbn; eexists; eexists; eexists; reflexivity.
Qed.

(** X10. create_database returns its table exactly when every record has
    a contacts field and, its contacts flattened, no field that is a list
    of a length other than one. *)
Theorem create_database_returns_iff (d : sdict (sdict json))
        (verbose : bool) (w : world) :
  NoDup (Dict.keys d) ->
  (exists d' db w', create_database d verbose w = (Ok (d', db), w'))
  <-> forallb assemblable (map snd d) = true.
Proof.
  intros Hnd. split.
  - intros (d' & db & w' & H).
    apply (create_database_ok_assemblable d verbose w d' db w' Hnd H).
  - apply create_database_runs. exact Hnd.
Qed.

(** X11. create_database stops at the first record that it cannot
    assemble, the records before it being in order: it raises
    [KeyError('contacts')] when that record has no contacts and ValueError
    otherwise (a field is a list of a length other than one), and it
    returns no table. *)
Theorem create_database_stops (pre post : sdict (sdict json))
        (key : string) (record : sdict json) (verbose : bool) (w : world) :
  NoDup (Dict.keys (pre ++ (key, record) :: post)%list) ->
  forallb assemblable (map snd pre) = true ->
  assemblable record = false ->
  create_database (pre ++ (key, record) :: post)%list verbose w
  = (Raise (match sget "contacts" record with
            | None => KeyError (JStr "contacts")
            | Some _ => ValueError
            end), w).
Proof.
  intros Hnd Hpre Hbad.
  set (d := (pre ++ (key, record) :: post)%list) in *.
  assert (Hnth : nth_error d (List.length pre) = Some (key, record)).
  { unfold d. rewrite nth_error_app2 by lia. rewrite Nat.sub_diag.
    reflexivity. }
  destruct (create_database_prefix d (List.length pre) w Hnd) as (db & Hrun).
  { intros i k r Hi Hn. rewrite forallb_assemblable in Hpre.
    apply (Hpre i k r). unfold d in Hn. rewrite nth_error_app1 in Hn by lia.
    exact Hn. }
  assert (Hlen : (List.length pre < List.length d)%nat)
    by (apply nth_error_Some; congruence).
  rewrite Nat.min_l in Hrun by lia.
  pose proof (create_database_step_fails d _ key record db w Hnd Hnth Hbad)
    as Hstep.
  assert (Hkeys : Dict.keys d
                  = (firstn (List.length pre) (Dict.keys d)
                     ++ key :: skipn (S (List.length pre)) (Dict.keys d))%list).
  { symmetry. apply firstn_skipn_middle.
    unfold Dict.keys. rewrite nth_error_map, Hnth. reflexivity. }
  unfold create_database. rewrite Hkeys.
  apply bind_raise.
  apply (for_each_raise _ _ _ _ _ _ _ _ _ _ Hrun Hstep).
Qed.

End AssemblyOutcomes.

(* ================================================================== *)
(** * The table and the dictionary that create_database leaves *)

Section AssemblyShape.
Import PyStr PyVal Pandas Eff Automation.

Lemma string_init_last (t : string) :
  t <> EmptyString ->
  exists init b,
    t = init ++ chr b /\ String.length init = (String.length t - 1)%nat.
Proof.
  induction t as [|c t IH]; intros Hne; [contradiction|].
  destruct t as [|c' t'].
  - exists EmptyString, c. split; reflexivity.
  - destruct IH as (init & b & Heq & Hlen); [discriminate|].
    exists (String c init), b. rewrite Heq at 1. split; [reflexivity|].
    cbn [String.length] in *. lia.
Qed.

(** [s[1:-1]] of a text of two characters or more is the text between its
    first and its last character. *)
Lemma slice_drops_ends (s : string) :
  (2 <= String.length s)%nat ->
  exists a b, s = String a (slice_1_m1 s ++ chr b).
Proof.
  intros Hlen. destruct s as [|a t]; [cbn in Hlen; lia|].
  destruct (string_init_last t) as (init & b & Heq & Hinit).
  { intros ->. cbn in Hlen. lia. }
  exists a, b. f_equal. unfold slice_1_m1.
  cbn [String.length substring].
  replace (S (String.length t) - 2)%nat with (String.length init)
    by (cbn in Hlen; lia).
  clear Hinit Hlen. subst t. rewrite substring_prefix. reflexivity.
Qed.

Lemma row_of_length cols record :
  List.length (row_of cols record) = List.length cols.
Proof. unfold row_of. apply length_map. Qed.

Lemma add_fields_nodup cols (record : sdict json) :
  NoDup cols -> NoDup (Dict.keys record) -> NoDup (add_fields cols record).
Proof.
  intros Hc Hr. unfold add_fields. apply NoDup_app.
  - exact Hc.
  - apply NoDup_filter. exact Hr.
  - intros c Hin Hnew. apply (add_fields_new cols record c Hnew Hin).
Qed.

Lemma header_of_nodup (records : list (sdict json)) :
  (forall r, In r records -> NoDup (Dict.keys r)) ->
  NoDup (header_of records).
Proof.
  intros Hall. unfold header_of.
  assert (Hbase : NoDup table_columns).
  { unfold table_columns.
    repeat (constructor; [cbn; intuition discriminate|]). constructor. }
  revert Hbase. generalize table_columns as cols.
  induction records as [|r records IH]; intros cols Hc; cbn [fold_left];
    [exact Hc|].
  apply IH.
  - intros r' Hr'. apply Hall. right. exact Hr'.
  - apply add_fields_nodup; [exact Hc|]. apply Hall. left. reflexivity.
Qed.

(** X12. Contacts that are a text rather than a list lose their first and
    their last character: the contacts cell of the row holds the text
    without them. *)
Theorem contacts_text_loses_its_ends (d : sdict (sdict json))
        (verbose : bool) (w : world) (d' : sdict (sdict json))
        (db : DataFrame) (w' : world) (i : nat) (key : string)
        (record : sdict json) (s : string) :
  NoDup (Dict.keys d) ->
  create_database d verbose w = (Ok (d', db), w') ->
  nth_error d i = Some (key, record) ->
  sget "contacts" record = Some (JStr s) ->
  (2 <= String.length s)%nat ->
  exists row a b core,
    nth_error (rows db) i = Some row
    /\ cell_at (columns db) row "contacts" = Some (Val (JStr core))
    /\ s = String a (core ++ chr b).
Proof.
  intros Hnd H Hnth Hc Hlen.
  destruct (create_database_spec Hnd H) as (Hd' & _ & Hcols & Hrows & _).
  destruct (slice_drops_ends s Hlen) as (a & b & Hs).
  exists (row_of (columns db) (flatten_record record)), a, b, (slice_1_m1 s).
  split; [|split; [|exact Hs]].
  - rewrite Hrows, Hd', !nth_error_map, Hnth. reflexivity.
  - rewrite cell_at_row_of.
    + unfold field_cell, flatten_record. rewrite Hc, sget_sset_same.
      reflexivity.
    + rewrite Hcols. apply header_has_table_columns. cbn. auto 10.
Qed.

(** X13. The table of create_database is rectangular: it has one row for
    each entry of the dictionary, each row has one cell for each column,
    and its first seven columns are the table columns in their order; the
    columns all differ when the field names of each record do. *)
Theorem table_is_rectangular (d : sdict (sdict json)) (verbose : bool)
        (w : world) (d' : sdict (sdict json)) (db : DataFrame) (w' : world) :
  NoDup (Dict.keys d) ->
  create_database d verbose w = (Ok (d', db), w') ->
  List.length (rows db) = List.length d
  /\ (forall row, In row (rows db) ->
                  List.length row = List.length (columns db))
  /\ firstn 7 (columns db) = table_columns
  /\ ((forall key record, In (key, record) d -> NoDup (Dict.keys record)) ->
      NoDup (columns db)).
Proof.
  intros Hnd H.
  destruct (create_database_spec Hnd H) as (Hd' & _ & Hcols & Hrows & _).
  split; [|split; [|split]].
  - rewrite Hrows, Hd', !length_map. reflexivity.
  - intros row Hrow. rewrite Hrows in Hrow.
    apply in_map_iff in Hrow as (r & <- & _). apply row_of_length.
  - rewrite Hcols. unfold header_of.
    destruct (fold_add_fields_prefix (map snd d') table_columns)
      as (extra & ->).
    change 7%nat with (List.length table_columns + 0)%nat.
    rewrite firstn_app_2. cbn [firstn]. apply app_nil_r.
  - intros Hrec. rewrite Hcols. apply header_of_nodup.
    intros r Hr. rewrite Hd' in Hr.
    apply in_map_iff in Hr as ([k r0] & <- & Hin).
    apply in_map_iff in Hin as ([k1 r1] & Heq & Hin).
    inversion Heq; subst. cbn [snd]. rewrite keys_flatten_record.
    apply (Hrec k r1 Hin).
Qed.

Lemma cells_of_sset_text (record : sdict json) k s cs :
  cells_of (map snd record) = Some cs ->
  exists cs', cells_of (map snd (sset k (JStr s) record)) = Some cs'.
Proof.
  revert cs. induction record as [|[k0 v0] record IH]; intros cs H.
  - cbn. eexists. reflexivity.
  - cbn [map snd cells_of] in H.
    destruct (cell_of v0) as [c0|] eqn:Hv; [|discriminate].
    destruct (cells_of (map snd record)) as [cs0|] eqn:Hcs; [|discriminate].
    cbn [sset Dict.set]. unfold sset.
    cbn [Dict.set]. destruct (String.eqb k0 k).
    + cbn [map snd cells_of cell_of]. rewrite Hcs. eexists. reflexivity.
    + cbn [map snd cells_of]. rewrite Hv.
      destruct (IH cs0 eq_refl) as (cs' & Hcs'). unfold sset in Hcs'.
      rewrite Hcs'. eexists. reflexivity.
Qed.

Lemma assemblable_flatten (record : sdict json) :
  assemblable record = true -> assemblable (flatten_record record) = true.
Proof.
  unfold assemblable. intros H.
  destruct (sget "contacts" record) as [c|] eqn:Hc; [|discriminate].
  destruct (one_row_frame (flatten_record record)) as [df|] eqn:Hdf;
    [|discriminate].
  assert (Hc' : sget "contacts" (flatten_record record)
                = Some (JStr (slice_1_m1 (str c)))).
  { unfold flatten_record. rewrite Hc. apply sget_sset_same. }
  rewrite Hc'. unfold one_row_frame in *.
  destruct (cells_of (map snd (flatten_record record))) as [cs|] eqn:Hcs;
    [|discriminate].
  unfold flatten_record at 1. rewrite Hc'.
  destruct (cells_of_sset_text (flatten_record record) "contacts"
              (slice_1_m1 (str (JStr (slice_1_m1 (str c))))) cs Hcs)
    as (cs' & ->).
  reflexivity.
Qed.

(** X14. create_database is not to be called again on the dictionary it
    has left: the second call succeeds as well, and strips the first and
    the last character of the flattened contacts once more. *)
Theorem create_database_twice (d : sdict (sdict json)) (verbose : bool)
        (w : world) (d' : sdict (sdict json)) (db : DataFrame) (w' : world)
        (again : bool) :
  NoDup (Dict.keys d) ->
  create_database d verbose w = (Ok (d', db), w') ->
  exists d'' db' w'',
    create_database d' again w' = (Ok (d'', db'), w'')
    /\ forall key record contacts,
        sget key d = Some record ->
        sget "contacts" record = Some contacts ->
        exists record'',
          sget key d'' = Some record''
          /\ sget "contacts" record''
             = Some (JStr (slice_1_m1 (slice_1_m1 (str contacts)))).
Proof.
  intros Hnd H.
  destruct (create_database_spec Hnd H) as (Hd' & _).
  assert (Hnd' : NoDup (Dict.keys d')) by (rewrite Hd', keys_flatten; exact Hnd).
  assert (Hok : forallb assemblable (map snd d) = true)
    by (apply (create_database_ok_assemblable d verbose w d' db w' Hnd H)).
  assert (Hall : forallb assemblable (map snd d') = true).
  { apply forallb_forall. intros r Hr. rewrite Hd' in Hr.
    apply in_map_iff in Hr as ([k r0] & <- & Hin).
    apply in_map_iff in Hin as ([k1 r1] & Heq & Hin).
    inversion Heq; subst. cbn [snd fst]. apply assemblable_flatten.
    rewrite forallb_forall in Hok. apply Hok.
    apply (in_map snd) in Hin. exact Hin. }
  destruct (create_database_runs d' again w' Hnd' Hall)
    as (d'' & db' & w'' & H2).
  exists d'', db', w''. split; [exact H2|].
  destruct (create_database_spec Hnd' H2) as (Hd'' & _).
  intros key record contacts Hget Hc.
  exists (flatten_record (flatten_record record)). split.
  - rewrite Hd'', Hd', !sget_map_flatten, Hget. reflexivity.
  - assert (Hc' : sget "contacts" (flatten_record record)
                  = Some (JStr (slice_1_m1 (str contacts)))).
    { unfold flatten_record. rewrite Hc. apply sget_sset_same. }
    unfold flatten_record at 1. rewrite Hc'. apply sget_sset_same.
Qed.

End AssemblyShape.

(* ================================================================== *)
(** * What is written, and when *)

Section Writing.
Import PyStr PyVal Pandas Eff Automation.
Variable E : Env.

Lemma written_app t u : written (t ++ u)%list = (written t ++ written u)%list.
Proof.
  induction t as [|e t IH]; [reflexivity|].
  destruct e; cbn; rewrite IH; reflexivity.
Qed.

Lemma wn_ret {A : Type} (a : A) : writes_nothing (ret a).
Proof. intros w r w' H. inversion H. reflexivity. Qed.

Lemma wn_raise {A : Type} (e : exn) : writes_nothing (@raise A e).
Proof. intros w r w' H. inversion H. reflexivity. Qed.

Lemma wn_or_raise {A : Type} (o : option A) e : writes_nothing (or_raise o e).
Proof. destruct o; [apply wn_ret | apply wn_raise]. Qed.

Lemma wn_bind {A B : Type} (m : M A) (k : A -> M B) :
  writes_nothing m -> (forall a, writes_nothing (k a)) ->
  writes_nothing (bind m k).
Proof.
  intros Hm Hk w r w' H. unfold bind in H.
  destruct (m w) as [[a|e] w1] eqn:Hrun.
  - rewrite (Hk a w1 r w' H). apply (Hm w _ w1 Hrun).
  - inversion H; subst. apply (Hm w _ w' Hrun).
Qed.

Lemma wn_print text : writes_nothing (print text).
Proof.
  intros w r w' H. unfold print, emit in H. inversion H; subst. cbn [trace].
  rewrite written_app. cbn. apply app_nil_r.
Qed.

Lemma wn_when b (m : M unit) : writes_nothing m -> writes_nothing (when b m).
Proof. destruct b; [auto | intros _; apply wn_ret]. Qed.

Lemma wn_run argv : writes_nothing (run E argv).
Proof.
  intros w r w' H. unfold run in H. inversion H; subst. cbn [trace].
  rewrite written_app. cbn. apply app_nil_r.
Qed.

Lemma wn_now : writes_nothing (now E).
Proof. intros w r w' H. unfold now in H. inversion H; subst. reflexivity. Qed.

Lemma wn_for_each {X St : Type} (body : X -> St -> M St) xs s :
  (forall x t, writes_nothing (body x t)) -> writes_nothing (for_each xs body s).
Proof.
  intros Hbody w r w' H.
  apply (for_each_keeps body
           (fun u => written (trace u) = written (trace w))) with (2 := H).
  - intros x t u r1 u' Hrun Hu. rewrite <- Hu. apply (Hbody x t u r1 u' Hrun).
  - reflexivity.
Qed.

Lemma wn_about_links dbd names : writes_nothing (about_links dbd names).
Proof.
  induction names as [|np names IH]; cbn [about_links]; [apply wn_ret|].
  apply wn_bind; [apply wn_or_raise|]. intros link.
  apply wn_bind; [exact IH|]. intros rest. apply wn_ret.
Qed.

Lemma wn_get_np_info limit links names verbose :
  writes_nothing (get_np_info E limit links names verbose).
Proof.
  unfold get_np_info. apply wn_for_each. intros n d.
  unfold get_np_info_step.
  apply wn_bind; [apply wn_or_raise|]. intros link.
  apply wn_bind; [apply wn_or_raise|]. intros name.
  apply wn_bind; [apply wn_run|]. intros result.
  apply wn_bind.
  - destruct (negb (String.eqb (stdout result) EmptyString)).
    + apply wn_bind; [apply wn_or_raise|]. intros parsed.
      destruct parsed; try apply wn_raise. apply wn_ret.
    + apply wn_bind; [apply wn_print|]. intros _. apply wn_ret.
  - intros d'. apply wn_bind; [apply wn_when, wn_print|]. intros _.
    apply wn_ret.
Qed.

Lemma wn_create_database (d : sdict (sdict json)) verbose :
  writes_nothing (create_database d verbose).
Proof.
  unfold create_database.
  apply wn_bind.
  - apply wn_for_each. intros key [D db]. unfold create_database_step.
    apply wn_bind; [apply wn_or_raise|]. intros record.
    apply wn_bind; [apply wn_or_raise|]. intros c.
    apply wn_bind; [apply wn_or_raise|]. intros df. apply wn_ret.
  - intros st. apply wn_bind; [apply wn_when, wn_print|]. intros _.
    apply wn_ret.
Qed.

Lemma wn_main n limit path verbose :
  writes_nothing (main E n limit path verbose).
Proof.
  unfold main.
  apply wn_bind; [apply wn_now|]. intros start.
  apply wn_bind; [apply wn_or_raise|]. intros dbd.
  apply wn_bind; [apply wn_about_links|]. intros links.
  apply wn_bind; [apply wn_get_np_info|]. intros d.
  apply wn_bind; [apply wn_create_database|]. intros st.
  apply wn_bind; [apply wn_now|]. intros finish.
  apply wn_bind; [apply wn_when, wn_print|]. intros _. apply wn_ret.
Qed.

(** save_db writes the table, once, under the stamped name, when the
    file system takes the file; when it refuses, save_db raises what the
    file system raised and nothing is written. *)
Lemma save_db_writes db path verbose w :
  let file :=
    (path ++ "associations_"
          ++ stamp (datetime_now E (n_clock w)) ++ ".csv")%string in
  write_error E file = None ->
  exists w',
    save_db E db path verbose w = (Ok tt, w')
    /\ written (trace w') = (written (trace w) ++ [(file, to_csv db)])%list.
Proof.
  intros file Hfree.
  unfold save_db, bind at 1, now. rewrite strftime_from_2.
  fold file. rewrite Hfree.
  unfold bind at 1, emit.
  destruct verbose; unfold when, print, emit, ret; eexists;
    (split; [reflexivity|]); cbn [trace]; rewrite ?written_app;
    cbn [written]; rewrite ?app_nil_r; reflexivity.
Qed.

Lemma save_db_refused db path verbose w e :
  let file :=
    (path ++ "associations_"
          ++ stamp (datetime_now E (n_clock w)) ++ ".csv")%string in
  write_error E file = Some e ->
  exists w',
    save_db E db path verbose w = (Raise e, w')
    /\ written (trace w') = written (trace w).
Proof.
  intros file Hrefused.
  unfold save_db, bind at 1, now. rewrite strftime_from_2.
  fold file. rewrite Hrefused.
  unfold bind at 1, raise. eexists. split; reflexivity.
Qed.

(** X15. The script writes one CSV file, and only once main has returned
    its table and the file system takes the file. When main raises, the
    script raises the same exception and has written nothing; when the
    write is refused, as for an output directory that does not exist, the
    script raises what the file system raised, and the table that main
    returned is not saved. *)
Theorem script_saves_once_or_never (args : Namespace) (w : world)
        (r : outcome unit) (w' : world) :
  script E args w = (r, w') ->
  (exists db w1,
      main E (n_associations args) (limit args) (source_link args)
           (verbose args) w = (Ok db, w1)
      /\ let file :=
           (path args ++ "associations_"
                 ++ stamp (datetime_now E (n_clock w1)) ++ ".csv")%string in
         (write_error E file = None
          /\ r = Ok tt
          /\ written (trace w')
             = (written (trace w) ++ [(file, to_csv db)])%list)
         \/ (exists e,
                write_error E file = Some e
                /\ r = Raise e
                /\ written (trace w') = written (trace w)))
  \/ (exists e,
         main E (n_associations args) (limit args) (source_link args)
              (verbose args) w = (Raise e, w')
         /\ r = Raise e
         /\ written (trace w') = written (trace w)).
Proof.
  intros H. unfold script, bind at 1 in H.
  destruct (main E (n_associations args) (limit args) (source_link args)
                 (verbose args) w) as [[db|e] w1] eqn:Hmain.
  - left. exists db, w1. split; [reflexivity|]. cbn zeta.
    pose proof (wn_main _ _ _ _ w _ w1 Hmain) as Hquiet.
    destruct (write_error E
                (path args ++ "associations_"
                      ++ stamp (datetime_now E (n_clock w1)) ++ ".csv"))
      as [e|] eqn:Hdisk.
    + right. exists e. split; [reflexivity|].
      destruct (save_db_refused db (path args) (verbose args) w1 e Hdisk)
        as (w2 & Hsave & Hw2).
      rewrite (bind_raise _ Hsave) in H. inversion H; subst.
      split; [reflexivity|]. rewrite Hw2. exact Hquiet.
    + left. split; [reflexivity|].
      destruct (save_db_writes db (path args) (verbose args) w1 Hdisk)
        as (w2 & Hsave & Hw2).
      rewrite (bind_ok _ Hsave) in H.
      assert (Hlast : r = Ok tt /\ written (trace w') = written (trace w2)).
      { destruct (verbose args); unfold when, print, emit, ret in H;
          inversion H; subst; cbn [trace]; rewrite ?written_app;
          cbn [written]; rewrite ?app_nil_r; split; reflexivity. }
      destruct Hlast as [-> Hw']. split; [reflexivity|].
      rewrite Hw', Hw2, Hquiet. reflexivity.
  - right. inversion H; subst. exists e. split; [reflexivity|].
    split; [reflexivity|]. apply (wn_main _ _ _ _ w _ w' Hmain).
Qed.

End Writing.

(* ================================================================== *)
(** * main beyond its batch, and the order of its table *)

Section DriverOutcomes.
Import PyStr PyVal Pandas Eff Automation.
Variable E : Env.

Lemma in_firstn {A : Type} (l : list A) n x : In x (firstn n l) -> In x l.
Proof.
  intros H. rewrite <- (firstn_skipn n l). apply in_or_app. left. exact H.
Qed.

Lemma about_links_runs dbd names w :
  (forall np, In np names -> In np (Dict.keys dbd)) ->
  about_links dbd names w
  = (Ok (map (fun np => match sget np dbd with
                        | Some link => link ++ "/about"
                        | None => EmptyString
                        end) names), w).
Proof.
  induction names as [|np names IH]; intros Hin; [reflexivity|].
  cbn [about_links map].
  destruct (sget np dbd) as [link|] eqn:Hget.
  - cbn [or_raise]. unfold bind at 1. cbn [ret].
    rewrite (bind_ok _ (IH (fun x Hx => Hin x (or_intror Hx)))).
    reflexivity.
  - exfalso. apply sget_none_notin in Hget. apply Hget, Hin. left. reflexivity.
Qed.

Lemma batch_names_in_cache path n np :
  In np (batch_names E path n) -> In np (Dict.keys (cache_of E path)).
Proof.
  unfold batch_names, slice_to. destruct (0 <=? n)%Z; apply in_firstn.
Qed.

(** X16. A limit above the number of names that main draws from the cache
    stops the run: once a subprocess has been spawned for every name of the
    batch (their answers being empty or JSON objects), main raises
    IndexError and returns no table. *)
Theorem main_limit_above_batch (n limit : Z) (path : string)
        (verbose : bool) (w : world) (dbd : sdict string) :
  let names := batch_names E path n in
  let links := batch_links E path n in
  pickle_file E ((path ++ "/links") ++ ".pkl") = Some dbd ->
  (List.length names < Z.to_nat limit)%nat ->
  (forall k, (k < List.length names)%nat -> storable E w links k = true) ->
  exists w',
    main E n limit path verbose w = (Raise IndexError, w')
    /\ n_run w' = (n_run w + List.length names)%nat.
Proof.
  intros names links Hfile Hlimit Hall.
  assert (Hcache : cache_of E path = dbd)
    by (unfold cache_of; rewrite Hfile; reflexivity).
  assert (Hlen : List.length links = List.length names)
    by (unfold links, batch_links; apply length_map).
  destruct (get_np_info_prefix E limit links names verbose (after_clock w)
              (List.length names) ltac:(lia) ltac:(lia) Hall)
    as (d & w1 & Hpre & Hn).
  pose proof (get_np_info_step_out_of_range E limit links names verbose
                (List.length names) d w1 ltac:(right; lia)) as Hstep.
  pose proof (get_np_info_stops E limit links names verbose (after_clock w)
                (List.length names) IndexError d w1 w1 Hlimit Hpre Hstep)
    as Hinfo.
  exists w1. split; [|exact Hn].
  unfold main, bind at 1, now. fold (after_clock w).
  unfold bind at 1, load_dict. rewrite Hfile. cbn [or_raise ret].
  assert (Hin : forall np, In np (slice_to n (Dict.keys dbd)) ->
                           In np (Dict.keys dbd)).
  { intros np Hnp. rewrite <- Hcache.
    apply (batch_names_in_cache path n). unfold batch_names.
    rewrite Hcache. exact Hnp. }
  rewrite (bind_ok _ (about_links_runs dbd (slice_to n (Dict.keys dbd))
                        (after_clock w) Hin)).
  apply bind_raise.
  unfold links, names, batch_links, batch_names, about_link in Hinfo.
  rewrite Hcache in Hinfo. exact Hinfo.
Qed.

(** X17. The rows of the table follow the cache: read down its name
    column, the table lists the names of the organizations whose extraction
    succeeded, in the order the cache has them. The cache is a dict: its
    names differ. *)
Theorem table_follows_the_cache (n limit : Z) (path : string)
        (verbose : bool) (w : world) (db : DataFrame) (w' : world) :
  let links := batch_links E path n in
  let names := batch_names E path n in
  NoDup (Dict.keys (cache_of E path)) ->
  main E n limit path verbose w = (Ok db, w') ->
  map (fun row => cell_at (columns db) row "name") (rows db)
  = map (fun k => Some (Val (JStr (name_of names k))))
        (extracted_among E w links (Z.to_nat limit)).
Proof.
  intros links names Hnd H.
  pose proof (main_rows E Hnd H) as Hrows. cbn zeta in Hrows.
  destruct (main_table E H) as (Hcols & _ & _ & _ & _ & Hparse & _).
  rewrite Hrows, map_map. apply map_ext_in. intros k Hk.
  apply extracted_among_in in Hk as [Hk Hx].
  destruct (Hparse k Hk Hx) as (fields & Hfields).
  apply (extracted_row_cells E w links names k (columns db) Hfields);
    rewrite Hcols; apply header_has_table_columns; cbn; auto 10.
Qed.

End DriverOutcomes.

(* ================================================================== *)
(** * find_websites, name by name *)

Section DiscoveryLoop.
Import PyStr PyVal Pandas Eff Automation.
Variable E : Env.

Lemma discovered_counters source verbose w :
  n_run (discovered E source verbose w) = S (n_run w)
  /\ n_search (discovered E source verbose w) = n_search w
  /\ n_http (discovered E source verbose w) = n_http w.
Proof.
  unfold discovered, bind, run. destruct verbose; cbn; repeat split.
Qed.

(** find_websites on a stdout that holds a list of names is its loop. *)
Lemma find_websites_on_names source engine verbose w key l rest :
  stdout (discovery_answer E w source) <> EmptyString ->
  json_loads E (stdout (discovery_answer E w source))
  = Some (JObj ((key, JList l) :: rest)) ->
  find_websites E source engine verbose w
  = (NPs_links <- for_each (seq 0 (List.length l))
                    (find_websites_step E engine (JList l) (List.length l))
                    [] ;;
     when verbose (print "Finding the links of the associations done.") ;;
     ret (NamesLinks (JList l) NPs_links))
      (discovered E source verbose w).
Proof.
  intros Hout Hparse. rewrite find_websites_unfold.
  apply String.eqb_neq in Hout. rewrite Hout. cbn [negb].
  unfold loads. rewrite Hparse. cbn [or_raise].
  unfold bind at 1. cbn [ret]. unfold bind at 1. cbn [ret].
  unfold bind at 1. cbn [len ret]. reflexivity.
Qed.

Lemma search_backend_unknown engine np w :
  engine <> "google" -> engine <> "ddg" -> engine <> "gemini" ->
  search_backend E engine np w = (Ok None, w).
Proof.
  intros Hg Hd Hm. unfold search_backend.
  apply String.eqb_neq in Hg, Hd, Hm. rewrite Hg, Hd, Hm. reflexivity.
Qed.

(** X18. With a search engine that is none of ["google"], ["ddg"] and
    ["gemini"], find_websites returns the names with an empty mapping of
    links: it makes no search and no request, and raises nothing. *)
Theorem find_websites_unknown_engine (source engine : string)
        (verbose : bool) (w : world) (key : string) (l : list json)
        (rest : list (string * json)) :
  engine <> "google" -> engine <> "ddg" -> engine <> "gemini" ->
  stdout (discovery_answer E w source) <> EmptyString ->
  json_loads E (stdout (discovery_answer E w source))
  = Some (JObj ((key, JList l) :: rest)) ->
  exists w',
    find_websites E source engine verbose w
    = (Ok (NamesLinks (JList l) []), w')
    /\ n_search w' = n_search w
    /\ n_http w' = n_http w
    /\ n_run w' = S (n_run w).
Proof.
  intros Hg Hd Hm Hout Hparse.
  rewrite (find_websites_on_names source engine verbose w key l rest
             Hout Hparse).
  destruct (discovered_counters source verbose w) as (Hr & Hs & Hh).
  set (w1 := discovered E source verbose w) in *.
  destruct (for_each_progress
              (find_websites_step E engine (JList l) (List.length l))
              (fun _ links u =>
                 links = []
                 /\ n_run u = n_run w1 /\ n_search u = n_search w1
                 /\ n_http u = n_http w1)
              (seq 0 (List.length l)) [] w1)
    as (links & w2 & Hloop & -> & Hr2 & Hs2 & Hh2).
  - repeat split.
  - intros i x t u Hx (-> & Hru & Hsu & Hhu).
    apply nth_error_seq_eq in Hx as [-> Hi]. cbn [Nat.add].
    unfold find_websites_step.
    destruct (nth_error l i) as [np|] eqn:Hnp;
      [|apply nth_error_None in Hnp; lia].
    cbn [item]. rewrite Hnp. cbn [or_raise]. unfold bind at 1. cbn [ret].
    unfold bind at 1, print, emit.
    rewrite (bind_ok _ (search_backend_unknown engine np _ Hg Hd Hm)).
    eexists. eexists. split; [reflexivity|]. cbn. auto.
  - rewrite (bind_ok _ Hloop).
    destruct verbose; unfold bind, when, print, emit, ret; eexists;
      (split; [reflexivity|]); cbn; repeat split; congruence.
Qed.

Lemma duckduckgo_search_first_try query w r rest url :
  ddgs_text E (n_search w) (query ++ " BC") = Ok (r :: rest) ->
  sget "href" r = Some url ->
  exists w',
    duckduckgo_search E query w = (Ok url, w')
    /\ n_search w' = S (n_search w).
Proof.
  intros Hreply Hhref.
  destruct (duckduckgo_search_after_retries E query 0 w ltac:(lia))
    as (w1 & Hn & _ & ->); [intros k Hk; lia|].
  rewrite Nat.add_0_r in Hn. rewrite <- Hn in Hreply.
  destruct (ddg_attempt_found E query 0 w1 r rest url Hreply Hhref)
    as (w' & Hrun & _ & Hn').
  exists w'. rewrite (bind_ok _ (bind_ok _ Hrun)).
  split; [reflexivity | congruence].
Qed.

(** Keys that are equal numbers are one key, which keeps its first form;
    a text is no number, and an integer is compared with a float
    exactly. *)
Lemma key_eqb_numbers :
  key_eqb (JInt 1) (JBool true) = true
  /\ key_eqb (JFloat "1.0") (JInt 1) = true
  /\ key_eqb (JFloat "-0.0") (JBool false) = true
  /\ key_eqb (JFloat "1e+22") (JInt (10 ^ 22)) = true
  /\ key_eqb (JFloat "1e+23") (JInt (10 ^ 23)) = false
  /\ key_eqb (JFloat "1.5") (JInt 1) = false
  /\ key_eqb (JStr "1") (JInt 1) = false.
Proof. vm_compute. repeat split. Qed.

Lemma store_link_merges_numbers (link link' : json) :
  store_link (JInt 1) link' [(JBool true, link)]
  = ret [(JBool true, link')].
Proof. reflexivity. Qed.

Lemma set_fresh_text (k : string) (v : json) (d : list (json * json)) :
  (forall k' v', In (k', v') d -> k' <> JStr k) ->
  (forall k' v', In (k', v') d -> exists s, k' = JStr s) ->
  Dict.set key_eqb (JStr k) v d = (d ++ [(JStr k, v)])%list.
Proof.
  induction d as [|[k0 v0] d IH]; intros Hne Hstr; [reflexivity|].
  cbn [Dict.set app].
  destruct (Hstr k0 v0 (or_introl eq_refl)) as (s & ->).
  unfold key_eqb. cbn [key_number json_eqb].
  destruct (String.eqb s k) eqn:Hs.
  - apply String.eqb_eq in Hs. subst.
    exfalso. apply (Hne (JStr k) v0); [left|]; reflexivity.
  - f_equal. apply IH.
    + intros k' v' Hin. apply (Hne k' v'). right. exact Hin.
    + intros k' v' Hin. apply (Hstr k' v'). right. exact Hin.
Qed.

(** X19. With the engine ["ddg"], names that differ and a search service
    that answers each query, find_websites makes one search for each name,
    for the name followed by [" BC"], in the order of the names, and
    returns the names with the mapping of each name to the [href] of the
    first result of its search, in that order. *)
Theorem find_websites_resolves_each_name (source : string)
        (verbose : bool) (w : world) (key : string) (names : list string)
        (rest : list (string * json)) (href : nat -> string) :
  NoDup names ->
  stdout (discovery_answer E w source) <> EmptyString ->
  json_loads E (stdout (discovery_answer E w source))
  = Some (JObj ((key, JList (map JStr names)) :: rest)) ->
  (forall k, (k < List.length names)%nat ->
             exists r others,
               ddgs_text E (n_search w + k) (nth k names EmptyString ++ " BC")
               = Ok (r :: others)
               /\ sget "href" r = Some (href k)) ->
  exists w',
    find_websites E source "ddg" verbose w
    = (Ok (NamesLinks
             (JList (map JStr names))
             (map (fun k => (JStr (nth k names EmptyString), JStr (href k)))
                  (seq 0 (List.length names)))), w')
    /\ n_search w' = (n_search w + List.length names)%nat.
Proof.
  intros Hnd Hout Hparse Hall.
  rewrite (find_websites_on_names source "ddg" verbose w key
             (map JStr names) rest Hout Hparse).
  destruct (discovered_counters source verbose w) as (_ & Hs & _).
  set (w1 := discovered E source verbose w) in *.
  rewrite length_map.
  destruct (for_each_progress
              (find_websites_step E "ddg" (JList (map JStr names))
                                  (List.length names))
              (fun i links u =>
                 links = map (fun k => (JStr (nth k names EmptyString),
                                        JStr (href k))) (seq 0 i)
                 /\ n_search u = (n_search w1 + i)%nat)
              (seq 0 (List.length names)) [] w1)
    as (links & w2 & Hloop & Hlinks & Hs2).
  - split; [reflexivity | lia].
  - intros i x t u Hx (-> & Hsu).
    apply nth_error_seq_eq in Hx as [-> Hi]. cbn [Nat.add].
    unfold find_websites_step. cbn [item].
    rewrite nth_error_map, (nth_error_nth' names EmptyString Hi).
    cbn [option_map or_raise]. unfold bind at 1. cbn [ret].
    unfold bind at 1, print, emit.
    set (u1 := mkWorld _ _ _ _ _).
    destruct (Hall i Hi) as (r & others & Hreply & Hhref).
    assert (Hreply' : ddgs_text E (n_search u1)
                                (nth i names EmptyString ++ " BC")
                      = Ok (r :: others)).
    { unfold u1. cbn [n_search]. rewrite Hsu, Hs. exact Hreply. }
    destruct (duckduckgo_search_first_try _ u1 r others (href i)
                Hreply' Hhref) as (u2 & Hsearch & Hn2).
    change (search_backend E "ddg" (JStr (nth i names EmptyString)))
      with (link <- duckduckgo_search E (str (JStr (nth i names EmptyString))) ;;
            ret (Some (JStr link))).
    cbn [str]. rewrite (bind_ok _ (bind_ok _ Hsearch)).
    cbn [ret]. unfold store_link. cbn [hashable].
    rewrite set_fresh_text.
    + eexists. eexists. split; [reflexivity|]. split.
      * rewrite seq_S, map_app. reflexivity.
      * rewrite Hn2. unfold u1. cbn [n_search]. lia.
    + intros k' v' Hin Heq. apply in_map_iff in Hin as (k & Hk & Hin).
      inversion Hk; subst. inversion H0 as [Hname].
      apply in_seq in Hin.
      rewrite NoDup_nth in Hnd.
      assert (k = i) by (apply Hnd; [lia | lia | exact Hname]). lia.
    + intros k' v' Hin. apply in_map_iff in Hin as (k & Hk & _).
      inversion Hk; subst. eexists. reflexivity.
  - rewrite length_seq in Hlinks, Hs2. subst links.
    rewrite (bind_ok _ Hloop).
    destruct verbose; unfold bind, when, print, emit, ret; eexists;
      (split; [reflexivity|]); cbn [n_search]; lia.
Qed.

End DiscoveryLoop.

(* ================================================================== *)
(** * The search functions *)

Section SearchCalls.
Import PyStr PyVal Pandas Eff Automation.
Variable E : Env.

Lemma requests_app (t : list event) (e : event) :
  requests (t ++ [e])
  = (requests t
     ++ match e with EHttpGet url params => [(url, params)] | _ => [] end)%list.
Proof.
  induction t as [|x t IH]; cbn [app requests].
  - destruct e; reflexivity.
  - destruct x; rewrite IH; reflexivity.
Qed.

Lemma fold_sset_overrides (k : string) :
  forall (kwargs base : sdict json),
    NoDup (Dict.keys kwargs) ->
    sget k (fold_left (fun d kv => sset (fst kv) (snd kv) d) kwargs base)
    = match sget k kwargs with
      | Some v => Some v
      | None => sget k base
      end.
Proof.
  induction kwargs as [|[k0 v0] t IH]; intros base Hnd; [reflexivity|].
  cbn [fold_left fst snd]. inversion Hnd as [|? ? Hfresh Hnd']; subst.
  rewrite (IH _ Hnd'). unfold sget at 3. cbn [Dict.get].
  destruct (String.eqb k0 k) eqn:Hk.
  - apply String.eqb_eq in Hk. subst k0.
    apply (proj2 (sget_none_notin k t)) in Hfresh.
    rewrite Hfresh. apply sget_sset_same.
  - fold (@sget json k t). apply String.eqb_neq in Hk.
    rewrite (sget_sset_other k0 k v0 base Hk). reflexivity.
Qed.

Lemma names_a_parameter_iff (kwargs : sdict json) :
  names_a_parameter kwargs = true
  <-> exists k, In k (Dict.keys kwargs)
                /\ In k ["query"; "api_key"; "search_engine_id"].
Proof.
  unfold names_a_parameter. rewrite existsb_exists. split.
  - intros ([k v] & Hin & Hk). apply existsb_exists in Hk as (x & Hx & Heq).
    apply String.eqb_eq in Heq. cbn [fst] in Heq. subst x.
    exists k. split; [apply (in_map fst) in Hin; exact Hin | exact Hx].
  - intros (k & Hin & Hk). apply in_map_iff in Hin as ([k' v] & Heq & Hin).
    cbn [fst] in Heq. subst k'. exists (k, v). split; [exact Hin|].
    apply existsb_exists. exists k. split; [exact Hk|].
    apply String.eqb_refl.
Qed.

(** X20. A keyword argument of google_search named after one of its three
    parameters makes the call raise TypeError, before any request. With
    other keywords, google_search makes one request, to the address of the
    API, and answers with its reply; in the parameters of the request a
    keyword goes before the query, the key and the engine id: a parameter
    is the keyword argument of that name when there is one, and else the
    base parameter. *)
Theorem google_search_keywords_override (query : json)
        (api_key search_engine_id : string) (kwargs : sdict json)
        (w : world) :
  NoDup (Dict.keys kwargs) ->
  ((exists k, In k (Dict.keys kwargs)
              /\ In k ["query"; "api_key"; "search_engine_id"]) ->
   google_search E query api_key search_engine_id kwargs w
   = (Raise TypeError, w))
  /\ ((forall k, In k (Dict.keys kwargs) ->
                 ~ In k ["query"; "api_key"; "search_engine_id"]) ->
      exists params w',
        google_search E query api_key search_engine_id kwargs w
        = (requests_get_json E (n_http w) api_url params, w')
        /\ requests (trace w')
           = (requests (trace w) ++ [(api_url, params)])%list
        /\ n_http w' = S (n_http w)
        /\ forall k,
            sget k params
            = match sget k kwargs with
              | Some v => Some v
              | None => sget k (base_params query api_key search_engine_id)
              end).
Proof.
  intros Hnd. split.
  - intros Hnamed. apply names_a_parameter_iff in Hnamed.
    unfold google_search. rewrite Hnamed. reflexivity.
  - intros Hfree.
    assert (Hnone : names_a_parameter kwargs = false).
    { destruct (names_a_parameter kwargs) eqn:Hnamed; [|reflexivity].
      apply names_a_parameter_iff in Hnamed as (k & Hin & Hk).
      exfalso. exact (Hfree k Hin Hk). }
    unfold google_search. rewrite Hnone.
    eexists. eexists. split; [reflexivity|].
    cbn [trace n_http]. split; [|split; [reflexivity|]].
    + rewrite requests_app. reflexivity.
    + intros k. apply fold_sset_overrides. exact Hnd.
Qed.

Lemma google_search_by_name (name : string) (w : world) :
  google_search E (JStr name) (search_api_key E) (search_engine_id E)
                [("lim", JInt 1)] w
  = requests_get E api_url (name_request E name) w.
Proof. reflexivity. Qed.

(** X21. With the engine ["google"] and names that differ, find_websites
    sends one request for each name, with the parameter [lim] set to 1
    beside the query, the key and the engine id, and stores under each
    name the whole body of the reply, not a link drawn from it. *)
Theorem find_websites_google_stores_replies (source : string)
        (verbose : bool) (w : world) (key : string) (names : list string)
        (rest : list (string * json)) (reply : nat -> json) :
  NoDup names ->
  stdout (discovery_answer E w source) <> EmptyString ->
  json_loads E (stdout (discovery_answer E w source))
  = Some (JObj ((key, JList (map JStr names)) :: rest)) ->
  (forall k, (k < List.length names)%nat ->
             requests_get_json E (n_http w + k) api_url
                               (name_request E (nth k names EmptyString))
             = Ok (reply k)) ->
  exists w',
    find_websites E source "google" verbose w
    = (Ok (NamesLinks
             (JList (map JStr names))
             (map (fun k => (JStr (nth k names EmptyString), reply k))
                  (seq 0 (List.length names)))), w')
    /\ requests (trace w')
       = (requests (trace w)
          ++ map (fun k => (api_url, name_request E (nth k names EmptyString)))
                 (seq 0 (List.length names)))%list.
Proof.
  intros Hnd Hout Hparse Hall.
  rewrite (find_websites_on_names E source "google" verbose w key
             (map JStr names) rest Hout Hparse).
  destruct (discovered_counters E source verbose w) as (_ & _ & Hh).
  assert (Hreq : requests (trace (discovered E source verbose w))
                 = requests (trace w)).
  { unfold discovered, bind, run.
    destruct verbose; cbn [when print emit ret snd trace];
      repeat rewrite requests_app; repeat rewrite app_nil_r; reflexivity. }
  set (w1 := discovered E source verbose w) in *.
  rewrite length_map.
  destruct (for_each_progress
              (find_websites_step E "google" (JList (map JStr names))
                                  (List.length names))
              (fun i links u =>
                 links = map (fun k => (JStr (nth k names EmptyString),
                                        reply k)) (seq 0 i)
                 /\ n_http u = (n_http w1 + i)%nat
                 /\ requests (trace u)
                    = (requests (trace w1)
                       ++ map (fun k => (api_url,
                                         name_request E
                                           (nth k names EmptyString)))
                              (seq 0 i))%list)
              (seq 0 (List.length names)) [] w1)
    as (links & w2 & Hloop & Hlinks & Hh2 & Hreq2).
  - split; [reflexivity|]. split; [lia|]. cbn. rewrite app_nil_r. reflexivity.
  - intros i x t u Hx (-> & Hhu & Hru).
    apply nth_error_seq_eq in Hx as [-> Hi]. cbn [Nat.add].
    unfold find_websites_step. cbn [item].
    rewrite nth_error_map, (nth_error_nth' names EmptyString Hi).
    cbn [option_map or_raise]. unfold bind at 1. cbn [ret].
    unfold bind at 1, print, emit.
    set (u1 := mkWorld _ _ _ _ _).
    change (search_backend E "google" (JStr (nth i names EmptyString)))
      with (link <- google_search E (JStr (nth i names EmptyString))
                      (search_api_key E) (search_engine_id E)
                      [("lim", JInt 1)] ;;
            ret (Some link)).
    assert (Hcall : google_search E (JStr (nth i names EmptyString))
                      (search_api_key E) (search_engine_id E)
                      [("lim", JInt 1)] u1
                    = (Ok (reply i),
                       mkWorld (trace u1
                                ++ [EHttpGet api_url
                                      (name_request E
                                         (nth i names EmptyString))])%list
                               (n_run u1) (n_search u1) (S (n_http u1))
                               (n_clock u1))).
    { rewrite google_search_by_name. unfold requests_get.
      f_equal. unfold u1. cbn [n_http]. rewrite Hhu, Hh. apply Hall, Hi. }
    rewrite (bind_ok _ (bind_ok _ Hcall)).
    cbn [ret]. unfold store_link. cbn [hashable].
    rewrite set_fresh_text.
    + eexists. eexists. split; [reflexivity|]. split; [|split].
      * rewrite seq_S, map_app. reflexivity.
      * unfold u1. cbn [n_http]. lia.
      * unfold u1. cbn [trace]. rewrite !requests_app, app_nil_r, Hru.
        rewrite seq_S, map_app, app_assoc. reflexivity.
    + intros k' v' Hin Heq. apply in_map_iff in Hin as (k & Hk & Hin).
      inversion Hk; subst. inversion H0 as [Hname].
      apply in_seq in Hin.
      rewrite NoDup_nth in Hnd.
      assert (k = i) by (apply Hnd; [lia | lia | exact Hname]). lia.
    + intros k' v' Hin. apply in_map_iff in Hin as (k & Hk & _).
      inversion Hk; subst. eexists. reflexivity.
  - rewrite length_seq in Hlinks, Hh2, Hreq2. subst links.
    rewrite (bind_ok _ Hloop).
    destruct verbose; unfold bind, when, print, emit, ret; eexists;
      (split; [reflexivity|]); cbn [trace];
      rewrite ?requests_app, ?app_nil_r, Hreq2, Hreq; reflexivity.
Qed.

(** X22. get_links returns the [link] of the first item of the reply of
    google_search, whatever the limit [lim] it is given and whatever items
    follow; it makes nothing but the request of google_search. *)
Theorem get_links_first_item (query : json)
        (api_key search_engine_id : string) (lim : Z)
        (kwargs : sdict json) (w w1 : world)
        (fields first : sdict json) (others : list json) (link : json) :
  google_search E query api_key search_engine_id kwargs w
  = (Ok (JObj fields), w1) ->
  sget "items" fields = Some (JList (JObj first :: others)) ->
  sget "link" first = Some link ->
  Lookup.get_links E query api_key search_engine_id lim kwargs w
  = (Ok link, w1).
Proof.
  intros Hcall Hitems Hlink. unfold Lookup.get_links.
  rewrite (bind_ok _ Hcall), Hitems.
  unfold bind at 1. cbn [ret]. unfold bind at 1.
  cbn [item nth_error or_raise ret]. unfold Lookup.field.
  rewrite Hlink. reflexivity.
Qed.

(** X23. When the reply of google_search is an object without [items], or
    with an empty list of them, get_links raises IndexError: it has no
    answer for a search without results. *)
Theorem get_links_without_items (query : json)
        (api_key search_engine_id : string) (lim : Z)
        (kwargs : sdict json) (w w1 : world) (fields : sdict json) :
  google_search E query api_key search_engine_id kwargs w
  = (Ok (JObj fields), w1) ->
  sget "items" fields = None \/ sget "items" fields = Some (JList []) ->
  Lookup.get_links E query api_key search_engine_id lim kwargs w
  = (Raise IndexError, w1).
Proof.
  intros Hcall Hitems. unfold Lookup.get_links.
  rewrite (bind_ok _ Hcall).
  destruct Hitems as [-> | ->]; reflexivity.
Qed.

Lemma replace_has_no_space (s : string) :
  has_char " "%char (replace_char " "%char "+"%char s) = false.
Proof.
  induction s as [|c s IH]; [reflexivity|].
  cbn [replace_char has_char]. rewrite IH, orb_false_r.
  destruct (Ascii.eqb c " ") eqn:Hc; [reflexivity | exact Hc].
Qed.

Lemma has_char_app (c : ascii) (a b : string) :
  has_char c (a ++ b) = has_char c a || has_char c b.
Proof.
  induction a as [|x a IH]; [reflexivity|].
  cbn [append has_char]. rewrite IH, orb_assoc. reflexivity.
Qed.

Lemma search_page_has_no_space (name : string) :
  has_char " "%char (search_page name) = false.
Proof.
  unfold search_page. rewrite !has_char_app, replace_has_no_space.
  reflexivity.
Qed.

(** X24. scrap_link runs the scraper once, on a search page whose address
    holds no space, and returns a link exactly when the stdout of the
    scraper parses to an object with a [link], which it returns as it is. *)
Theorem scrap_link_returns_iff (name : string) (w : world) :
  exists w',
    snd (scrap_link E (JStr name) w) = w'
    /\ runs (trace w')
       = (runs (trace w)
          ++ [scraper_argv ("find the link of " ++ name)
                           (search_page name)])%list
    /\ has_char " "%char (search_page name) = false
    /\ forall link,
        fst (scrap_link E (JStr name) w) = Ok link
        <-> exists fields,
            json_loads E (stdout (link_answer E w name)) = Some (JObj fields)
            /\ sget "link" fields = Some link.
Proof.
  eexists. split; [reflexivity|].
  assert (Hshape :
            scrap_link E (JStr name) w
            = (l2 <- loads E (stdout (link_answer E w name)) ;;
               match l2 with
               | JObj fields =>
                   or_raise (sget "link" fields) (KeyError (JStr "link"))
               | _ => raise TypeError
               end)
                (mkWorld (trace w
                          ++ [ERun (scraper_argv ("find the link of " ++ name)
                                                 (search_page name))])%list
                         (S (n_run w)) (n_search w) (n_http w) (n_clock w)))
    by reflexivity.
  rewrite Hshape. clear Hshape.
  unfold loads, link_answer.
  destruct (json_loads E _) as [v|] eqn:Hparse; cbn [or_raise].
  - unfold bind. cbn [ret].
    assert (Hruns : forall t argv,
               runs (t ++ [ERun argv]) = (runs t ++ [argv])%list).
    { intros t argv. induction t as [|x t IH]; [reflexivity|].
      cbn [app runs]. destruct x; rewrite IH; reflexivity. }
    destruct v as [| | | | |l|fields];
      try (cbn [raise snd fst trace]; split; [apply Hruns|];
           split; [apply search_page_has_no_space|];
           intros link; split;
           [discriminate | intros (fields & Hf & _); discriminate]).
    destruct (sget "link" fields) as [v|] eqn:Hlink;
      cbn [or_raise ret raise snd fst trace];
      (split; [apply Hruns|]);
      (split; [apply search_page_has_no_space|]); intros link; split.
    + intros Heq. inversion Heq; subst. exists fields. auto.
    + intros (fields' & Hf & Hl). inversion Hf; subst. congruence.
    + discriminate.
    + intros (fields' & Hf & Hl). inversion Hf; subst. congruence.
  - unfold bind. cbn [raise snd fst trace].
    split; [|split; [apply search_page_has_no_space|]].
    + induction (trace w) as [|x t IH]; [reflexivity|].
      cbn [app runs]. destruct x; rewrite IH; reflexivity.
    + intros link; split;
        [discriminate | intros (fields & Hf & _); discriminate].
Qed.

End SearchCalls.

(* ================================================================== *)
(** * The link stored with a record *)

Section StoredLinks.
Import PyStr PyVal Pandas Eff Automation.
Variable E : Env.

(** X25. The link that get_np_info stores with a record is the link it
    was given, cut before its last slash, whatever follows that slash; a
    link without a slash is stored whole. *)
Theorem get_np_info_cuts_the_last_segment (limit : Z)
        (links NPs_names : list string) (verbose : bool) (w : world)
        (d : sdict (sdict json)) (w' : world) (k : nat) :
  get_np_info E limit links NPs_names verbose w = (Ok d, w') ->
  (k < Z.to_nat limit)%nat ->
  extracted E w links k = true ->
  (forall j, (k < j < Z.to_nat limit)%nat ->
             extracted E w links j = true ->
             name_of NPs_names j <> name_of NPs_names k) ->
  exists record,
    sget (name_of NPs_names k) d = Some record
    /\ (forall h t, link_of links k = h ++ String slash t ->
                    has_char slash t = false ->
                    sget "link" record = Some (JStr h))
    /\ (has_char slash (link_of links k) = false ->
        sget "link" record = Some (JStr (link_of links k))).
Proof.
  intros H Hk Hx Hlater.
  destruct (get_np_info_spec H) as (Hd & _ & _ & _ & _ & Hparse & _).
  destruct (Hparse k Hk Hx) as (fields & Hfields).
  destruct (record_of_fields E w links NPs_names k Hfields)
    as (_ & Hlink & _).
  exists (record_of E w links NPs_names k). split; [|split].
  - subst d. apply collected_last; assumption.
  - intros h t Heq Ht. rewrite Hlink, Heq. unfold rsplit_slash_head.
    rewrite (before_last_slash_app h t Ht). reflexivity.
  - intros Hnone. rewrite Hlink. unfold rsplit_slash_head.
    rewrite (before_last_slash_none _ Hnone). reflexivity.
Qed.

End StoredLinks.

(* ================================================================== *)
(** * The further properties at work in the small world *)

Section MoreInstances.
Import PyStr PyVal Pandas Eff Automation.

Lemma flaky_limited_twice :
  forall k, (k < 2)%nat ->
            rate_limited (Demo2.env_with Demo2.flaky) "Alpha"
                         (n_search world0 + k).
Proof.
  intros k Hk. exists "https://duckduckgo.com/ 202 Ratelimit".
  destruct k as [|[|k]]; [split; reflexivity | split; reflexivity | lia].
Defined.

Lemma never_limited (E : Env) (query : string) :
  forall k, (k < 0)%nat -> rate_limited E query (n_search world0 + k).
Proof. intros k Hk. lia. Defined.

Lemma duckduckgo_search_recovers_witness :
  (2 <= 9)%nat
  /\ (forall k, (k < 2)%nat ->
                rate_limited (Demo2.env_with Demo2.flaky) "Alpha"
                             (n_search world0 + k))
  /\ exists w',
      duckduckgo_search (Demo2.env_with Demo2.flaky) "Alpha" world0
      = (Ok "https://found.example", w')
      /\ sleeps (trace w')
         = (sleeps (trace world0)
            ++ map (fun k => 5 * 2 ^ Z.of_nat k)%Z (seq 0 2))%list
      /\ n_search w' = (n_search world0 + 2 + 1)%nat.
Proof.
  split; [lia|]. split; [exact flaky_limited_twice|].
  eapply (duckduckgo_search_recovers
            (Demo2.env_with Demo2.flaky) "Alpha" world0 2
            [("title", "Alpha BC"); ("href", "https://found.example")] []);
    [lia | exact flaky_limited_twice | reflexivity | reflexivity].
Defined.

Lemma duckduckgo_search_other_errors_witness :
  (0 <= 9)%nat
  /\ is_rate_limit
       (Raise (DuckDuckGoSearchException "https://duckduckgo.com/ timed out")
        : outcome (list (sdict string)))
     = false
  /\ exists w',
      duckduckgo_search (Demo2.env_with Demo2.timing_out) "Alpha" world0
      = (Raise (DuckDuckGoSearchException "https://duckduckgo.com/ timed out"),
         w')
      /\ sleeps (trace w')
         = (sleeps (trace world0)
            ++ map (fun k => 5 * 2 ^ Z.of_nat k)%Z (seq 0 0))%list
      /\ n_search w' = (n_search world0 + 0 + 1)%nat.
Proof.
  split; [lia|]. split; [vm_compute; reflexivity|].
  eapply (duckduckgo_search_other_errors
            (Demo2.env_with Demo2.timing_out) "Alpha" world0 0);
    [lia | apply never_limited | reflexivity | vm_compute; reflexivity].
Defined.

Lemma duckduckgo_search_unusable_results_witness :
  (0 <= 9)%nat
  /\ ddgs_text (Demo2.env_with Demo2.finding_nothing)
               (n_search world0 + 0) ("Alpha" ++ " BC") = Ok []
  /\ exists w',
      duckduckgo_search (Demo2.env_with Demo2.finding_nothing) "Alpha" world0
      = (Raise IndexError, w')
      /\ n_search w' = (n_search world0 + 0 + 1)%nat.
Proof.
  split; [lia|]. split; [reflexivity|].
  eapply (proj1 (duckduckgo_search_unusable_results
                   (Demo2.env_with Demo2.finding_nothing) "Alpha" world0 0 []
                   ltac:(lia) (never_limited _ _) eq_refl)).
  reflexivity.
Defined.

Lemma duckduckgo_search_budget_witness :
  exists r w',
    duckduckgo_search (Demo2.env_with Demo2.flaky) "Alpha" world0 = (r, w')
    /\ exists j,
        (j <= 9)%nat
        /\ n_search w' = (n_search world0 + j + 1)%nat
        /\ sleeps (trace w')
           = (sleeps (trace world0)
              ++ map (fun k => 5 * 2 ^ Z.of_nat k)%Z (seq 0 j))%list
        /\ (forall k, (k < j)%nat ->
                      rate_limited (Demo2.env_with Demo2.flaky) "Alpha"
                                   (n_search world0 + k))
        /\ (total_sleep (trace w') <= total_sleep (trace world0) + 2555)%Z.
Proof.
  eexists. eexists. split; [vm_compute; reflexivity|].
  eapply (duckduckgo_search_budget
            (Demo2.env_with Demo2.flaky) "Alpha" world0).
  vm_compute; reflexivity.
Defined.

Lemma duckduckgo_search_raises_a_reply_witness :
  exists e w',
    duckduckgo_search (Demo2.env_with Demo2.timing_out) "Alpha" world0
    = (Raise e, w')
    /\ (forall r1 w1,
           for_return (seq 0 max_retries)
                      (ddg_attempt (Demo2.env_with Demo2.timing_out) "Alpha")
                      world0 = (r1, w1) ->
           r1 <> Ok None)
    /\ exists j, (j <= 9)%nat
                 /\ n_search w' = (n_search world0 + j + 1)%nat.
Proof.
  eexists. eexists. split; [vm_compute; reflexivity|].
  destruct (duckduckgo_search_raises_a_reply
              (Demo2.env_with Demo2.timing_out) "Alpha" world0
              (DuckDuckGoSearchException "https://duckduckgo.com/ timed out")
              _ ltac:(vm_compute; reflexivity))
    as (Hloop & j & Hj & Hn & _).
  split; [exact Hloop|]. exists j. split; [exact Hj | exact Hn].
Defined.

Lemma storable_a :
  forall k, (k < 3)%nat -> storable Demo.env world0 Demo.links_a k = true.
Proof.
  intros k Hk.
  destruct k as [|[|[|k]]]; [vm_compute; reflexivity .. | lia].
Defined.

Lemma get_np_info_returns_iff_witness :
  ((Z.to_nat 3 <= List.length Demo.links_a)%nat
   /\ (Z.to_nat 3 <= List.length Demo.names_a)%nat
   /\ forall k, (k < Z.to_nat 3)%nat ->
                storable Demo.env world0 Demo.links_a k = true)
  /\ exists d w',
      get_np_info Demo.env 3 Demo.links_a Demo.names_a false world0
      = (Ok d, w').
Proof.
  assert (H : (Z.to_nat 3 <= List.length Demo.links_a)%nat
              /\ (Z.to_nat 3 <= List.length Demo.names_a)%nat
              /\ forall k, (k < Z.to_nat 3)%nat ->
                           storable Demo.env world0 Demo.links_a k = true).
  { split; [vm_compute; lia|]. split; [vm_compute; lia|]. exact storable_a. }
  split; [exact H|].
  exact (proj2 (get_np_info_returns_iff
                  Demo.env 3 Demo.links_a Demo.names_a false world0) H).
Defined.

Lemma get_np_info_stops_on_bad_answer_witness :
  (1 < Z.to_nat 2)%nat
  /\ storable Demo.env world0 Demo2.garbled_batch 0 = true
  /\ storable Demo.env world0 Demo2.garbled_batch 1 = false
  /\ exists w',
      get_np_info Demo.env 2 Demo2.garbled_batch Demo2.two_names false world0
      = (Raise JSONDecodeError, w')
      /\ n_run w' = (n_run world0 + 1 + 1)%nat.
Proof.
  split; [vm_compute; lia|]. split; [vm_compute; reflexivity|].
  split; [vm_compute; reflexivity|].
  eapply (get_np_info_stops_on_bad_answer
            Demo.env 2 Demo2.garbled_batch Demo2.two_names false world0 1);
    [vm_compute; lia | vm_compute; lia | vm_compute; lia
     | intros i Hi; destruct i as [|i]; [vm_compute; reflexivity | lia]
     | vm_compute; reflexivity].
Defined.

Lemma get_np_info_last_answer_wins_witness :
  name_of Demo2.one_name 0 = name_of Demo2.one_name 1
  /\ exists d w',
      get_np_info Demo.env 2 Demo2.two_pages Demo2.one_name false world0
      = (Ok d, w')
      /\ exists fields record,
          json_loads Demo.env
                     (stdout (answer_of Demo.env world0 Demo2.two_pages 1))
          = Some (JObj fields)
          /\ sget (name_of Demo2.one_name 1) d = Some record
          /\ sget "name" record = Some (JStr (name_of Demo2.one_name 1))
          /\ sget "link" record
             = Some (JStr (rsplit_slash_head (link_of Demo2.two_pages 1)))
          /\ (forall f, f <> "name" -> f <> "link" ->
                        sget f record = sget f fields).
Proof.
  split; [reflexivity|].
  eexists. eexists. split; [vm_compute; reflexivity|].
  eapply (get_np_info_last_answer_wins
            Demo.env world0 Demo2.two_pages Demo2.one_name 2 false);
    [vm_compute; reflexivity | vm_compute; lia | vm_compute; reflexivity
     | intros j Hj; vm_compute in Hj; lia].
Defined.

Lemma get_np_info_keys_witness :
  exists d w',
    get_np_info Demo.env 3 Demo.links_a Demo.names_a false world0
    = (Ok d, w')
    /\ NoDup (Dict.keys d)
    /\ (forall key,
           In key (Dict.keys d)
           <-> exists k, (k < Z.to_nat 3)%nat
                         /\ extracted Demo.env world0 Demo.links_a k = true
                         /\ name_of Demo.names_a k = key)
    /\ (List.length d
        <= List.length (extracted_among Demo.env world0 Demo.links_a
                                        (Z.to_nat 3)))%nat.
Proof.
  eexists. eexists. split; [vm_compute; reflexivity|].
  eapply (get_np_info_keys Demo.env world0 Demo.links_a Demo.names_a 3 false).
  vm_compute; reflexivity.
Defined.

Lemma create_database_returns_iff_witness :
  NoDup (Dict.keys Demo.one_record)
  /\ forallb assemblable (map snd Demo.one_record) = true
  /\ exists d' db w',
      create_database Demo.one_record false world0 = (Ok (d', db), w').
Proof.
  split; [exact one_record_nodup|]. split; [vm_compute; reflexivity|].
  apply (proj2 (create_database_returns_iff Demo.one_record false world0
                  one_record_nodup)).
  vm_compute; reflexivity.
Defined.

Lemma with_beta_nodup :
  NoDup (Dict.keys (Demo.one_record ++ ("Beta", Demo2.no_contacts) :: [])%list).
Proof.
  vm_compute.
  repeat (constructor; [cbn; intuition discriminate|]). constructor.
Defined.

Lemma create_database_stops_witness :
  NoDup (Dict.keys (Demo.one_record ++ ("Beta", Demo2.no_contacts) :: [])%list)
  /\ forallb assemblable (map snd Demo.one_record) = true
  /\ assemblable Demo2.no_contacts = false
  /\ create_database (Demo.one_record ++ ("Beta", Demo2.no_contacts) :: [])%list
                     false world0
     = (Raise (KeyError (JStr "contacts")), world0).
Proof.
  split; [exact with_beta_nodup|]. split; [vm_compute; reflexivity|].
  split; [vm_compute; reflexivity|].
  apply (create_database_stops Demo.one_record [] "Beta" Demo2.no_contacts
           false world0 with_beta_nodup);
    vm_compute; reflexivity.
Defined.

Lemma text_contacts_nodup : NoDup (Dict.keys Demo2.text_contacts).
Proof.
  vm_compute.
  repeat (constructor; [cbn; intuition discriminate|]). constructor.
Defined.

Lemma contacts_text_loses_its_ends_witness :
  NoDup (Dict.keys Demo2.text_contacts)
  /\ (2 <= String.length "e@x.org")%nat
  /\ exists d' db w',
      create_database Demo2.text_contacts false world0 = (Ok (d', db), w')
      /\ exists row a b core,
          nth_error (rows db) 0 = Some row
          /\ cell_at (columns db) row "contacts" = Some (Val (JStr core))
          /\ "e@x.org" = String a (core ++ chr b).
Proof.
  split; [exact text_contacts_nodup|]. split; [vm_compute; lia|].
  eexists. eexists. eexists. split; [vm_compute; reflexivity|].
  eapply (contacts_text_loses_its_ends
            Demo2.text_contacts false world0 _ _ _ 0 "Epsilon"
            [("name", JStr "Epsilon"); ("contacts", JStr "e@x.org")]
            "e@x.org" text_contacts_nodup);
    [vm_compute; reflexivity | reflexivity | reflexivity | vm_compute; lia].
Defined.

Lemma table_is_rectangular_witness :
  NoDup (Dict.keys Demo.one_record)
  /\ exists d' db w',
      create_database Demo.one_record false world0 = (Ok (d', db), w')
      /\ List.length (rows db) = List.length Demo.one_record
      /\ (forall row, In row (rows db) ->
                      List.length row = List.length (columns db))
      /\ firstn 7 (columns db) = table_columns.
Proof.
  split; [exact one_record_nodup|].
  eexists. eexists. eexists. split; [vm_compute; reflexivity|].
  destruct (table_is_rectangular Demo.one_record false world0 _ _ _
              one_record_nodup ltac:(vm_compute; reflexivity))
    as (Hrows & Hwidth & Hcols & _).
  split; [exact Hrows|]. split; [exact Hwidth | exact Hcols].
Defined.

Lemma create_database_twice_witness :
  NoDup (Dict.keys Demo.one_record)
  /\ exists d' db w',
      create_database Demo.one_record false world0 = (Ok (d', db), w')
      /\ exists d'' db' w'',
          create_database d' true w' = (Ok (d'', db'), w'')
          /\ forall key record contacts,
              sget key Demo.one_record = Some record ->
              sget "contacts" record = Some contacts ->
              exists record'',
                sget key d'' = Some record''
                /\ sget "contacts" record''
                   = Some (JStr (slice_1_m1 (slice_1_m1 (str contacts)))).
Proof.
  split; [exact one_record_nodup|].
  eexists. eexists. eexists. split; [vm_compute; reflexivity|].
  eapply (create_database_twice Demo.one_record false world0 _ _ _ true
            one_record_nodup).
  vm_compute; reflexivity.
Defined.

Lemma script_saves_once_or_never_witness :
  (exists r w',
      script Demo.env Demo.args_a world0 = (r, w')
      /\ r = Ok tt
      /\ List.length (written (trace w')) = 1%nat)
  /\ (exists r w',
         script Demo.env Demo2.args_nodir world0 = (r, w')
         /\ r <> Ok tt
         /\ written (trace w') = written (trace world0)).
Proof.
  split.
  - eexists. eexists. split; [vm_compute; reflexivity|].
    destruct (script_saves_once_or_never Demo.env Demo.args_a world0 _ _
                ltac:(vm_compute; reflexivity))
      as [(db & w1 & _ & [(_ & Hr & Hw) | (e & _ & Hr & _)])
         | (e & _ & Hr & _)];
      try discriminate Hr.
    split; [exact Hr|]. rewrite Hw, length_app. reflexivity.
  - eexists. eexists. split; [vm_compute; reflexivity|].
    destruct (script_saves_once_or_never Demo.env Demo2.args_nodir world0 _ _
                ltac:(vm_compute; reflexivity))
      as [(db & w1 & _ & [(_ & Hr & _) | (e & _ & Hr & Hw)])
         | (e & _ & Hr & Hw)];
      try discriminate Hr.
    + split; [discriminate | exact Hw].
    + split; [discriminate | exact Hw].
Defined.

Lemma main_limit_above_batch_witness :
  pickle_file Demo.env (("cacheA" ++ "/links") ++ ".pkl") = Some Demo.cache_a
  /\ (List.length (batch_names Demo.env "cacheA" 3) < Z.to_nat 5)%nat
  /\ exists w',
      main Demo.env 3 5 "cacheA" false world0 = (Raise IndexError, w')
      /\ n_run w'
         = (n_run world0 + List.length (batch_names Demo.env "cacheA" 3))%nat.
Proof.
  split; [reflexivity|]. split; [vm_compute; lia|].
  eapply (main_limit_above_batch Demo.env 3 5 "cacheA" false world0
            Demo.cache_a);
    [reflexivity | vm_compute; lia
     | intros k Hk; apply storable_a; vm_compute in Hk; lia].
Defined.

Lemma table_follows_the_cache_witness :
  NoDup (Dict.keys (cache_of Demo.env "cacheA"))
  /\ exists db w',
      main Demo.env 3 3 "cacheA" false world0 = (Ok db, w')
      /\ map (fun row => cell_at (columns db) row "name") (rows db)
         = map (fun k => Some (Val (JStr (name_of
                                            (batch_names Demo.env "cacheA" 3)
                                            k))))
               (extracted_among Demo.env world0
                                (batch_links Demo.env "cacheA" 3)
                                (Z.to_nat 3)).
Proof.
  split; [exact cache_a_nodup|].
  eexists. eexists. split; [vm_compute; reflexivity|].
  eapply (table_follows_the_cache Demo.env 3 3 "cacheA" false world0);
    [exact cache_a_nodup | vm_compute; reflexivity].
Defined.

Lemma find_websites_unknown_engine_witness :
  "bing" <> "google" /\ "bing" <> "ddg" /\ "bing" <> "gemini"
  /\ exists w',
      find_websites Demo.env "http://directory.example" "bing" false world0
      = (Ok (NamesLinks (JList [JStr "Alpha"; JStr "Beta"]) []), w')
      /\ n_search w' = n_search world0
      /\ n_http w' = n_http world0
      /\ n_run w' = S (n_run world0).
Proof.
  split; [discriminate|]. split; [discriminate|]. split; [discriminate|].
  eapply (find_websites_unknown_engine
            Demo.env "http://directory.example" "bing" false world0
            "associations" [JStr "Alpha"; JStr "Beta"] []);
    [discriminate | discriminate | discriminate
     | vm_compute; discriminate | vm_compute; reflexivity].
Defined.

Lemma listed_nodup : NoDup Demo2.listed.
Proof.
  vm_compute.
  repeat (constructor; [cbn; intuition discriminate|]). constructor.
Defined.

Lemma find_websites_resolves_each_name_witness :
  NoDup Demo2.listed
  /\ exists w',
      find_websites Demo2.env "http://directory.example" "ddg" false world0
      = (Ok (NamesLinks
               (JList (map JStr Demo2.listed))
               (map (fun k => (JStr (nth k Demo2.listed EmptyString),
                               JStr (Demo2.page_of k)))
                    (seq 0 (List.length Demo2.listed)))), w')
      /\ n_search w' = (n_search world0 + List.length Demo2.listed)%nat.
Proof.
  split; [exact listed_nodup|].
  eapply (find_websites_resolves_each_name
            Demo2.env "http://directory.example" false world0
            "associations" Demo2.listed [] Demo2.page_of listed_nodup);
    [vm_compute; discriminate | vm_compute; reflexivity|].
  intros k Hk. eexists. exists []. split; [reflexivity|].
  destruct k as [|[|k]]; [reflexivity | reflexivity | cbn in Hk; lia].
Defined.

Lemma keywords_nodup : NoDup (Dict.keys Demo2.keywords).
Proof.
  vm_compute.
  repeat (constructor; [cbn; intuition discriminate|]). constructor.
Defined.

Lemma named_nodup : NoDup (Dict.keys Demo2.named).
Proof.
  vm_compute.
  repeat (constructor; [cbn; intuition discriminate|]). constructor.
Defined.

Lemma google_search_keywords_override_witness :
  NoDup (Dict.keys Demo2.keywords)
  /\ NoDup (Dict.keys Demo2.named)
  /\ google_search Demo2.env (JStr "Alpha") "api-key" "engine-id"
                   Demo2.named world0
     = (Raise TypeError, world0)
  /\ exists params w',
      google_search Demo2.env (JStr "Alpha") "api-key" "engine-id"
                    Demo2.keywords world0
      = (requests_get_json Demo2.env (n_http world0) api_url params, w')
      /\ sget "q" params = Some (JStr "other")
      /\ sget "key" params = Some (JStr "api-key")
      /\ sget "lim" params = Some (JInt 1).
Proof.
  split; [exact keywords_nodup|]. split; [exact named_nodup|]. split.
  - apply (proj1 (google_search_keywords_override
                    Demo2.env (JStr "Alpha") "api-key" "engine-id"
                    Demo2.named world0 named_nodup)).
    exists "query". split; [left; reflexivity | left; reflexivity].
  - destruct (proj2 (google_search_keywords_override
                       Demo2.env (JStr "Alpha") "api-key" "engine-id"
                       Demo2.keywords world0 keywords_nodup))
      as (params & w' & Hcall & _ & _ & Hparams).
    + intros k Hk Hnamed. cbn in Hk, Hnamed.
      destruct Hk as [<-|[<-|[]]];
        destruct Hnamed as [H|[H|[H|[]]]]; discriminate H.
    + exists params, w'. split; [exact Hcall|].
      rewrite !Hparams. repeat split.
Defined.

Lemma find_websites_google_stores_replies_witness :
  NoDup Demo2.listed
  /\ exists w',
      find_websites Demo2.env "http://directory.example" "google" false
                    world0
      = (Ok (NamesLinks
               (JList (map JStr Demo2.listed))
               (map (fun k => (JStr (nth k Demo2.listed EmptyString),
                               Demo2.response))
                    (seq 0 (List.length Demo2.listed)))), w')
      /\ requests (trace w')
         = (requests (trace world0)
            ++ map (fun k => (api_url,
                              name_request Demo2.env
                                           (nth k Demo2.listed EmptyString)))
                   (seq 0 (List.length Demo2.listed)))%list.
Proof.
  split; [exact listed_nodup|].
  eapply (find_websites_google_stores_replies
            Demo2.env "http://directory.example" false world0
            "associations" Demo2.listed [] (fun _ => Demo2.response)
            listed_nodup);
    [vm_compute; discriminate | vm_compute; reflexivity|].
  intros k Hk. reflexivity.
Defined.

Lemma get_links_first_item_witness :
  exists w1,
    google_search Demo2.env (JStr "Alpha") "api-key" "engine-id" [] world0
    = (Ok Demo2.response, w1)
    /\ Lookup.get_links Demo2.env (JStr "Alpha") "api-key" "engine-id" 5 []
                        world0
       = (Ok (JStr "https://alpha.example"), w1).
Proof.
  eexists. split; [vm_compute; reflexivity|].
  eapply (get_links_first_item
            Demo2.env (JStr "Alpha") "api-key" "engine-id" 5 [] world0);
    [vm_compute; reflexivity | vm_compute; reflexivity
     | vm_compute; reflexivity].
Defined.

Lemma get_links_without_items_witness :
  exists fields w1,
    google_search Demo2.env_without_results (JStr "Alpha") "api-key"
                  "engine-id" [] world0
    = (Ok (JObj fields), w1)
    /\ sget "items" fields = None
    /\ Lookup.get_links Demo2.env_without_results (JStr "Alpha") "api-key"
                        "engine-id" 1 [] world0
       = (Raise IndexError, w1).
Proof.
  eexists. eexists. split; [vm_compute; reflexivity|].
  split; [vm_compute; reflexivity|].
  eapply (get_links_without_items
            Demo2.env_without_results (JStr "Alpha") "api-key" "engine-id"
            1 [] world0);
    [vm_compute; reflexivity | left; vm_compute; reflexivity].
Defined.

Lemma get_np_info_cuts_the_last_segment_witness :
  (0 < Z.to_nat 3)%nat
  /\ extracted Demo.env world0 Demo.links_a 0 = true
  /\ link_of Demo.links_a 0
     = "http://example.org/team" ++ String slash "about"
  /\ has_char slash "about" = false
  /\ exists d w',
      get_np_info Demo.env 3 Demo.links_a Demo.names_a false world0
      = (Ok d, w')
      /\ exists record,
          sget (name_of Demo.names_a 0) d = Some record
          /\ sget "link" record = Some (JStr "http://example.org/team").
Proof.
  split; [vm_compute; lia|]. split; [vm_compute; reflexivity|].
  split; [vm_compute; reflexivity|]. split; [vm_compute; reflexivity|].
  eexists. eexists. split; [vm_compute; reflexivity|].
  destruct (get_np_info_cuts_the_last_segment
              Demo.env 3 Demo.links_a Demo.names_a false world0 _ _ 0
              ltac:(vm_compute; reflexivity) ltac:(vm_compute; lia)
              ltac:(vm_compute; reflexivity))
    as (record & Hrecord & Hcut & _).
  - intros j Hj _ Heq.
    destruct j as [|[|[|j]]];
      [lia | vm_compute in Heq; discriminate
       | vm_compute in Heq; discriminate | vm_compute in Hj; lia].
  - exists record. split; [exact Hrecord|].
    apply (Hcut "http://example.org/team" "about");
      vm_compute; reflexivity.
Defined.

End MoreInstances.
